(** * ArXiv paper store: single-table denormalisation, keyword extraction
      and query-key construction

    A shallow embedding of [problem2/load_data.py], [problem2/query_papers.py]
    and [problem2/api_server.py], and the properties of the design document
    that are settled against it.

    Conventions of the embedding
    - a Python [str] is the list of its Unicode code points ([list N]);
      literals are written [u "..."];
    - a Python [dict] with string keys is a [gmap], except where insertion
      order is observable ([Counter]), which is an association list;
    - code that can raise returns a [result];
    - the key-value store and the interpreter's library functions are not part
      of the repository; each is modelled next to its first use, with the
      documented behaviour it stands for, or is a parameter of the code that
      calls it where its behaviour depends on the interpreter version or on
      tables too large to write down ([repr], [datetime.fromisoformat],
      [str.lower] on a caller's text, [urlparse], [parse_qs], [unquote],
      [int]). *)

From Stdlib Require Import ZArith NArith List Bool Lia Ascii String Permutation.
From stdpp Require Import base option list gmap sorting.

Local Open Scope N_scope.

(** ** Strings as sequences of code points *)

Abbreviation char := N (only parsing).
Abbreviation str := (list N) (only parsing).

(** A literal: one code point per character of the (ASCII) literal. *)
Definition u (s : string) : str := map N_of_ascii (list_ascii_of_string s).
Arguments u : simpl never.

Module Str.

(** [a <= b] on Python strings: lexicographic on code points.  The store
    orders string keys by their UTF-8 encoding, which is the same order. *)
Fixpoint leb (a b : str) : bool :=
  match a, b with
  | [], _ => true
  | _ :: _, [] => false
  | x :: a', y :: b' =>
      if x <? y then true else if x =? y then leb a' b' else false
  end.

(** [s.startswith(p)] *)
Fixpoint startswith (s p : str) : bool :=
  match p, s with
  | [], _ => true
  | _ :: _, [] => false
  | y :: p', x :: s' => (x =? y) && startswith s' p'
  end.

(** [c in s] for a one-character string [c] *)
Definition contains_char (c : char) (s : str) : bool :=
  existsb (N.eqb c) s.

(** [str.isspace] on one code point (the interpreter's whitespace table). *)
Definition isspace (c : char) : bool :=
  ((9 <=? c) && (c <=? 13)) || ((28 <=? c) && (c <=? 32))
  || (c =? 133) || (c =? 160) || (c =? 5760)
  || ((8192 <=? c) && (c <=? 8202))
  || (c =? 8232) || (c =? 8233) || (c =? 8239) || (c =? 8287) || (c =? 12288).

Fixpoint lstrip (s : str) : str :=
  match s with
  | [] => []
  | c :: s' => if isspace c then lstrip s' else s
  end.

Definition rstrip (s : str) : str := rev (lstrip (rev s)).

(** [s.strip()] *)
Definition strip (s : str) : str := rstrip (lstrip s).

(** [str.lower] on one code point.  ASCII and Latin-1 capitals map to their
    small letters; U+0130 and U+212A are the two code points outside ASCII
    whose lower-case form contains an ASCII letter.  Every other code point
    is kept: its lower-case form lies outside ASCII, where the token pattern
    of [extract_keywords] sees a separator in either case. *)
Definition lower_char (c : char) : str :=
  if (65 <=? c) && (c <=? 90) then [c + 32]
  else if (192 <=? c) && (c <=? 222) && negb (c =? 215) then [c + 32]
  else if c =? 304 then [105; 775]
  else if c =? 8490 then [107]
  else [c].

(** [s.lower()] *)
Definition lower (s : str) : str := flat_map lower_char s.

(** [s.replace(old, new)] for a non-empty [old] (both call sites pass a
    non-empty literal): left to right, non-overlapping.  [skip] counts the
    characters of a matched occurrence still to be dropped. *)
Fixpoint replace_from (old new : str) (skip : nat) (s : str) : str :=
  match s with
  | [] => []
  | c :: s' =>
      match skip with
      | S k => replace_from old new k s'
      | O =>
          if startswith s old
          then new ++ replace_from old new (Nat.pred (length old)) s'
          else c :: replace_from old new O s'
      end
  end.

Definition replace (old new s : str) : str := replace_from old new O s.

(** Decimal digits of a natural number, most significant first. *)
Fixpoint digits_fuel (fuel : nat) (n : N) (acc : str) : str :=
  match fuel with
  | O => acc
  | S f =>
      let acc' := (48 + n mod 10) :: acc in
      if n <? 10 then acc' else digits_fuel f (n / 10) acc'
  end.

Definition of_N (n : N) : str := digits_fuel (S (N.to_nat (N.log2 n))) n [].

(** [str(n)] for an [int] *)
Definition of_Z (z : Z) : str :=
  match z with
  | Zneg p => 45 :: of_N (Npos p)
  | _ => of_N (Z.to_N z)
  end.

End Str.

(** ** Keyword extraction ([load_data.py], lines 9-16 and 139-147) *)

Definition STOPWORDS : gset str :=
  list_to_set (map u
    [ "the"; "a"; "an"; "and"; "or"; "but"; "in"; "on"; "at"; "to"; "for";
      "of"; "with"; "by"; "from"; "up"; "about"; "into"; "through"; "during";
      "is"; "are"; "was"; "were"; "be"; "been"; "being"; "have"; "has"; "had";
      "do"; "does"; "did"; "will"; "would"; "could"; "should"; "may"; "might";
      "can"; "this"; "that"; "these"; "those"; "we"; "our"; "use"; "using";
      "based"; "approach"; "method"; "paper"; "propose"; "proposed"; "show"
    ]%string).

(** The character class [[a-zA-Z]] *)
Definition is_alpha (c : char) : bool :=
  ((97 <=? c) && (c <=? 122)) || ((65 <=? c) && (c <=? 90)).

(** [re.findall(r"[a-zA-Z]+", s)]: one left-to-right scan; [cur] is the run
    of letters read since the last separator. *)
Fixpoint findall_from (cur : str) (s : str) : list str :=
  match s with
  | [] => match cur with [] => [] | _ => [cur] end
  | c :: s' =>
      if is_alpha c then findall_from (cur ++ [c]) s'
      else match cur with
           | [] => findall_from [] s'
           | _ => cur :: findall_from [] s'
           end
  end.

Definition findall_alpha (s : str) : list str := findall_from [] s.

(** [Counter(tokens)]: a dict in insertion order, so an association list
    whose keys appear in order of first occurrence. *)
Fixpoint counter_incr (w : str) (c : list (str * nat)) : list (str * nat) :=
  match c with
  | [] => [(w, 1%nat)]
  | (k, n) :: c' =>
      if decide (k = w) then (k, S n) :: c' else (k, n) :: counter_incr w c'
  end.

Definition Counter (tokens : list str) : list (str * nat) :=
  fold_left (fun c w => counter_incr w c) tokens [].

(** [sorted(items, key=itemgetter(1), reverse=True)]: the sort is stable, so
    an entry goes in front of the first entry whose count is not larger. *)
Fixpoint insert_desc (x : str * nat) (l : list (str * nat)) : list (str * nat) :=
  match l with
  | [] => [x]
  | y :: l' =>
      if (x.2 <? y.2)%nat then y :: insert_desc x l' else x :: y :: l'
  end.

Definition sorted_desc (items : list (str * nat)) : list (str * nat) :=
  fold_right insert_desc [] items.

(** [Counter.most_common(n)] is [heapq.nlargest(n, items, key=count)], which
    the library documents as [sorted(items, key=count, reverse=True)[:n]];
    a count [n <= 0] selects nothing. *)
Definition most_common (n : Z) (c : list (str * nat)) : list (str * nat) :=
  firstn (Z.to_nat n) (sorted_desc c).

Definition keyword_tokens (abstract : str) : list str :=
  filter (fun t => t ∉ STOPWORDS) (findall_alpha (Str.lower abstract)).

Definition extract_keywords (abstract : str) (max_keywords : Z) : list str :=
  match abstract with
  | [] => []
  | _ =>
      let tokens := keyword_tokens abstract in
      match tokens with
      | [] => []
      | _ => map fst (most_common max_keywords (Counter tokens))
      end
  end.


(** ** Values, truthiness and exceptions *)

(** The values [json.load] builds (numbers with a fraction are left out: their
    text form is a floating-point matter). *)
#[warnings="-register-all"]
Inductive pyval :=
| PNone
| PBool (b : bool)
| PInt (z : Z)
| PStr (s : str)
| PList (l : list pyval)
| PDict (d : list (str * pyval)).

(** [bool(v)] *)
Definition truthy (v : pyval) : bool :=
  match v with
  | PNone => false
  | PBool b => b
  | PInt z => negb (z =? 0)%Z
  | PStr s => match s with [] => false | _ => true end
  | PList l => match l with [] => false | _ => true end
  | PDict d => match d with [] => false | _ => true end
  end.

(** [a or b] *)
Definition por (a b : pyval) : pyval := if truthy a then a else b.

Definition type_name (v : pyval) : str :=
  match v with
  | PNone => u "NoneType"
  | PBool _ => u "bool"
  | PInt _ => u "int"
  | PStr _ => u "str"
  | PList _ => u "list"
  | PDict _ => u "dict"
  end.

(** A raised exception: its class and the text [str(e)] gives. *)
Record exn := Exception { exn_class : str; exn_text : str }.

Inductive result (A : Type) :=
| Ok (a : A)
| Raise (e : exn).
Arguments Ok {A} a.
Arguments Raise {A} e.

#[global] Instance result_ret : MRet result := fun A a => Ok a.
#[global] Instance result_bind : MBind result := fun A B f m =>
  match m with
  | Ok a => f a
  | Raise e => Raise e
  end.

(** [sep.join(parts)] *)
Fixpoint join (sep : str) (parts : list str) : str :=
  match parts with
  | [] => []
  | [p] => p
  | p :: ps => p ++ sep ++ join sep ps
  end.

(** A record read from the input file, and an item of the table: dicts with
    string keys. *)
Abbreviation pydict := (gmap str pyval) (only parsing).
Abbreviation item := (gmap str pyval) (only parsing).

(** [d.get(k)] and [d.get(k, default)] *)
Definition get (d : pydict) (k : str) : pyval := default PNone (d !! k).
Definition get_or (d : pydict) (k : str) (dflt : pyval) : pyval := default dflt (d !! k).

(** ** Dates ([datetime] of the standard library)

    A [datetime] value, the range checks of its constructor, and the texts
    [dt.date().isoformat()] and [dt.isoformat()] the loader takes from it.
    The parser [datetime.fromisoformat] is a parameter of the loader: it is
    documented as the inverse of [isoformat], and which other spellings it
    reads depends on the interpreter version.  [read_isoformat] below is one
    such parser, used in the examples: it reads the grammar
    [YYYY-MM-DD[*HH[:MM[:SS[.fff[fff]]]][+HH:MM[:SS[.ffffff]]]]], which is what
    [isoformat] writes, and nothing else. *)

Record datetime := mk_datetime {
  year : N; month : N; day : N;
  hour : N; minute : N; second : N; microsecond : N;
  tzinfo : option Z  (* the UTC offset, in microseconds *)
}.

Definition is_digit (c : char) : bool := (48 <=? c) && (c <=? 57).

(** The number a string of ASCII digits denotes; [None] on any other string. *)
Fixpoint digits_value (acc : N) (s : str) : option N :=
  match s with
  | [] => Some acc
  | c :: s' => if is_digit c then digits_value (10 * acc + (c - 48)) s' else None
  end.

Definition parse_digits (s : str) : option N :=
  match s with
  | [] => None
  | _ => digits_value 0 s
  end.

Definition is_leap (y : N) : bool :=
  (y mod 4 =? 0) && (negb (y mod 100 =? 0) || (y mod 400 =? 0)).

Definition days_in_month (y m : N) : N :=
  if m =? 2 then (if is_leap y then 29 else 28)
  else if (m =? 4) || (m =? 6) || (m =? 9) || (m =? 11) then 30
  else 31.

(** [_parse_isoformat_date]: [YYYY-MM-DD] *)
Definition parse_isoformat_date (dstr : str) : option (N * N * N) :=
  match dstr with
  | [y1; y2; y3; y4; s1; m1; m2; s2; d1; d2] =>
      if (s1 =? 45) && (s2 =? 45) then
        y ← parse_digits [y1; y2; y3; y4];
        m ← parse_digits [m1; m2];
        d ← parse_digits [d1; d2];
        Some (y, m, d)
      else None
  | _ => None
  end.

(** The fraction of a second: [.fff] or [.ffffff], or nothing. *)
Definition parse_fraction (s : str) : option N :=
  match s with
  | [] => Some 0
  | c :: f =>
      if c =? 46 then
        match length f with
        | 3%nat => n ← parse_digits f; Some (n * 1000)
        | 6%nat => parse_digits f
        | _ => None
        end
      else None
  end.

(** [_parse_hh_mm_ss_ff]: [HH[:MM[:SS[.fff[fff]]]]] *)
Definition parse_hh_mm_ss_ff (tstr : str) : option (N * N * N * N) :=
  match tstr with
  | h1 :: h2 :: r1 =>
      h ← parse_digits [h1; h2];
      match r1 with
      | [] => Some (h, 0, 0, 0)
      | c1 :: m1 :: m2 :: r2 =>
          if c1 =? 58 then
            m ← parse_digits [m1; m2];
            match r2 with
            | [] => Some (h, m, 0, 0)
            | c2 :: s1 :: s2 :: r3 =>
                if c2 =? 58 then
                  s ← parse_digits [s1; s2];
                  f ← parse_fraction r3;
                  Some (h, m, s, f)
                else None
            | _ => None
            end
          else None
      | _ => None
      end
  | _ => None
  end.

(** [s.find(c)]: the index of the first [c], if any *)
Fixpoint find_char (c : char) (s : str) : option nat :=
  match s with
  | [] => None
  | x :: s' => if x =? c then Some O else S <$> find_char c s'
  end.

Definition usec (h m s f : N) : Z :=
  Z.of_N (((h * 60 + m) * 60 + s) * 1000000 + f).

Definition day_usec : Z := 86400000000.

(** [_parse_isoformat_time]: the clock time and the offset after the first
    [-], or else the first [+]. *)
Definition parse_isoformat_time (tstr : str)
  : option (N * N * N * N * option Z) :=
  if (length tstr <? 2)%nat then None else
  let tz_pos :=
    match find_char 45 tstr with
    | Some i => Some (i, (-1)%Z)
    | None => match find_char 43 tstr with
              | Some i => Some (i, 1%Z)
              | None => None
              end
    end in
  match tz_pos with
  | None => t ← parse_hh_mm_ss_ff tstr; Some (t, None)
  | Some (i, sign) =>
      t ← parse_hh_mm_ss_ff (firstn i tstr);
      let tzstr := skipn (S i) tstr in
      if bool_decide (length tzstr ∈ [5; 8; 15]%nat) then
        '(h, m, s, f) ← parse_hh_mm_ss_ff tzstr;
        let off := (sign * usec h m s f)%Z in
        if (Z.abs off <? day_usec)%Z then Some (t, Some off) else None
      else None
  end.

(** The range checks of the [datetime] constructor. *)
Definition valid_date (y m d : N) : bool :=
  (1 <=? y) && (y <=? 9999) && (1 <=? m) && (m <=? 12)
  && (1 <=? d) && (d <=? days_in_month y m).

Definition valid_time (h mi s us : N) : bool :=
  (h <=? 23) && (mi <=? 59) && (s <=? 59) && (us <=? 999999).

(** The reader of the examples; [None] stands for the [ValueError].  A text
    of ten characters is a date; a longer one needs a time after the
    separator, its eleventh character. *)
Definition read_isoformat (s : str) : option datetime :=
  '(y, m, d) ← parse_isoformat_date (firstn 10 s);
  '(h, mi, sec, us, tz) ←
     match skipn 10 s with
     | [] => Some (0, 0, 0, 0, None)
     | _ :: tstr => parse_isoformat_time tstr
     end;
  if valid_date y m d && valid_time h mi sec us
  then Some (mk_datetime y m d h mi sec us tz)
  else None.

(** ["%0wd" % n] *)
Definition zfill (w : nat) (n : N) : str :=
  let ds := Str.of_N n in
  repeat 48 (w - length ds) ++ ds.

(** [date.isoformat()] *)
Definition date_isoformat (dt : datetime) : str :=
  zfill 4 (year dt) ++ u "-" ++ zfill 2 (month dt) ++ u "-" ++ zfill 2 (day dt).

(** [_format_time] with [timespec='auto'] *)
Definition format_time (h mi s us : N) : str :=
  zfill 2 h ++ u ":" ++ zfill 2 mi ++ u ":" ++ zfill 2 s
  ++ (if us =? 0 then [] else u "." ++ zfill 6 us).

(** [_format_offset] *)
Definition format_offset (off : option Z) : str :=
  match off with
  | None => []
  | Some o =>
      let a := Z.to_N (Z.abs o) in
      let hh := a / 3600000000 in
      let r := a mod 3600000000 in
      let mm := r / 60000000 in
      let ss := r mod 60000000 in
      (if (o <? 0)%Z then u "-" else u "+")
      ++ zfill 2 hh ++ u ":" ++ zfill 2 mm
      ++ (if ss =? 0 then []
          else u ":" ++ zfill 2 (ss / 1000000)
               ++ (if ss mod 1000000 =? 0 then []
                   else u "." ++ zfill 6 (ss mod 1000000)))
  end.

(** [datetime.isoformat()] *)
Definition isoformat (dt : datetime) : str :=
  date_isoformat dt ++ u "T"
  ++ format_time (hour dt) (minute dt) (second dt) (microsecond dt)
  ++ format_offset (tzinfo dt).

(** ** The loader ([load_data.py]) *)

Section Loader.

(** [repr] of a [str] (quoting and escapes) belongs to the interpreter; the
    loader meets it only through [str()] of a list or dict. *)
Context (repr_str : str -> str).

(** [datetime.fromisoformat]; [None] stands for the exception it raises on a
    text it does not read. *)
Context (fromisoformat : str -> option datetime).

Fixpoint py_repr (v : pyval) : str :=
  match v with
  | PNone => u "None"
  | PBool b => if b then u "True" else u "False"
  | PInt z => Str.of_Z z
  | PStr s => repr_str s
  | PList l => u "[" ++ join (u ", ") (map py_repr l) ++ u "]"
  | PDict d =>
      u "{"
      ++ join (u ", ") (map (fun kv => repr_str kv.1 ++ u ": " ++ py_repr kv.2) d)
      ++ u "}"
  end.

(** [str(v)], which is also what an f-string field [{v}] inserts *)
Definition py_str (v : pyval) : str :=
  match v with
  | PStr s => s
  | _ => py_repr v
  end.

(** [v.strip()]: only a [str] has the method *)
Definition call_strip (v : pyval) : result str :=
  match v with
  | PStr s => Ok (Str.strip s)
  | _ => Raise (Exception (u "AttributeError")
                  (u "'" ++ type_name v ++ u "' object has no attribute 'strip'"))
  end.

(** Lines 127-131: the [datetime] the [try] block builds, [None] when
    [fromisoformat] raises. *)
Definition published_datetime (s : str) : option datetime :=
  if Str.contains_char 84 s  (* "T" in s *)
  then fromisoformat (Str.replace (u "Z") (u "+00:00") s)
  else fromisoformat (Str.strip s ++ u "T00:00:00").

(** Lines 122-136.  [published_raw] is what [paper.get("published")] gives:
    [PNone] when the field is absent. *)
Definition normalize_published (published_raw : pyval) : str * str :=
  if negb (truthy published_raw)
  then (u "1970-01-01", u "1970-01-01T00:00:00Z")
  else
    let s := py_str published_raw in
    match published_datetime s with
    | Some dt =>
        (date_isoformat dt, Str.replace (u "+00:00") (u "Z") (isoformat dt))
    | None => (firstn 10 s, s)
    end.

(** The values one iteration of [main] computes from a record before it
    writes anything (lines 173-197). *)
Record Paper := mk_Paper {
  arxiv_id : str;
  title : str;
  abstract : str;
  authors : list pyval;
  categories : list pyval;
  date_str : str;
  published_iso : str;
  keywords : list str
}.

(** [x or []] followed by the [isinstance(x, list)] coercion *)
Definition as_list (v : pyval) : list pyval :=
  match por v (PList []) with
  | PList l => l
  | w => [PStr (py_str w)]
  end.

(** Lines 173-187: [Ok None] is the [continue] on a blank identifier. *)
Definition normalize (paper : pydict) : result (option Paper) :=
  let arxiv_id :=
    Str.strip (py_str (por (por (get paper (u "arxiv_id")) (get paper (u "id")))
                           (PStr []))) in
  match arxiv_id with
  | [] => Ok None
  | _ =>
      title ← call_strip (get_or paper (u "title") (PStr []));
      abstract ← call_strip (get_or paper (u "abstract") (PStr []));
      let authors := as_list (get paper (u "authors")) in
      let categories := as_list (get paper (u "categories")) in
      let '(date_str, published_iso) := normalize_published (get paper (u "published")) in
      let keywords := extract_keywords abstract 10 in
      Ok (Some (mk_Paper arxiv_id title abstract authors categories
                         date_str published_iso keywords))
  end.

(** Lines 189-197 *)
Definition base_attrs (p : Paper) : item :=
  list_to_map
    [ (u "arxiv_id", PStr (arxiv_id p));
      (u "title", PStr (title p));
      (u "authors", PList (authors p));
      (u "abstract", PStr (abstract p));
      (u "categories", PList (categories p));
      (u "keywords", PList (map PStr (keywords p)));
      (u "published", PStr (published_iso p)) ].

(** The dict literal followed by [item.update(base_attrs)]: on a shared key
    the entry of [base_attrs] wins. *)
Definition with_base (p : Paper) (keys : list (str * pyval)) : item :=
  base_attrs p ∪ list_to_map keys.

Definition sort_key (p : Paper) : str := date_str p ++ u "#" ++ arxiv_id p.

Definition category_item (p : Paper) (cat : pyval) : item :=
  with_base p
    [ (u "PK", PStr (u "CATEGORY#" ++ py_str cat));
      (u "SK", PStr (sort_key p));
      (u "item_type", PStr (u "CATEGORY")) ].

Definition author_item (p : Paper) (author_str : str) : item :=
  with_base p
    [ (u "PK", PStr (u "AUTHOR#" ++ author_str));
      (u "SK", PStr (sort_key p));
      (u "GSI1PK", PStr (u "AUTHOR#" ++ author_str));
      (u "GSI1SK", PStr (sort_key p));
      (u "item_type", PStr (u "AUTHOR")) ].

Definition keyword_item (p : Paper) (kw_str : str) : item :=
  with_base p
    [ (u "PK", PStr (u "KEYWORD#" ++ kw_str));
      (u "SK", PStr (sort_key p));
      (u "GSI3PK", PStr (u "KEYWORD#" ++ kw_str));
      (u "GSI3SK", PStr (sort_key p));
      (u "item_type", PStr (u "KEYWORD")) ].

Definition id_item (p : Paper) : item :=
  with_base p
    [ (u "PK", PStr (u "PAPER#" ++ arxiv_id p));
      (u "SK", PStr (u "PAPER"));
      (u "GSI2PK", PStr (u "PAPER#" ++ arxiv_id p));
      (u "GSI2SK", PStr (u "PAPER"));
      (u "item_type", PStr (u "PAPER")) ].

(** The loop state of [main]: the requests handed to the batch writer, in
    order, and the counters of lines 167-169. *)
Record load_state := mk_state {
  batch : list item;
  num_papers : nat;
  total_items : nat;
  category_items : nat;
  author_items : nat;
  keyword_items : nat;
  id_items : nat
}.

Definition init_state : load_state := mk_state [] 0 0 0 0 0 0.

(** Lines 201-210 *)
Definition put_category (p : Paper) (st : load_state) (cat : pyval) : load_state :=
  mk_state (batch st ++ [category_item p cat]) (num_papers st)
    (S (total_items st)) (S (category_items st)) (author_items st)
    (keyword_items st) (id_items st).

(** Lines 212-226 *)
Definition put_author (p : Paper) (st : load_state) (author : pyval) : load_state :=
  let author_str := Str.strip (py_str author) in
  match author_str with
  | [] => st
  | _ =>
      mk_state (batch st ++ [author_item p author_str]) (num_papers st)
        (S (total_items st)) (category_items st) (S (author_items st))
        (keyword_items st) (id_items st)
  end.

(** Lines 229-243 *)
Definition put_keyword (p : Paper) (st : load_state) (kw : str) : load_state :=
  let kw_str := Str.strip (Str.lower kw) in
  match kw_str with
  | [] => st
  | _ =>
      mk_state (batch st ++ [keyword_item p kw_str]) (num_papers st)
        (S (total_items st)) (category_items st) (author_items st)
        (S (keyword_items st)) (id_items st)
  end.

(** Lines 245-255 *)
Definition put_id (p : Paper) (st : load_state) : load_state :=
  mk_state (batch st ++ [id_item p]) (num_papers st)
    (S (total_items st)) (category_items st) (author_items st)
    (keyword_items st) (S (id_items st)).

(** Lines 199-255: the fan-out of one accepted record. *)
Definition fan_out (p : Paper) (st : load_state) : load_state :=
  let st := mk_state (batch st) (S (num_papers st)) (total_items st)
              (category_items st) (author_items st) (keyword_items st)
              (id_items st) in
  let st := fold_left (put_category p) (categories p) st in
  let st := fold_left (put_author p) (authors p) st in
  let st := fold_left (put_keyword p) (keywords p) st in
  put_id p st.

(** The items one Paper is projected to, in the order they are written. *)
Definition denormalize (p : Paper) : list item := batch (fan_out p init_state).

(** The [for paper in papers] loop (lines 172-255).  An exception leaves the
    loop; the requests made before it stay with the batch writer, which sends
    them when its [with] block is left. *)
Fixpoint main_loop (papers : list pydict) (st : load_state)
  : load_state * option exn :=
  match papers with
  | [] => (st, None)
  | paper :: rest =>
      match normalize paper with
      | Raise e => (st, Some e)
      | Ok None => main_loop rest st
      | Ok (Some p) => main_loop rest (fan_out p st)
      end
  end.

Definition main (papers : list pydict) : load_state * option exn :=
  main_loop papers init_state.

End Loader.

(** *** The table definition ([ensure_table_exists], lines 49-104)

    What [create_table] is given: the key schema of the table, the declared
    key attributes and the three global secondary indexes.  Creating the
    table and waiting for it are calls to the store. *)

Record key_schema := mk_key_schema { HASH : str; RANGE : str }.

Definition KeySchema : key_schema := mk_key_schema (u "PK") (u "SK").

Definition AttributeDefinitions : list (str * str) :=
  [ (u "PK", u "S"); (u "SK", u "S");
    (u "GSI1PK", u "S"); (u "GSI1SK", u "S");
    (u "GSI2PK", u "S"); (u "GSI2SK", u "S");
    (u "GSI3PK", u "S"); (u "GSI3SK", u "S") ].

Definition GlobalSecondaryIndexes : list (str * key_schema) :=
  [ (u "AuthorIndex", mk_key_schema (u "GSI1PK") (u "GSI1SK"));
    (u "PaperIdIndex", mk_key_schema (u "GSI2PK") (u "GSI2SK"));
    (u "KeywordIndex", mk_key_schema (u "GSI3PK") (u "GSI3SK")) ].

(** ** The table

    The store is not part of the repository.  Its table is keyed by the pair
    of the [PK] and [SK] attributes (the [KeySchema] of lines 51-54), and a
    write replaces the item stored under the same pair; the batch writer
    ([overwrite_by_pkeys=("PK", "SK")]) sends the requests in order.  Every
    item [main] writes has string keys; writes the store would reject, and
    store failures during the load, are not modelled. *)

Definition attr_str (it : item) (a : str) : option str :=
  match it !! a with
  | Some (PStr s) => Some s
  | _ => None
  end.

Definition item_key (it : item) : str * str :=
  (default [] (attr_str it (u "PK")), default [] (attr_str it (u "SK"))).

Definition put_item (t : gmap (str * str) item) (it : item) : gmap (str * str) item :=
  <[item_key it := it]> t.

Definition upsert (requests : list item) (t : gmap (str * str) item)
  : gmap (str * str) item :=
  fold_left put_item requests t.

(** ** Queries ([query_papers.py]; [api_server.py] repeats the five functions
       word for word) *)

Inductive key_condition :=
| KeyEq (attr value : str)                 (* Key(attr).eq(value) *)
| KeyBetween (attr low high : str)         (* Key(attr).between(low, high) *)
| KeyAnd (a b : key_condition).            (* a & b *)

(** The keyword arguments of [Table.query]; [ScanIndexForward] defaults to
    [True] and [Limit] to none. *)
Record query_args := mk_query {
  IndexName : option str;
  KeyConditionExpression : key_condition;
  ScanIndexForward : bool;
  Limit : option Z
}.

Section Queries.

(** [dynamodb.Table(table_name).query] with keyword arguments and then [response['Items']]:
    the module-level store handle.  A call either answers or raises. *)
Context (dynamodb : str -> query_args -> result (list item)).

Definition query_recent_in_category (table_name category : str) (limit : Z)
  : result (list item) :=
  dynamodb table_name
    (mk_query None (KeyEq (u "PK") (u "CATEGORY#" ++ category)) false (Some limit)).

Definition query_papers_by_author (table_name author_name : str)
  : result (list item) :=
  dynamodb table_name
    (mk_query (Some (u "AuthorIndex"))
       (KeyEq (u "GSI1PK") (u "AUTHOR#" ++ author_name)) true None).

Definition get_paper_by_id (table_name arxiv_id : str) : result (option item) :=
  items ← dynamodb table_name
    (mk_query (Some (u "PaperIdIndex"))
       (KeyEq (u "GSI2PK") (u "PAPER#" ++ arxiv_id)) true None);
  Ok (head items).

Definition query_papers_in_date_range (table_name category start_date end_date : str)
  : result (list item) :=
  dynamodb table_name
    (mk_query None
       (KeyAnd (KeyEq (u "PK") (u "CATEGORY#" ++ category))
               (KeyBetween (u "SK") (start_date ++ u "#")
                                    (end_date ++ u "#zzzzzzz")))
       true None).

(** [keyword.lower()] on the caller's text: the interpreter's [str.lower],
    over the whole of Unicode. *)
Context (str_lower : str -> str).

Definition query_papers_by_keyword (table_name keyword : str) (limit : Z)
  : result (list item) :=
  dynamodb table_name
    (mk_query (Some (u "KeywordIndex"))
       (KeyEq (u "GSI3PK") (u "KEYWORD#" ++ str_lower keyword)) false (Some limit)).

(** *** The HTTP handler ([api_server.py], lines 62-151) *)

Definition TABLE_NAME : str := u "arxiv-papers".

(** What [_send_json] is given: a status code and a JSON document. *)
#[warnings="-register-all"]
Inductive json :=
| JVal (v : pyval)
| JItem (it : item)
| JItems (l : list item)
| JObject (fields : list (str * json)).

Record response := mk_response { status : Z; payload : json }.

(** A number inside an item: the store's client hands numbers back as
    [Decimal], which [json.dumps] does not serialise.  The other values of an
    item (strings, booleans, [None], lists and dicts of them) it does. *)
Fixpoint has_number (v : pyval) : bool :=
  match v with
  | PInt _ => true
  | PList l => existsb has_number l
  | PDict d => existsb (fun kv => has_number kv.2) d
  | _ => false
  end.

Definition item_has_number (it : item) : bool :=
  existsb (fun kv => has_number kv.2) (map_to_list it).

(** Whether [json.dumps(data)] returns.  A [JVal] is a value the handler
    built itself, a [str] or the [int] of a count. *)
Fixpoint dumps_ok (data : json) : bool :=
  match data with
  | JVal _ => true
  | JItem it => negb (item_has_number it)
  | JItems l => forallb (fun it => negb (item_has_number it)) l
  | JObject fields => forallb (fun kv => dumps_ok kv.2) fields
  end.

(** Lines 63-69.  [json.dumps] runs first and may raise; encoding the text
    and writing the status line, the headers and the body are taken to
    succeed (the strings of a request and of the store hold no lone
    surrogate; the connection is not modelled). *)
Definition _send_json (status_code : Z) (data : json) : result response :=
  if dumps_ok data then Ok (mk_response status_code data)
  else Raise (Exception (u "TypeError")
                (u "Object of type Decimal is not JSON serializable")).

(** [urlparse] (its [path] and [query] fields), [parse_qs], [unquote] and
    [int] applied to a [str] belong to the interpreter.  [urlparse] raises a
    [ValueError] on some targets. *)
Context (urlparse : str -> result (str * str)).
Context (parse_qs : str -> result (gmap str (list str))).
Context (unquote : str -> str) (py_int : str -> result Z).

(** [qs.get(key, [dflt])[0]] on the dict [parse_qs] returns *)
Definition qs_first (qs : gmap str (list str)) (key : str) (dflt : option str)
  : result (option str) :=
  match qs !! key with
  | None => Ok dflt
  | Some [] => Raise (Exception (u "IndexError") (u "list index out of range"))
  | Some (v :: _) => Ok (Some v)
  end.

(** [not v] for [v] a [str] or [None] *)
Definition blank (v : option str) : bool :=
  match v with
  | None | Some [] => true
  | Some _ => false
  end.

Definition count_of (items : list item) : json := JVal (PInt (Z.of_nat (length items))).

(** Lines 83-144, the body of the [try] block.  [path] and [qs] are
    [urlparse(self.path).path] and [parse_qs(parsed.query)]. *)
Definition handle (path : str) (qs : gmap str (list str)) : result response :=
  if bool_decide (path = u "/papers/recent") then
    category ← qs_first qs (u "category") None;
    limit_raw ← qs_first qs (u "limit") (Some (u "20"));
    limit ← py_int (default [] limit_raw);
    if blank category then
      _send_json 400 (JObject [(u "error", JVal (PStr (u "Missing category parameter")))])
    else
      let category := default [] category in
      items ← query_recent_in_category TABLE_NAME category limit;
      _send_json 200 (JObject [(u "category", JVal (PStr category));
                               (u "count", count_of items);
                               (u "papers", JItems items)])
  else if Str.startswith path (u "/papers/author/") then
    let author := unquote (skipn (length (u "/papers/author/")) path) in
    items ← query_papers_by_author TABLE_NAME author;
    _send_json 200 (JObject [(u "author", JVal (PStr author));
                             (u "count", count_of items);
                             (u "papers", JItems items)])
  else if Str.startswith path (u "/papers/")
          && negb (Str.startswith path (u "/papers/author/"))
          && negb (Str.startswith path (u "/papers/keyword/"))
          && negb (Str.startswith path (u "/papers/search")) then
    let arxiv_id := unquote (skipn (length (u "/papers/")) path) in
    found ← get_paper_by_id TABLE_NAME arxiv_id;
    match found with
    | Some it =>
        if bool_decide (size it ≠ 0%nat) then _send_json 200 (JItem it)
        else _send_json 404 (JObject [(u "error", JVal (PStr (u "Paper not found")));
                                      (u "arxiv_id", JVal (PStr arxiv_id))])
    | None =>
        _send_json 404 (JObject [(u "error", JVal (PStr (u "Paper not found")));
                                 (u "arxiv_id", JVal (PStr arxiv_id))])
    end
  else if bool_decide (path = u "/papers/search") then
    category ← qs_first qs (u "category") None;
    start_date ← qs_first qs (u "start") None;
    end_date ← qs_first qs (u "end") None;
    if blank category || blank start_date || blank end_date then
      _send_json 400
        (JObject [(u "error", JVal (PStr (u "Missing category/start/end parameters")))])
    else
      let category := default [] category in
      let start_date := default [] start_date in
      let end_date := default [] end_date in
      items ← query_papers_in_date_range TABLE_NAME category start_date end_date;
      _send_json 200 (JObject [(u "category", JVal (PStr category));
                               (u "start", JVal (PStr start_date));
                               (u "end", JVal (PStr end_date));
                               (u "count", count_of items);
                               (u "papers", JItems items)])
  else if Str.startswith path (u "/papers/keyword/") then
    let keyword := unquote (skipn (length (u "/papers/keyword/")) path) in
    limit_raw ← qs_first qs (u "limit") (Some (u "20"));
    limit ← py_int (default [] limit_raw);
    items ← query_papers_by_keyword TABLE_NAME keyword limit;
    _send_json 200 (JObject [(u "keyword", JVal (PStr keyword));
                             (u "count", count_of items);
                             (u "papers", JItems items)])
  else
    _send_json 404 (JObject [(u "error", JVal (PStr (u "Unknown endpoint")));
                             (u "path", JVal (PStr path))]).

(** Lines 76-147.  The target is parsed before the [try] block is entered:
    an exception raised there leaves [do_GET] ([Raise]) and no response is
    sent.  An exception raised inside the block is answered by the [except]
    clause.  The [finally] clause writes a log line. *)
Definition do_GET (self_path : str) : result response :=
  parsed ← urlparse self_path;
  let path := parsed.1 in
  qs ← parse_qs parsed.2;
  match handle path qs with
  | Ok r => Ok r
  | Raise e =>
      _send_json 500 (JObject [(u "error", JVal (PStr (u "Internal server error")));
                               (u "message", JVal (PStr (exn_text e)))])
  end.

End Queries.

(** *** What the store answers

    A model of the store's [Query] after the design document (section 4.4):
    the items of the table (or of the named index, which holds the items that
    carry its two key attributes) that satisfy the key condition, in sort-key
    order, forwards or backwards, cut to [Limit].  One call returns the whole
    answer (no paging).  The store's client checks the keyword arguments
    against the service's description before it sends anything: the least
    [Limit] is 1, and a smaller one raises [ParamValidationError] with the
    report of the client's validator. *)

Definition validate (args : query_args) : result unit :=
  match Limit args with
  | Some n =>
      if (n <? 1)%Z then
        Raise (Exception (u "ParamValidationError")
                 (u "Parameter validation failed:" ++ [10]
                  ++ u "Invalid value for parameter Limit, value: "
                  ++ Str.of_Z n ++ u ", valid min value: 1"))
      else Ok ()
  | None => Ok ()
  end.

Definition index_keys (ix : option str) : option (str * str) :=
  match ix with
  | None => Some (u "PK", u "SK")
  | Some n =>
      if bool_decide (n = u "AuthorIndex") then Some (u "GSI1PK", u "GSI1SK")
      else if bool_decide (n = u "PaperIdIndex") then Some (u "GSI2PK", u "GSI2SK")
      else if bool_decide (n = u "KeywordIndex") then Some (u "GSI3PK", u "GSI3SK")
      else None
  end.

Fixpoint holds (c : key_condition) (it : item) : bool :=
  match c with
  | KeyEq a v => bool_decide (attr_str it a = Some v)
  | KeyBetween a lo hi =>
      match attr_str it a with
      | Some s => Str.leb lo s && Str.leb s hi
      | None => false
      end
  | KeyAnd a b => holds a it && holds b it
  end.

Definition in_index (keys : str * str) (it : item) : bool :=
  bool_decide (is_Some (attr_str it keys.1)) && bool_decide (is_Some (attr_str it keys.2)).

Definition sort_key_leb (sk : str) (a b : item) : bool :=
  Str.leb (default [] (attr_str a sk)) (default [] (attr_str b sk)).

Definition table_query (t : gmap (str * str) item) (args : query_args)
  : result (list item) :=
  _ ← validate args;
  match index_keys (IndexName args) with
  | None =>
      Raise (Exception (u "ClientError")
               (u "An error occurred (ValidationException) when calling the Query operation: The table does not have the specified index"))
  | Some keys =>
      let hits :=
        filter (fun it => in_index keys it && holds (KeyConditionExpression args) it)
               (map snd (map_to_list t)) in
      let sorted := merge_sort (fun a b => sort_key_leb keys.2 a b) hits in
      let ordered := if ScanIndexForward args then sorted else rev sorted in
      Ok (match Limit args with
          | Some n => firstn (Z.to_nat n) ordered
          | None => ordered
          end)
  end.

(** The store handle over a set of named tables. *)
Definition store_of (tables : gmap str (gmap (str * str) item))
  : str -> query_args -> result (list item) :=
  fun table_name args =>
    _ ← validate args;
    match tables !! table_name with
    | Some t => table_query t args
    | None =>
        Raise (Exception (u "ResourceNotFoundException")
                 (u "An error occurred (ResourceNotFoundException) when calling the Query operation: Requested resource not found"))
    end.

(** ** Vocabulary of the properties

    The definitions below are not part of the program: they name what the
    design document talks about, so that the theorems can say it. *)

(** *** Keyword ranking *)

Definition head_not_alpha (s : str) : Prop :=
  match s with
  | [] => True
  | c :: _ => is_alpha c = false
  end.

(** [Runs s toks]: [toks] are the maximal runs of letters of [s], in order;
    everything between them is a separator. *)
Inductive Runs : str -> list str -> Prop :=
| Runs_end sep :
    Forall (fun c => is_alpha c = false) sep -> Runs sep []
| Runs_token sep tok rest toks :
    Forall (fun c => is_alpha c = false) sep ->
    tok <> [] ->
    Forall (fun c => is_alpha c = true) tok ->
    head_not_alpha rest ->
    Runs rest toks ->
    Runs (sep ++ tok ++ rest) (tok :: toks).

(** The frequency of a token, and the position of its first occurrence. *)
Definition occurrences (w : str) (toks : list str) : nat :=
  length (filter (fun t => t = w) toks).

Fixpoint first_index (w : str) (toks : list str) : nat :=
  match toks with
  | [] => O
  | t :: r => if decide (t = w) then O else S (first_index w r)
  end.

(** "Descending by frequency, ties broken by first occurrence". *)
Definition ranks_before (toks : list str) (w1 w2 : str) : Prop :=
  (occurrences w2 toks < occurrences w1 toks)%nat
  \/ (occurrences w1 toks = occurrences w2 toks
      /\ (first_index w1 toks < first_index w2 toks)%nat).

(** The order a stable descending sort by count produces from an input
    ordered by [P]. *)
Definition count_order (P : relation (str * nat)) : relation (str * nat) :=
  fun x y => (y.2 < x.2)%nat \/ (x.2 = y.2 /\ P x y).

Definition is_ascii_lower (c : char) : bool := (97 <=? c) && (c <=? 122).

Definition is_ascii (c : char) : bool := c <? 128.

(** The small letter of an ASCII capital; every other code point as it is. *)
Definition ascii_lower (c : char) : char :=
  if (65 <=? c) && (c <=? 90) then c + 32 else c.

(** *** Fan-out *)

(** The authors that get an item: the entries that are not blank after
    trimming, trimmed. *)
Fixpoint names_of (repr_str : str -> str) (auths : list pyval) : list str :=
  match auths with
  | [] => []
  | a :: rest =>
      match Str.strip (py_str repr_str a) with
      | [] => names_of repr_str rest
      | s => s :: names_of repr_str rest
      end
  end.

(** The state after a loop: the state before it plus what the loop wrote. *)
Definition add_counts (st : load_state) (its : list item) (np c a k i : nat)
  : load_state :=
  mk_state (batch st ++ its) (num_papers st + np) (total_items st + length its)
    (category_items st + c) (author_items st + a) (keyword_items st + k)
    (id_items st + i).

(** How many items of a list carry the given [item_type]. *)
Definition kind_count (kind : str) (items : list item) : nat :=
  length (filter (fun it => attr_str it (u "item_type") = Some kind) items).

(** The last request of a batch that writes under key [k]. *)
Fixpoint last_put (k : str * str) (requests : list item) : option item :=
  match requests with
  | [] => None
  | it :: rest =>
      match last_put k rest with
      | Some x => Some x
      | None => if decide (item_key it = k) then Some it else None
      end
  end.

(** *** What the loader relies on [fromisoformat] for *)

(** The range checks of the [datetime] constructor. *)
Definition valid_datetime (dt : datetime) : bool :=
  valid_date (year dt) (month dt) (day dt)
  && valid_time (hour dt) (minute dt) (second dt) (microsecond dt).

(** A time to the second whose offset, if it has one, is a whole number of
    seconds and shorter than a day. *)
Definition whole_seconds (dt : datetime) : bool :=
  (microsecond dt =? 0)
  && match tzinfo dt with
     | None => true
     | Some o => ((o mod 1000000 =? 0) && (Z.abs o <? day_usec))%Z
     end.

(** The parser inverts [isoformat], as documented, on the values above. *)
Definition reads_isoformat (parse : str -> option datetime) : Prop :=
  forall dt, valid_datetime dt = true -> whole_seconds dt = true ->
             parse (isoformat dt) = Some dt.

(** What the parser returns is a [datetime], so it holds a calendar date. *)
Definition builds_dates (parse : str -> option datetime) : Prop :=
  forall s dt, parse s = Some dt -> valid_date (year dt) (month dt) (day dt) = true.

(** *** Date texts *)

Definition date_text (y m d : N) : str :=
  zfill 4 y ++ u "-" ++ zfill 2 m ++ u "-" ++ zfill 2 d.

Definition clock_text (h mi s : N) : str :=
  zfill 2 h ++ u ":" ++ zfill 2 mi ++ u ":" ++ zfill 2 s.

Definition offset_text (oh om : N) : str := zfill 2 oh ++ u ":" ++ zfill 2 om.

(** The offset a sign character ([+] or [-]) and an [HH:MM] text denote. *)
Definition offset_of (sg oh om : N) : Z :=
  ((if (sg =? 45)%N then -1 else 1) * usec oh om 0 0)%Z.

(** The same for an [HH:MM:SS] text. *)
Definition offset_of_seconds (sg oh om os : N) : Z :=
  ((if (sg =? 45)%N then -1 else 1) * usec oh om os 0)%Z.

(** A timestamp text that carries the UTC designator. *)
Definition utc_designated (ts : str) : Prop := exists body, ts = body ++ u "Z".

Definition date_char (c : char) : Prop := is_digit c = true \/ c = 45.
Definition clock_char (c : char) : Prop := is_digit c = true \/ c = 58.

(** *** Endpoints and responses *)

(** The paths no branch of [do_GET] takes. *)
Definition unknown_endpoint (path : str) : bool :=
  negb (Str.startswith path (u "/papers/"))
  || (Str.startswith path (u "/papers/search")
      && negb (bool_decide (path = u "/papers/search"))).

(** The paths the by-identifier branch takes. *)
Definition by_id_endpoint (path : str) : bool :=
  Str.startswith path (u "/papers/")
  && negb (bool_decide (path = u "/papers/recent"))
  && negb (Str.startswith path (u "/papers/author/"))
  && negb (Str.startswith path (u "/papers/keyword/"))
  && negb (Str.startswith path (u "/papers/search")).

Definition by_id_request (arxiv_id : str) : query_args :=
  mk_query (Some (u "PaperIdIndex"))
    (KeyEq (u "GSI2PK") (u "PAPER#" ++ arxiv_id)) true None.

Definition not_found_response (arxiv_id : str) : response :=
  mk_response 404 (JObject [(u "error", JVal (PStr (u "Paper not found")));
                            (u "arxiv_id", JVal (PStr arxiv_id))]).

Definition unknown_endpoint_response (path : str) : response :=
  mk_response 404 (JObject [(u "error", JVal (PStr (u "Unknown endpoint")));
                            (u "path", JVal (PStr path))]).

Definition internal_error_response (e : exn) : response :=
  mk_response 500 (JObject [(u "error", JVal (PStr (u "Internal server error")));
                            (u "message", JVal (PStr (exn_text e)))]).

(** What [json.dumps] raises on a number of the store. *)
Definition not_serializable : exn :=
  Exception (u "TypeError") (u "Object of type Decimal is not JSON serializable").

(** The request target [target] parses to the path [path] and the
    parameters [qs] (lines 78-80). *)
Definition parses_to (urlparse : str -> result (str * str))
    (parse_qs : str -> result (gmap str (list str)))
    (target path : str) (qs : gmap str (list str)) : Prop :=
  exists query, urlparse target = Ok (path, query) /\ parse_qs query = Ok qs.

(** The exception leaves [do_GET] before the [try] block is entered. *)
Definition raised_before_try (urlparse : str -> result (str * str))
    (parse_qs : str -> result (gmap str (list str)))
    (target : str) (e : exn) : Prop :=
  urlparse target = Raise e
  \/ exists path query, urlparse target = Ok (path, query) /\ parse_qs query = Raise e.

(** ** Sample data *)

(** [repr] of a [str] of printable characters without quotes or backslashes:
    the text between single quotes. *)
Definition repr_quoted (s : str) : str := u "'" ++ s ++ u "'".

(** [unquote] of a text without [%]; [int] of ["20"] and of a text that is
    no number. *)
Definition unquote_plain (s : str) : str := s.
Definition int_twenty (s : str) : result Z :=
  if bool_decide (s = u "20") then Ok 20%Z
  else Raise (Exception (u "ValueError")
                (u "invalid literal for int() with base 10: " ++ repr_quoted s)).

(** [s.split(c)] for a one-character separator. *)
Fixpoint split_char (c : char) (cur : str) (s : str) : list str :=
  match s with
  | [] => [cur]
  | x :: s' =>
      if x =? c then cur :: split_char c [] s' else split_char c (cur ++ [x]) s'
  end.

(** [urlparse] of a target that is a path, followed or not by [?] and a query
    string: no scheme, no [//], no [;], no [#]. *)
Definition urlparse_plain (target : str) : result (str * str) :=
  match find_char 63 target with
  | Some i => Ok (firstn i target, skipn (S i) target)
  | None => Ok (target, [])
  end.

(** [parse_qs] of [name=value] fields joined by [&], without [%] or [+]:
    fields without [=] or with an empty value are dropped, the values of a
    repeated name are collected in order. *)
Definition parse_qs_plain (query : str) : result (gmap str (list str)) :=
  Ok (fold_left
        (fun qs field =>
           match find_char 61 field with
           | Some i =>
               match skipn (S i) field with
               | [] => qs
               | value => <[firstn i field := default [] (qs !! firstn i field) ++ [value]]> qs
               end
           | None => qs
           end)
        (split_char 38 [] query) ∅).

(** [urlparse] of a target whose network location is an opening bracket
    that is never closed, and of the targets of [urlparse_plain]. *)
Definition urlparse_netloc (target : str) : result (str * str) :=
  if Str.startswith target (u "http://[/")
  then Raise (Exception (u "ValueError") (u "Invalid IPv6 URL"))
  else urlparse_plain target.

Definition record (fields : list (string * pyval)) : pydict :=
  list_to_map (map (fun kv => (u kv.1, kv.2)) fields).

(** The scenario of the design document, section 8, with a blank author. *)
Definition sample_record : pydict :=
  record [ ("id", PStr (u "A1"));
           ("categories", PList [PStr (u "cs.AI"); PStr (u "cs.LG")]);
           ("authors", PList [PStr (u "X Y"); PStr (u "  ")]);
           ("abstract", PStr (u "deep learning deep learning networks")) ]%string.

Definition sample_paper : Paper :=
  mk_Paper (u "A1") [] (u "deep learning deep learning networks")
    [PStr (u "X Y"); PStr (u "  ")] [PStr (u "cs.AI"); PStr (u "cs.LG")]
    (u "1970-01-01") (u "1970-01-01T00:00:00Z")
    [u "deep"; u "learning"; u "networks"].

(** A record whose [arxiv_id] is white space and whose [id] is not. *)
Definition blank_arxiv_id_record : pydict :=
  record [ ("arxiv_id", PStr (u "   ")); ("id", PStr (u "A1"));
           ("categories", PList [PStr (u "cs.AI")]) ]%string.

(** Two papers of one category, published on the first and on the last day of
    January 2024. *)
Definition january_records (id_first id_last : string) : list pydict :=
  [ record [ ("arxiv_id", PStr (u id_first));
             ("published", PStr (u "2024-01-01"));
             ("categories", PList [PStr (u "cs.AI")]) ]%string;
    record [ ("arxiv_id", PStr (u id_last));
             ("published", PStr (u "2024-01-31"));
             ("categories", PList [PStr (u "cs.AI")]) ]%string ].

Definition loaded (papers : list pydict) : gmap (str * str) item :=
  upsert (batch (main repr_quoted read_isoformat papers).1) ∅.

Definition store_with (t : gmap (str * str) item)
  : str -> query_args -> result (list item) :=
  store_of {[ TABLE_NAME := t ]}.

(** ** Vocabulary of the further properties *)

(** *** The load as a whole *)

(** The Papers of the records the loop of [main] gets through: the records
    before the first one that raises, without the skipped ones. *)
Fixpoint accepted (repr_str : str -> str) (fromisoformat : str -> option datetime)
    (papers : list pydict) : list Paper :=
  match papers with
  | [] => []
  | paper :: rest =>
      match normalize repr_str fromisoformat paper with
      | Raise _ => []
      | Ok None => accepted repr_str fromisoformat rest
      | Ok (Some p) => p :: accepted repr_str fromisoformat rest
      end
  end.

(** What the summary of lines 257-271 takes for granted. *)
Definition counters_agree (st : load_state) : Prop :=
  total_items st = length (batch st)
  /\ total_items st
     = (category_items st + author_items st + keyword_items st + id_items st)%nat
  /\ id_items st = num_papers st
  /\ kind_count (u "CATEGORY") (batch st) = category_items st
  /\ kind_count (u "AUTHOR") (batch st) = author_items st
  /\ kind_count (u "KEYWORD") (batch st) = keyword_items st
  /\ kind_count (u "PAPER") (batch st) = id_items st.

(** The identifier [main] reads from a record (line 173), before the blank
    test. *)
Definition record_id (repr_str : str -> str) (paper : pydict) : str :=
  Str.strip (py_str repr_str (por (por (get paper (u "arxiv_id")) (get paper (u "id")))
                                  (PStr []))).

Definition is_str (v : pyval) : bool :=
  match v with PStr _ => true | _ => false end.

Definition no_strip (v : pyval) : exn :=
  Exception (u "AttributeError")
    (u "'" ++ type_name v ++ u "' object has no attribute 'strip'").

(** A record that carries a title that is not a string, and next to it a
    record without identifier whose title is not a string either. *)
Definition null_title_record : pydict :=
  record [ ("arxiv_id", PStr (u "A2")); ("title", PNone) ]%string.

Definition anonymous_record : pydict :=
  record [ ("title", PInt 3); ("categories", PList [PStr (u "cs.AI")]) ]%string.

(** *** Tables the loader builds *)

(** The four shapes of item [main] writes. *)
Inductive written (repr_str : str -> str) : item -> Prop :=
| written_category p cat : written repr_str (category_item repr_str p cat)
| written_author p s : written repr_str (author_item p s)
| written_keyword p kw : written repr_str (keyword_item p kw)
| written_id p : written repr_str (id_item p).

(** The table a load leaves behind when it starts from an empty table. *)
Definition table_of (repr_str : str -> str) (fromisoformat : str -> option datetime)
    (papers : list pydict) : gmap (str * str) item :=
  upsert (batch (main repr_str fromisoformat papers).1) ∅.

(** Every stored item sits under its own key pair and satisfies [Q]. *)
Definition well_keyed (Q : item -> Prop) (t : gmap (str * str) item) : Prop :=
  forall k it, t !! k = Some it -> item_key it = k /\ Q it.

(** The order in which a query walks a partition. *)
Definition scan_order (forward : bool) (sk : str) (a b : item) : Prop :=
  if forward then sort_key_leb sk a b = true else sort_key_leb sk b a = true.

(** The index that holds the items of a kind, if any. *)
Definition index_of_kind (kind : str) : option str :=
  if bool_decide (kind = u "AUTHOR") then Some (u "AuthorIndex")
  else if bool_decide (kind = u "PAPER") then Some (u "PaperIdIndex")
  else if bool_decide (kind = u "KEYWORD") then Some (u "KeywordIndex")
  else None.

(** A second record, by another identifier. *)
Definition other_record : pydict :=
  record [ ("arxiv_id", PStr (u "B7"));
           ("authors", PList [PStr (u "X Y")]);
           ("categories", PList [PStr (u "cs.AI")]) ]%string.

(** *** Calendar order *)

(** The day [y1-m1-d1] lies before the day [y2-m2-d2]. *)
Definition date_before (y1 m1 d1 y2 m2 d2 : N) : Prop :=
  y1 < y2 \/ (y1 = y2 /\ (m1 < m2 \/ (m1 = m2 /\ d1 < d2))).

(** A record with a number among its authors, and the Paper it becomes. *)
Definition numbered_record : pydict :=
  record [ ("id", PStr (u "A1")); ("authors", PList [PInt 7]) ]%string.

Definition numbered_paper : Paper :=
  mk_Paper (u "A1") [] [] [PInt 7] []
    (u "1970-01-01") (u "1970-01-01T00:00:00Z") [].

(** A Paper with nothing but an identifier and a date. *)
Definition paper_of_day (id day : string) : Paper :=
  mk_Paper (u id) [] [] [] [] (u day) (u day) [].

(** The key schema a query addresses: the table's, or a named index's. *)
Definition schema_of (ix : option str) : option key_schema :=
  match ix with
  | None => Some KeySchema
  | Some n => snd <$> find (fun g => bool_decide (g.1 = n)) GlobalSecondaryIndexes
  end.

(** A key condition a query on that schema may carry: equality on the
    partition key, with or without a range of sort keys. *)
Definition condition_on (ks : key_schema) (c : key_condition) : Prop :=
  match c with
  | KeyEq a _ => a = HASH ks
  | KeyAnd (KeyEq a _) (KeyBetween b _ _) => a = HASH ks /\ b = RANGE ks
  | _ => False
  end.

Definition addresses_schema (args : query_args) : Prop :=
  exists ks, schema_of (IndexName args) = Some ks
             /\ condition_on ks (KeyConditionExpression args).

Definition kinds : list str := [u "CATEGORY"; u "AUTHOR"; u "KEYWORD"; u "PAPER"].

Definition missing_parameter_response (text : string) : response :=
  mk_response 400 (JObject [(u "error", JVal (PStr (u text)))]).

(** A store that fails on every call. *)
Definition store_down : str -> query_args -> result (list item) :=
  fun _ _ => Raise (Exception (u "EndpointConnectionError") (u "Could not connect")).

(** * Properties *)

(** ** Keyword extraction *)


Lemma Runs_cons_sep c s toks :
  is_alpha c = false -> Runs s toks -> Runs (c :: s) toks.
Proof.
  intros Hc H. destruct H as [sep Hsep | sep tok rest toks Hsep Hne Htok Hhd Hrest].
  - apply Runs_end. by constructor.
  - change (c :: sep ++ tok ++ rest) with ((c :: sep) ++ tok ++ rest).
    apply Runs_token; auto.
Qed.

Lemma findall_from_spec s :
  Runs s (findall_from [] s)
  /\ forall cur, cur <> [] ->
       exists t rest toks,
         findall_from cur s = (cur ++ t) :: toks /\ s = t ++ rest
         /\ Forall (fun c => is_alpha c = true) t
         /\ head_not_alpha rest /\ Runs rest toks.
Proof.
  induction s as [| c s [IH1 IH2]].
  - split.
    + apply Runs_end. constructor.
    + intros cur Hcur. exists [], [], []. simpl.
      destruct cur; [done |]. rewrite app_nil_r.
      repeat split; auto. apply Runs_end; constructor.
  - split.
    + simpl. destruct (is_alpha c) eqn:Hc.
      * destruct (IH2 [c]) as (t & rest & toks & -> & -> & Ht & Hhd & Hr); [done |].
        apply (Runs_token [] (c :: t) rest toks); auto. 
      * by apply Runs_cons_sep.
    + intros cur Hcur. simpl. destruct (is_alpha c) eqn:Hc.
      * destruct (IH2 (cur ++ [c])) as (t & rest & toks & -> & -> & Ht & Hhd & Hr).
        { by destruct cur. }
        exists (c :: t), rest, toks. rewrite <- app_assoc. simpl.
        repeat split; auto.
      * exists [], (c :: s), (findall_from [] s).
        rewrite app_nil_r. destruct cur; [done |].
        repeat split; auto. by apply Runs_cons_sep.
Qed.

Lemma findall_alpha_Runs s : Runs s (findall_alpha s).
Proof. apply findall_from_spec. Qed.

Lemma Runs_token_props s toks :
  Runs s toks ->
  forall t, t ∈ toks ->
    t <> [] /\ Forall (fun c => is_alpha c = true) t /\ forall c, c ∈ t -> c ∈ s.
Proof.
  induction 1 as [| sep tok rest toks Hsep Hne Htok Hhd Hrest IH]; intros t Ht.
  - by apply elem_of_nil in Ht.
  - apply elem_of_cons in Ht as [-> | Ht].
    + repeat split; auto. intros c Hc. rewrite !elem_of_app. auto.
    + destruct (IH t Ht) as (? & ? & Hin). repeat split; auto.
      intros c Hc. rewrite !elem_of_app. auto.
Qed.

(** *** The counter *)

Lemma Counter_snoc toks w : Counter (toks ++ [w]) = counter_incr w (Counter toks).
Proof. unfold Counter. by rewrite fold_left_app. Qed.

Lemma counter_incr_keys w c :
  (counter_incr w c).*1 = if decide (w ∈ c.*1) then c.*1 else c.*1 ++ [w].
Proof.
  induction c as [| [k n] c IH].
  - done.
  - simpl counter_incr. destruct (decide (k = w)) as [-> | Hne].
    + rewrite decide_True; [done |]. rewrite fmap_cons. apply elem_of_cons; auto.
    + rewrite !fmap_cons, IH. simpl. destruct (decide (w ∈ c.*1)) as [Hin | Hnin].
      * rewrite decide_True; [done | apply elem_of_cons; auto].
      * rewrite decide_False; [done |].
        intros [? | ?]%elem_of_cons; congruence.
Qed.

Lemma counter_incr_seen (f : list N -> nat) ks w :
  NoDup ks -> w ∈ ks ->
  counter_incr w ((fun k => (k, f k)) <$> ks)
  = (fun k => (k, if decide (k = w) then S (f k) else f k)) <$> ks.
Proof.
  induction ks as [| k ks IH]; intros Hnd Hin.
  - by apply elem_of_nil in Hin.
  - apply NoDup_cons in Hnd as [Hk Hnd]. rewrite !fmap_cons. simpl.
    destruct (decide (k = w)) as [-> | Hne].
    + f_equal. apply list_fmap_ext. intros i x Hx.
      rewrite decide_False; [done |]. intros ->. apply Hk.
      apply list_elem_of_lookup. eauto.
    + f_equal. apply IH; [done |].
      apply elem_of_cons in Hin as [? | ?]; [congruence | done].
Qed.

Lemma counter_incr_new (f : list N -> nat) ks w :
  w ∉ ks ->
  counter_incr w ((fun k => (k, f k)) <$> ks)
  = ((fun k => (k, f k)) <$> ks) ++ [(w, 1%nat)].
Proof.
  induction ks as [| k ks IH]; intros Hnin; [done |].
  rewrite !fmap_cons. simpl. rewrite decide_False.
  - f_equal. apply IH. intros ?. apply Hnin, elem_of_cons. auto.
  - intros ->. apply Hnin, elem_of_cons. auto.
Qed.

Lemma occurrences_snoc w toks k :
  occurrences k (toks ++ [w]) =
  (occurrences k toks + if decide (w = k) then 1 else 0)%nat.
Proof.
  unfold occurrences. rewrite filter_app, length_app. f_equal.
  rewrite filter_cons, filter_nil. by destruct (decide (w = k)).
Qed.

Lemma occurrences_pos w toks : w ∈ toks <-> (0 < occurrences w toks)%nat.
Proof.
  unfold occurrences. induction toks as [| t toks IH].
  - rewrite filter_nil. simpl. split; [by intros ?%elem_of_nil | lia].
  - rewrite filter_cons, elem_of_cons. destruct (decide (t = w)) as [-> | Hne]; simpl.
    + split; [lia | auto].
    + rewrite <- IH. split; [intros [? | ?]; [congruence | done] | auto].
Qed.

Lemma first_index_snoc_in w toks k :
  k ∈ toks -> first_index k (toks ++ [w]) = first_index k toks.
Proof.
  induction toks as [| t toks IH]; simpl; intros Hin.
  - by apply elem_of_nil in Hin.
  - destruct (decide (t = k)); [done |]. f_equal. apply IH.
    apply elem_of_cons in Hin as [? | ?]; [congruence | done].
Qed.

Lemma first_index_lt k toks : k ∈ toks -> (first_index k toks < length toks)%nat.
Proof.
  induction toks as [| t toks IH]; simpl; intros Hin.
  - by apply elem_of_nil in Hin.
  - destruct (decide (t = k)); [lia |].
    apply elem_of_cons in Hin as [? | ?]; [congruence |]. apply IH in H. lia.
Qed.

Lemma first_index_snoc_new w toks :
  w ∉ toks -> first_index w (toks ++ [w]) = length toks.
Proof.
  induction toks as [| t toks IH]; simpl; intros Hnin.
  - by rewrite decide_True.
  - rewrite decide_False; [| intros ->; apply Hnin, elem_of_cons; auto].
    f_equal. apply IH. intros ?. apply Hnin, elem_of_cons. auto.
Qed.

Lemma StronglySorted_impl_elem {A} (R R' : A -> A -> Prop) l :
  (forall x y, x ∈ l -> y ∈ l -> R x y -> R' x y) ->
  StronglySorted R l -> StronglySorted R' l.
Proof.
  induction l as [| a l IH]; intros Himp Hs; [constructor |].
  apply StronglySorted_inv in Hs as [Hs Hall]. constructor.
  - apply IH; [| done]. intros x y Hx Hy. apply Himp; apply elem_of_cons; auto.
  - rewrite Forall_forall in Hall |- *. intros y Hy.
    apply Himp; [apply elem_of_cons; auto | apply elem_of_cons; auto |].
    by apply Hall.
Qed.

Lemma Counter_inv toks :
  Counter toks = (fun k => (k, occurrences k toks)) <$> (Counter toks).*1
  /\ NoDup (Counter toks).*1
  /\ (forall k, k ∈ (Counter toks).*1 <-> k ∈ toks)
  /\ StronglySorted (fun k1 k2 => (first_index k1 toks < first_index k2 toks)%nat)
       (Counter toks).*1.
Proof.
  induction toks as [| w toks (Hval & Hnd & Hkeys & Hso)] using rev_ind.
  - repeat split; try constructor; by intros ?%elem_of_nil.
  - rewrite Counter_snoc, counter_incr_keys.
    assert (Hold : StronglySorted
              (fun k1 k2 => (first_index k1 (toks ++ [w]) < first_index k2 (toks ++ [w]))%nat)
              (Counter toks).*1).
    { eapply StronglySorted_impl_elem; [| exact Hso].
      intros x y Hx Hy Hlt. apply Hkeys in Hx, Hy.
      by rewrite !first_index_snoc_in. }
    destruct (decide (w ∈ (Counter toks).*1)) as [Hin | Hnin].
    + repeat split; try done.
      * rewrite Hval at 1. rewrite counter_incr_seen by done.
        apply list_fmap_ext. intros i k Hk. rewrite occurrences_snoc.
        f_equal. destruct (decide (k = w)) as [-> | Hne].
        -- rewrite decide_True by done. lia.
        -- rewrite decide_False by done. lia.
      * intros Hk. apply elem_of_app. left. by apply Hkeys.
      * intros [Hk | ->%list_elem_of_singleton]%elem_of_app; [by apply Hkeys | done].
    + assert (Hw : w ∉ toks) by (by rewrite <- Hkeys).
      repeat split.
      * rewrite Hval at 1. rewrite counter_incr_new by done.
        rewrite fmap_app. f_equal.
        -- apply list_fmap_ext. intros i k Hk. rewrite occurrences_snoc.
           rewrite decide_False; [f_equal; lia |].
           intros ->. apply Hnin. apply list_elem_of_lookup. eauto.
        -- simpl. rewrite occurrences_snoc, decide_True by done.
           rewrite occurrences_pos in Hw. do 2 f_equal. lia.
      * apply NoDup_app. repeat split; [done | | apply NoDup_singleton].
        intros x Hx ->%list_elem_of_singleton. done.
      * rewrite !elem_of_app, list_elem_of_singleton, Hkeys. tauto.
      * rewrite !elem_of_app, list_elem_of_singleton, Hkeys. tauto.
      * apply StronglySorted_app_2; [| exact Hold | repeat constructor].
        intros x y Hx ->%list_elem_of_singleton. apply Hkeys in Hx.
        rewrite first_index_snoc_in, first_index_snoc_new by done.
        by apply first_index_lt.
Qed.

(** *** The stable descending sort *)


Lemma insert_desc_perm x l : insert_desc x l ≡ₚ x :: l.
Proof.
  induction l as [| y l IH]; simpl; [done |].
  destruct (x.2 <? y.2)%nat; [| done].
  rewrite IH. apply perm_swap.
Qed.

Lemma sorted_desc_perm c : sorted_desc c ≡ₚ c.
Proof.
  induction c as [| x c IH]; simpl; [done |].
  by rewrite insert_desc_perm, IH.
Qed.

Lemma insert_desc_sorted P x l :
  StronglySorted (count_order P) l ->
  Forall (P x) l ->
  StronglySorted (count_order P) (insert_desc x l).
Proof.
  induction l as [| y l IH]; simpl; intros Hs Hall.
  - repeat constructor.
  - apply StronglySorted_inv in Hs as [Hs Hy].
    apply Forall_cons in Hall as [Hxy Hall].
    destruct (x.2 <? y.2)%nat eqn:Hlt.
    + apply Nat.ltb_lt in Hlt. constructor; [by apply IH |].
      rewrite Forall_forall. intros z Hz.
      rewrite insert_desc_perm in Hz. apply elem_of_cons in Hz as [-> | Hz].
      * by left.
      * rewrite Forall_forall in Hy. by apply Hy.
    + apply Nat.ltb_ge in Hlt. constructor; [by constructor |].
      constructor.
      * destruct (decide (x.2 = y.2)) as [Heq | Hne]; [right; done | left; lia].
      * rewrite Forall_forall in Hy, Hall |- *. intros z Hz.
        destruct (Hy z Hz) as [Hlt' | [Heq HP]].
        -- left. lia.
        -- destruct (decide (x.2 = z.2)) as [Heq' | Hne]; [right; auto | left; lia].
Qed.

Lemma sorted_desc_sorted P c :
  StronglySorted P c -> StronglySorted (count_order P) (sorted_desc c).
Proof.
  induction 1 as [| x c Hs IH Hall]; simpl; [constructor |].
  apply insert_desc_sorted; [done |].
  rewrite Forall_forall in Hall |- *. intros y Hy. apply Hall.
  by rewrite sorted_desc_perm in Hy.
Qed.

Lemma StronglySorted_lookup {A} (R : relation A) l i j x y :
  StronglySorted R l -> (i < j)%nat -> l !! i = Some x -> l !! j = Some y -> R x y.
Proof.
  intros Hs Hij Hi Hj.
  rewrite <- (take_drop_middle l j y Hj) in Hs.
  eapply StronglySorted_app_1_elem_of; [exact Hs | | apply elem_of_cons; auto].
  apply elem_of_take. eauto.
Qed.

Lemma StronglySorted_fmap_inv {A B} (f : A -> B) (R : relation B) l :
  StronglySorted R (f <$> l) -> StronglySorted (fun x y => R (f x) (f y)) l.
Proof.
  induction l as [| a l IH]; [constructor |].
  rewrite fmap_cons. intros [Hs Hall]%StronglySorted_inv.
  constructor; [by apply IH |]. rewrite Forall_fmap in Hall.
  eapply Forall_impl; [exact Hall | done].
Qed.

Lemma extract_keywords_eq abstract n :
  extract_keywords abstract n
  = (take (Z.to_nat n) (sorted_desc (Counter (keyword_tokens abstract)))).*1.
Proof.
  unfold extract_keywords, most_common. destruct abstract as [| c s].
  - change (keyword_tokens []) with (@nil (list N)). simpl. by rewrite take_nil.
  - destruct (keyword_tokens (c :: s)); [simpl; by rewrite take_nil | done].
Qed.

Lemma ranking_elem (toks : list str) x :
  x ∈ sorted_desc (Counter toks) -> x.1 ∈ toks /\ x.2 = occurrences x.1 toks.
Proof.
  rewrite sorted_desc_perm.
  destruct (Counter_inv toks) as (Hval & _ & Hkeys & _).
  rewrite Hval. intros (k & -> & Hk)%list_elem_of_fmap. simpl.
  split; [by apply Hkeys | done].
Qed.

Lemma ranking_sorted (toks : list str) :
  StronglySorted
    (count_order (fun x y => (first_index x.1 toks < first_index y.1 toks)%nat))
    (sorted_desc (Counter toks)).
Proof.
  apply sorted_desc_sorted.
  destruct (Counter_inv toks) as (_ & _ & _ & Hso).
  by apply StronglySorted_fmap_inv in Hso.
Qed.

Lemma ranking_NoDup (toks : list str) : NoDup (sorted_desc (Counter toks)).*1.
Proof. rewrite sorted_desc_perm. apply Counter_inv. Qed.

Lemma ranking_order (toks : list str) x y :
  x ∈ sorted_desc (Counter toks) -> y ∈ sorted_desc (Counter toks) ->
  count_order (fun x y => (first_index x.1 toks < first_index y.1 toks)%nat) x y ->
  ranks_before toks x.1 y.1.
Proof.
  intros [_ Hx]%ranking_elem [_ Hy]%ranking_elem. unfold count_order, ranks_before.
  rewrite <- Hx, <- Hy. tauto.
Qed.

Lemma ranking_complete (toks : list str) w :
  w ∈ toks -> w ∈ (sorted_desc (Counter toks)).*1.
Proof. intros Hw. rewrite sorted_desc_perm. by apply Counter_inv. Qed.

Ltac nbool :=
  repeat match goal with
    | H : _ && _ = true |- _ => apply andb_true_iff in H as [? ?]
    | H : _ || _ = true |- _ => apply orb_true_iff in H as [? | ?]
    | H : _ && _ = false |- _ => apply andb_false_iff in H as [? | ?]
    | H : _ || _ = false |- _ => apply orb_false_iff in H as [? ?]
    | H : negb _ = true |- _ => apply negb_true_iff in H
    | H : negb _ = false |- _ => apply negb_false_iff in H
    | H : (_ <=? _) = true |- _ => apply N.leb_le in H
    | H : (_ <=? _) = false |- _ => apply N.leb_gt in H
    | H : (_ <? _) = true |- _ => apply N.ltb_lt in H
    | H : (_ <? _) = false |- _ => apply N.ltb_ge in H
    | H : (_ =? _) = true |- _ => apply N.eqb_eq in H
    | H : (_ =? _) = false |- _ => apply N.eqb_neq in H
    end.

Lemma lower_char_not_upper x c :
  c ∈ Str.lower_char x -> ~ (65 <= c <= 90).
Proof.
  unfold Str.lower_char.
  destruct ((65 <=? x) && (x <=? 90)) eqn:H1;
    [| destruct ((192 <=? x) && (x <=? 222) && negb (x =? 215)) eqn:H2;
       [| destruct (x =? 304) eqn:H3; [| destruct (x =? 8490) eqn:H4]]];
    rewrite ?elem_of_cons, ?elem_of_nil; intros Hc; nbool;
    repeat (destruct Hc as [-> | Hc]); try done; lia.
Qed.

Lemma lower_not_upper s c : c ∈ Str.lower s -> ~ (65 <= c <= 90).
Proof.
  unfold Str.lower. rewrite list_elem_of_In, in_flat_map.
  intros (x & _ & Hc). rewrite <- list_elem_of_In in Hc.
  by eapply lower_char_not_upper.
Qed.

Lemma lower_ascii_lower w :
  Forall (fun c => is_ascii_lower c = true) w -> Str.lower w = w.
Proof.
  induction 1 as [| c w Hc _ IH]; [done |].
  unfold Str.lower in *. simpl. rewrite IH. unfold Str.lower_char, is_ascii_lower in *.
  nbool.
  destruct ((65 <=? c) && (c <=? 90)) eqn:H1; [nbool; lia |].
  destruct ((192 <=? c) && (c <=? 222) && negb (c =? 215)) eqn:H2; [nbool; lia |].
  destruct (c =? 304) eqn:H3; [nbool; lia |].
  destruct (c =? 8490) eqn:H4; [nbool; lia | done].
Qed.

Lemma alpha_not_space c : is_alpha c = true -> Str.isspace c = false.
Proof.
  unfold is_alpha, Str.isspace. intros H.
  repeat (apply orb_false_iff; split); nbool;
    first [apply N.eqb_neq; lia | apply andb_false_iff; rewrite !N.leb_gt; lia].
Qed.

Lemma lstrip_alpha w :
  Forall (fun c => is_alpha c = true) w -> Str.lstrip w = w.
Proof. destruct 1 as [| c w Hc _]; [done |]. simpl. by rewrite alpha_not_space. Qed.

Lemma strip_alpha w :
  Forall (fun c => is_alpha c = true) w -> Str.strip w = w.
Proof.
  intros H. unfold Str.strip, Str.rstrip. rewrite (lstrip_alpha w) by done.
  rewrite lstrip_alpha; [apply rev_involutive |].
  rewrite Forall_forall in H |- *. intros c Hc. apply H.
  by rewrite list_elem_of_In, <- in_rev, <- list_elem_of_In in Hc.
Qed.

Lemma lower_ascii_text s :
  Forall (fun c => is_ascii c = true) s -> Str.lower s = map ascii_lower s.
Proof.
  induction 1 as [| c s Hc _ IH]; [done |].
  change (Str.lower (c :: s)) with (Str.lower_char c ++ Str.lower s).
  rewrite IH. cbn [map]. unfold Str.lower_char, ascii_lower, is_ascii in *. nbool.
  destruct ((65 <=? c) && (c <=? 90)) eqn:H1; [done |].
  destruct ((192 <=? c) && (c <=? 222) && negb (c =? 215)) eqn:H2; [nbool; lia |].
  destruct (c =? 304) eqn:H3; [nbool; lia |].
  destruct (c =? 8490) eqn:H4; [nbool; lia | done].
Qed.

Lemma lower_tokens_props abstract w :
  w ∈ findall_alpha (Str.lower abstract) ->
  w <> [] /\ Forall (fun c => is_ascii_lower c = true) w.
Proof.
  intros Hw.
  destruct (Runs_token_props _ _ (findall_alpha_Runs (Str.lower abstract)) w Hw)
    as (Hne & Halpha & Hsub).
  split; [done |].
  rewrite Forall_forall in Halpha |- *. intros c Hc.
  pose proof (Halpha c Hc) as Ha. pose proof (lower_not_upper _ _ (Hsub c Hc)) as Hu.
  unfold is_alpha in Ha. unfold is_ascii_lower. nbool.
  - apply andb_true_iff. by rewrite !N.leb_le.
  - lia.
Qed.

Lemma keyword_tokens_props abstract w :
  w ∈ keyword_tokens abstract ->
  w <> [] /\ Forall (fun c => is_ascii_lower c = true) w /\ w ∉ STOPWORDS.
Proof.
  unfold keyword_tokens. intros [Hstop Hw]%list_elem_of_filter.
  destruct (lower_tokens_props _ _ Hw). done.
Qed.

Lemma extract_keywords_props (abstract : str) (max_keywords : Z) :
  NoDup (extract_keywords abstract max_keywords)
  /\ forall w, w ∈ extract_keywords abstract max_keywords ->
       w <> [] /\ Forall (fun c => is_ascii_lower c = true) w /\ w ∉ STOPWORDS.
Proof.
  rewrite extract_keywords_eq. split.
  - rewrite fmap_take. eapply sublist_NoDup; [| apply sublist_take].
    apply ranking_NoDup.
  - intros w (x & -> & Hx)%list_elem_of_fmap.
    apply (keyword_tokens_props abstract).
    apply elem_of_take in Hx as (i & Hi & _).
    apply ranking_elem. apply list_elem_of_lookup. eauto.
Qed.

(** C2.  For every abstract and maximum count: the tokens are the maximal runs
    of letters of the lower-cased text, so for a text of ASCII characters the
    runs of letters of the text with its capitals [A]-[Z] turned into
    [a]-[z], and every token is made of the letters [a]-[z]; the result has
    at most [max_keywords] entries, all of them tokens that are not stop
    words; it is ordered by descending frequency, ties by first occurrence; a
    token left out ranks after every token returned, and only when the result
    is full; and an empty or all-stop-word abstract gives the empty list.
    The function is total, so no input raises.  The last line is the ranking
    of a text in mixed case. *)
Theorem extract_keywords_ranked (abstract : str) (max_keywords : Z) :
  let toks := findall_alpha (Str.lower abstract) in
  let kept := filter (fun t => t ∉ STOPWORDS) toks in
  let kws := extract_keywords abstract max_keywords in
  Runs (Str.lower abstract) toks
  /\ (Forall (fun c => is_ascii c = true) abstract ->
      Runs (map ascii_lower abstract) toks)
  /\ (forall w, w ∈ toks -> w <> [] /\ Forall (fun c => is_ascii_lower c = true) w)
  /\ (length kws <= Z.to_nat max_keywords)%nat
  /\ (forall w, w ∈ kws -> w ∈ kept)
  /\ (forall i j w1 w2, (i < j)%nat -> kws !! i = Some w1 -> kws !! j = Some w2 ->
        ranks_before kept w1 w2)
  /\ (forall w, w ∈ kept -> w ∉ kws ->
        length kws = Z.to_nat max_keywords
        /\ forall w', w' ∈ kws -> ranks_before kept w' w)
  /\ (kept = [] -> kws = [])
  /\ extract_keywords [] max_keywords = []
  /\ extract_keywords (u "The Deep nets; deep NETS and Graphs") 10
     = [u "deep"; u "nets"; u "graphs"].
Proof.
  intros toks kept kws.
  assert (Hkws : kws = (take (Z.to_nat max_keywords) (sorted_desc (Counter kept))).*1)
    by apply extract_keywords_eq.
  set (n := Z.to_nat max_keywords) in *.
  set (S := sorted_desc (Counter kept)) in *.
  assert (Htake : forall x, x ∈ take n S -> x ∈ S).
  { intros x (i & Hi & _)%elem_of_take. apply list_elem_of_lookup. eauto. }
  split; [apply findall_alpha_Runs |].
  split.
  { intros Hascii. rewrite <- (lower_ascii_text abstract Hascii).
    apply findall_alpha_Runs. }
  split; [apply lower_tokens_props |].
  split; [rewrite Hkws, length_fmap, length_take; lia |].
  split.
  { rewrite Hkws. intros w (x & -> & Hx)%list_elem_of_fmap.
    by apply ranking_elem, Htake. }
  split.
  { rewrite Hkws. intros i j w1 w2 Hij Hi Hj.
    rewrite list_lookup_fmap in Hi, Hj.
    destruct (take n S !! i) as [x |] eqn:Hx; [| done].
    destruct (take n S !! j) as [y |] eqn:Hy; [| done].
    simpl in Hi, Hj. injection Hi as <-. injection Hj as <-.
    apply ranking_order.
    - apply Htake, list_elem_of_lookup. eauto.
    - apply Htake, list_elem_of_lookup. eauto.
    - eapply StronglySorted_lookup; [| exact Hij | exact Hx | exact Hy].
      pose proof (ranking_sorted kept) as Hs. fold S in Hs.
      rewrite <- (take_drop n S) in Hs. by apply StronglySorted_app_1_l in Hs. }
  split.
  { rewrite Hkws. intros w Hw Hnot.
    apply ranking_complete in Hw. fold S in Hw.
    apply list_elem_of_fmap in Hw as (y & -> & Hy).
    rewrite <- (take_drop n S) in Hy. apply elem_of_app in Hy as [Hy | Hy].
    { exfalso. apply Hnot. apply list_elem_of_fmap. eauto. }
    split.
    - rewrite length_fmap, length_take.
      assert (n < length S)%nat; [| lia].
      destruct (decide (n < length S)%nat) as [? | Hge]; [done |].
      rewrite drop_ge in Hy by lia. by apply elem_of_nil in Hy.
    - intros w' (x & -> & Hx)%list_elem_of_fmap.
      apply ranking_order.
      + by apply Htake.
      + change (y ∈ S). rewrite <- (take_drop n S). apply elem_of_app. auto.
      + pose proof (ranking_sorted kept) as Hs. fold S in Hs.
        rewrite <- (take_drop n S) in Hs.
        eapply StronglySorted_app_1_elem_of; eauto. }
  split; [| split; [done | vm_compute; reflexivity]].
  intros Hk. rewrite Hkws. subst S. rewrite Hk. simpl. by rewrite take_nil.
Qed.


Lemma ascii_lower_alpha w :
  Forall (fun c => is_ascii_lower c = true) w -> Forall (fun c => is_alpha c = true) w.
Proof.
  intros H. eapply Forall_impl; [exact H |]. intros c Hc. unfold is_alpha.
  unfold is_ascii_lower in Hc. by rewrite Hc.
Qed.

Lemma keyword_item_key p kw :
  item_key (keyword_item p kw) = (u "KEYWORD#" ++ kw, sort_key p).
Proof. vm_compute. reflexivity. Qed.

(** C10.  The extracted keywords are pairwise distinct, and each is a
    non-empty string of the letters [a]-[z] that is not a stop word; so the
    KEYWORD items the loader writes for them have pairwise distinct keys. *)
Theorem extract_keywords_distinct_lowercase
  (p : Paper) (abstract : str) (max_keywords : Z) :
  let kws := extract_keywords abstract max_keywords in
  NoDup kws
  /\ (forall w, w ∈ kws ->
        w <> [] /\ Forall (fun c => is_ascii_lower c = true) w /\ w ∉ STOPWORDS)
  /\ NoDup ((fun kw => item_key (keyword_item p (Str.strip (Str.lower kw))))
              <$> kws).
Proof.
  intros kws. destruct (extract_keywords_props abstract max_keywords) as [Hnd Hall].
  fold kws in Hnd, Hall. split; [done |]. split; [done |].
  apply NoDup_fmap_2_strong; [| done].
  intros w1 w2 H1 H2. rewrite !keyword_item_key.
  destruct (Hall w1 H1) as (_ & Hl1 & _). destruct (Hall w2 H2) as (_ & Hl2 & _).
  rewrite !lower_ascii_lower by done.
  rewrite !strip_alpha by by apply ascii_lower_alpha.
  by intros [= Heq].
Qed.

(** ** The fan-out of one record *)

Ltac state_eq :=
  unfold add_counts; simpl;
  rewrite ?length_app, ?length_fmap, ?app_nil_r, <- ?app_assoc; simpl;
  f_equal; first [lia | done].

Lemma add_counts_nil st : add_counts st [] 0 0 0 0 0 = st.
Proof. destruct st. state_eq. Qed.

Lemma keywords_loop p (kws : list str) st :
  Forall (fun w => w <> [] /\ Forall (fun c => is_ascii_lower c = true) w) kws ->
  fold_left (put_keyword p) kws st
  = add_counts st (keyword_item p <$> kws) 0 0 0 (length kws) 0.
Proof.
  intros H. revert st. induction H as [| w kws [Hne Hlow] _ IH]; intros st.
  - simpl. by rewrite add_counts_nil.
  - simpl. rewrite IH. unfold put_keyword.
    rewrite lower_ascii_lower by done.
    rewrite strip_alpha by by apply ascii_lower_alpha.
    destruct w as [| c w]; [by destruct Hne |]. state_eq.
Qed.

Lemma kind_count_app (kind : str) (l1 l2 : list item) :
  kind_count kind (l1 ++ l2) = (kind_count kind l1 + kind_count kind l2)%nat.
Proof. unfold kind_count. by rewrite filter_app, length_app. Qed.

Lemma kind_count_all {A} (kind : str) (f : A -> item) (l : list A) :
  (forall x, attr_str (f x) (u "item_type") = Some kind) ->
  kind_count kind (f <$> l) = length l.
Proof.
  intros H. unfold kind_count. induction l as [| x l IH]; [done |].
  rewrite fmap_cons, filter_cons, decide_True by apply H. simpl. by rewrite IH.
Qed.

Lemma kind_count_none {A} (kind : str) (f : A -> item) (l : list A) :
  (forall x, attr_str (f x) (u "item_type") <> Some kind) ->
  kind_count kind (f <$> l) = 0%nat.
Proof.
  intros H. unfold kind_count. induction l as [| x l IH]; [done |].
  by rewrite fmap_cons, filter_cons, decide_False by apply H.
Qed.

Ltac kind_tac :=
  first
    [ rewrite kind_count_all by (intros; vm_compute; reflexivity)
    | rewrite kind_count_none by (intros; vm_compute; discriminate) ].

Section LoaderFacts.
Context (repr_str : str -> str) (fromisoformat : str -> option datetime).

Lemma categories_loop p cats st :
  fold_left (put_category repr_str p) cats st
  = add_counts st (category_item repr_str p <$> cats) 0 (length cats) 0 0 0.
Proof.
  revert st. induction cats as [| cat cats IH]; intros st.
  - simpl. by rewrite add_counts_nil.
  - simpl. rewrite IH. unfold put_category. state_eq.
Qed.

Lemma authors_loop p (auths : list pyval) st :
  fold_left (put_author repr_str p) auths st
  = add_counts st (author_item p <$> names_of repr_str auths) 0 0
      (length (names_of repr_str auths)) 0 0.
Proof.
  revert st. induction auths as [| au auths IH]; intros st.
  - simpl. by rewrite add_counts_nil.
  - simpl. rewrite IH. unfold put_author.
    destruct (Str.strip (py_str repr_str au)) as [| c s] eqn:Hs; [done |]. state_eq.
Qed.

Lemma names_of_length auths :
  length (names_of repr_str auths)
  = length (filter (fun a => Str.strip (py_str repr_str a) <> []) auths).
Proof.
  induction auths as [| a auths IH]; [done |].
  simpl. rewrite filter_cons. destruct (Str.strip (py_str repr_str a)) eqn:Hs.
  - by rewrite decide_False by (intros H; by apply H).
  - rewrite decide_True by done. simpl. by rewrite IH.
Qed.

Lemma normalize_inv paper p :
  normalize repr_str fromisoformat paper = Ok (Some p) ->
  arxiv_id p
  = Str.strip (py_str repr_str (por (por (get paper (u "arxiv_id")) (get paper (u "id")))
                                    (PStr [])))
  /\ arxiv_id p <> []
  /\ call_strip (get_or paper (u "title") (PStr [])) = Ok (title p)
  /\ call_strip (get_or paper (u "abstract") (PStr [])) = Ok (abstract p)
  /\ authors p = as_list repr_str (get paper (u "authors"))
  /\ categories p = as_list repr_str (get paper (u "categories"))
  /\ (date_str p, published_iso p)
     = normalize_published repr_str fromisoformat (get paper (u "published"))
  /\ keywords p = extract_keywords (abstract p) 10.
Proof.
  unfold normalize.
  destruct (Str.strip _) as [| c s] eqn:Hid; [done |].
  destruct (call_strip (get_or paper (u "title") _)) as [t |] eqn:Ht; [| done].
  destruct (call_strip (get_or paper (u "abstract") _)) as [a |] eqn:Ha; [| done].
  cbn. destruct (normalize_published _ _) as [d iso] eqn:Hp.
  intros [= <-]. cbn. done.
Qed.

Lemma fan_out_eq paper p st :
  normalize repr_str fromisoformat paper = Ok (Some p) ->
  fan_out repr_str p st
  = add_counts st
      ((category_item repr_str p <$> categories p)
       ++ (author_item p <$> names_of repr_str (authors p))
       ++ (keyword_item p <$> keywords p)
       ++ [id_item p])
      1 (length (categories p)) (length (names_of repr_str (authors p)))
      (length (keywords p)) 1.
Proof.
  intros Hn. unfold fan_out.
  rewrite categories_loop, authors_loop, keywords_loop.
  - unfold put_id. state_eq.
  - apply normalize_inv in Hn as (_ & _ & _ & _ & _ & _ & _ & ->).
    rewrite Forall_forall. intros w Hw.
    apply extract_keywords_props in Hw. tauto.
Qed.

(** C1.  For a record the loader accepts, with [c] category entries, [a]
    author entries that are not blank after trimming and [k] extracted
    keywords, the fan-out writes exactly [c + a + k + 1] items: one CATEGORY
    item per category entry, one AUTHOR item per non-blank author, one
    KEYWORD item per keyword and one identifier item (tagged [PAPER]), in
    that order; the loader's own counters advance by the same numbers. *)
Theorem denormalize_item_count (paper : pydict) (p : Paper) (st : load_state) :
  normalize repr_str fromisoformat paper = Ok (Some p) ->
  let c := length (categories p) in
  let a := length (filter (fun au => Str.strip (py_str repr_str au) <> []) (authors p)) in
  let k := length (keywords p) in
  length (denormalize repr_str p) = (c + a + k + 1)%nat
  /\ kind_count (u "CATEGORY") (denormalize repr_str p) = c
  /\ kind_count (u "AUTHOR") (denormalize repr_str p) = a
  /\ kind_count (u "KEYWORD") (denormalize repr_str p) = k
  /\ kind_count (u "PAPER") (denormalize repr_str p) = 1%nat
  /\ denormalize repr_str p
     = (category_item repr_str p <$> categories p)
       ++ (author_item p <$> names_of repr_str (authors p))
       ++ (keyword_item p <$> keywords p)
       ++ [id_item p]
  /\ batch (fan_out repr_str p st) = batch st ++ denormalize repr_str p
  /\ total_items (fan_out repr_str p st) = (total_items st + (c + a + k + 1))%nat
  /\ category_items (fan_out repr_str p st) = (category_items st + c)%nat
  /\ author_items (fan_out repr_str p st) = (author_items st + a)%nat
  /\ keyword_items (fan_out repr_str p st) = (keyword_items st + k)%nat
  /\ id_items (fan_out repr_str p st) = (id_items st + 1)%nat.
Proof.
  intros Hn c a k.
  assert (Ha : length (names_of repr_str (authors p)) = a) by apply names_of_length.
  assert (Hd : denormalize repr_str p
               = (category_item repr_str p <$> categories p)
                 ++ (author_item p <$> names_of repr_str (authors p))
                 ++ (keyword_item p <$> keywords p)
                 ++ [id_item p]).
  { unfold denormalize. by rewrite (fan_out_eq _ _ _ Hn). }
  rewrite (fan_out_eq _ _ st Hn), Hd. unfold add_counts.
  cbn [batch total_items category_items author_items keyword_items id_items].
  rewrite !kind_count_app, !length_app, !length_fmap, Ha.
  change [id_item p] with (id_item <$> [p]).
  repeat kind_tac. simpl. fold c k.
  repeat split; lia.
Qed.

Lemma fan_out_batch_Forall (Q : item -> Prop) p st :
  (forall cat, Q (category_item repr_str p cat)) ->
  (forall s, Q (author_item p s)) ->
  (forall s, Q (keyword_item p s)) ->
  Q (id_item p) ->
  Forall Q (batch st) -> Forall Q (batch (fan_out repr_str p st)).
Proof.
  intros Hc Ha Hk Hi Hst. unfold fan_out, put_id. cbn [batch].
  apply Forall_app. split; [| by repeat constructor].
  set (st0 := mk_state _ _ _ _ _ _ _).
  assert (H0 : Forall Q (batch st0)) by done. clearbody st0.
  assert (H1 : Forall Q (batch (fold_left (put_category repr_str p) (categories p) st0))).
  { revert st0 H0. induction (categories p) as [| cat l IH]; intros st0 H0; [done |].
    simpl. apply IH. unfold put_category. cbn [batch].
    apply Forall_app. split; [done | by repeat constructor]. }
  set (st1 := fold_left (put_category repr_str p) (categories p) st0) in *. clearbody st1.
  assert (H2 : Forall Q (batch (fold_left (put_author repr_str p) (authors p) st1))).
  { revert st1 H1. induction (authors p) as [| au l IH]; intros st1 H1; [done |].
    simpl. apply IH. unfold put_author. destruct (Str.strip _); [done |].
    cbn [batch]. apply Forall_app. split; [done | by repeat constructor]. }
  set (st2 := fold_left (put_author repr_str p) (authors p) st1) in *. clearbody st2.
  revert st2 H2. induction (keywords p) as [| kw l IH]; intros st2 H2; [done |].
  simpl. apply IH. unfold put_keyword. destruct (Str.strip _); [done |].
  cbn [batch]. apply Forall_app. split; [done | by repeat constructor].
Qed.

(** C7.  Every item written for a Paper, of whatever kind, carries the
    Paper's own title, abstract, authors, categories, keywords and published
    timestamp: the same values in every item. *)
Theorem denormalize_shared_attributes (p : Paper) :
  Forall (fun it : item =>
            it !! u "title" = Some (PStr (title p))
            /\ it !! u "abstract" = Some (PStr (abstract p))
            /\ it !! u "authors" = Some (PList (authors p))
            /\ it !! u "categories" = Some (PList (categories p))
            /\ it !! u "keywords" = Some (PList (map PStr (keywords p)))
            /\ it !! u "published" = Some (PStr (published_iso p)))
         (denormalize repr_str p).
Proof.
  unfold denormalize. apply fan_out_batch_Forall;
    [intros cat | intros s | intros s | | constructor];
    repeat split; vm_compute; reflexivity.
Qed.

(** C4 (the code at the failing input).  A record whose [arxiv_id] is white
    space is skipped although its [id] is not blank: [or] selects the
    non-empty [arxiv_id], and trimming then leaves nothing. *)
Theorem blank_arxiv_id_hides_id :
  normalize repr_str fromisoformat blank_arxiv_id_record = Ok None
  /\ main repr_str fromisoformat [blank_arxiv_id_record] = (init_state, None).
Proof. split; vm_compute; reflexivity. Qed.

End LoaderFacts.

(** The witness of C1: the scenario of the design document, 2 + 1 + 3 + 1
    items. *)
Lemma denormalize_item_count_witness :
  normalize repr_quoted read_isoformat sample_record = Ok (Some sample_paper)
  /\ length (denormalize repr_quoted sample_paper) = 7%nat
  /\ kind_count (u "AUTHOR") (denormalize repr_quoted sample_paper) = 1%nat.
Proof.
  assert (H : normalize repr_quoted read_isoformat sample_record = Ok (Some sample_paper))
    by (vm_compute; reflexivity).
  split; [exact H |].
  pose proof (denormalize_item_count repr_quoted read_isoformat sample_record sample_paper init_state H)
    as (Hlen & _ & Ha & _).
  split; [exact Hlen | exact Ha].
Defined.

(** ** Upsert *)

Lemma category_item_key repr_str p cat :
  item_key (category_item repr_str p cat)
  = (u "CATEGORY#" ++ py_str repr_str cat, date_str p ++ u "#" ++ arxiv_id p).
Proof. vm_compute. reflexivity. Qed.

Lemma author_item_key p s :
  item_key (author_item p s) = (u "AUTHOR#" ++ s, date_str p ++ u "#" ++ arxiv_id p).
Proof. vm_compute. reflexivity. Qed.

Lemma id_item_key p : item_key (id_item p) = (u "PAPER#" ++ arxiv_id p, u "PAPER").
Proof. vm_compute. reflexivity. Qed.

Lemma lookup_upsert requests t k :
  upsert requests t !! k
  = match last_put k requests with Some it => Some it | None => t !! k end.
Proof.
  revert t. induction requests as [| it rest IH]; intros t; [done |].
  simpl. unfold upsert in *. simpl. rewrite IH.
  destruct (last_put k rest); [done |]. unfold put_item.
  destruct (decide (item_key it = k)) as [<- | Hne].
  - by rewrite lookup_insert_eq.
  - by rewrite lookup_insert_ne.
Qed.

Lemma upsert_idempotent requests t :
  upsert requests (upsert requests t) = upsert requests t.
Proof.
  apply map_eq. intros k. rewrite !lookup_upsert.
  by destruct (last_put k requests).
Qed.

Lemma upsert_app r1 r2 t : upsert (r1 ++ r2) t = upsert r2 (upsert r1 t).
Proof. unfold upsert. by rewrite fold_left_app. Qed.

(** C6.  The requests of a load are a function of the records alone, and
    sending the same requests again leaves the table as the first run left
    it: per key the last write wins, so nothing accumulates.  The same holds
    for the items of one Paper, whose keys are made of the Paper's date and
    identifier and of the category, author or keyword. *)
Theorem reingest_idempotent
  (repr_str : str -> str) (fromisoformat : str -> option datetime)
  (papers : list pydict) (p : Paper) (t : gmap (str * str) item) :
  let requests := batch (main repr_str fromisoformat papers).1 in
  upsert requests (upsert requests t) = upsert requests t
  /\ upsert (requests ++ requests) t = upsert requests t
  /\ upsert (denormalize repr_str p) (upsert (denormalize repr_str p) t)
     = upsert (denormalize repr_str p) t
  /\ (forall k, (upsert requests t) !! k
                = match last_put k requests with
                  | Some it => Some it
                  | None => t !! k
                  end)
  /\ Forall (fun it : item =>
               (exists pk, item_key it = (pk, date_str p ++ u "#" ++ arxiv_id p))
               \/ item_key it = (u "PAPER#" ++ arxiv_id p, u "PAPER"))
            (denormalize repr_str p).
Proof.
  intros requests. rewrite upsert_app.
  split; [| split; [| split; [| split]]]; try apply upsert_idempotent.
  - intros k. apply lookup_upsert.
  - unfold denormalize. apply fan_out_batch_Forall; [| | | | constructor].
    + intros cat. left. eexists. apply category_item_key.
    + intros s. left. eexists. apply author_item_key.
    + intros s. left. eexists. apply keyword_item_key.
    + right. apply id_item_key.
Qed.

(** ** Published dates *)

(** *** Decimal fields *)

Ltac divmod_lia := zify; Z.to_euclidean_division_equations; lia.
Ltac digits_eq :=
  repeat (apply (f_equal2 (@cons N)); [divmod_lia |]); reflexivity.

Lemma log2_ge3 n : 10 <= n -> exists k, N.to_nat (N.log2 n) = S (S (S k)).
Proof.
  intros H. assert (3 <= N.log2 n).
  { change 3 with (N.log2 8). apply N.log2_le_mono. lia. }
  exists (N.to_nat (N.log2 n) - 3)%nat. lia.
Qed.

Lemma of_N_cases n :
  n < 10000 ->
  Str.of_N n =
    if n <? 10 then [48 + n]
    else if n <? 100 then [48 + n / 10; 48 + n mod 10]
    else if n <? 1000 then [48 + n / 100; 48 + n / 10 mod 10; 48 + n mod 10]
    else [48 + n / 1000; 48 + n / 100 mod 10; 48 + n / 10 mod 10; 48 + n mod 10].
Proof.
  intros Hn. unfold Str.of_N.
  destruct (n <? 10) eqn:H1.
  { apply N.ltb_lt in H1. cbn [Str.digits_fuel]. rewrite (proj2 (N.ltb_lt _ _)) by done.
    digits_eq. }
  apply N.ltb_ge in H1. destruct (log2_ge3 n H1) as [k ->].
  cbn [Str.digits_fuel]. rewrite (proj2 (N.ltb_ge n 10)) by done.
  destruct (n <? 100) eqn:H2.
  { apply N.ltb_lt in H2. rewrite (proj2 (N.ltb_lt (n / 10) 10)) by divmod_lia.
    digits_eq. }
  apply N.ltb_ge in H2. rewrite (proj2 (N.ltb_ge (n / 10) 10)) by divmod_lia.
  destruct (n <? 1000) eqn:H3.
  { apply N.ltb_lt in H3. rewrite (proj2 (N.ltb_lt (n / 10 / 10) 10)) by divmod_lia.
    digits_eq. }
  apply N.ltb_ge in H3. rewrite (proj2 (N.ltb_ge (n / 10 / 10) 10)) by divmod_lia.
  rewrite (proj2 (N.ltb_lt (n / 10 / 10 / 10) 10)) by divmod_lia.
  digits_eq.
Qed.

Lemma zfill4_eq n :
  n < 10000 ->
  zfill 4 n = [48 + n / 1000; 48 + n / 100 mod 10; 48 + n / 10 mod 10; 48 + n mod 10].
Proof.
  intros Hn. unfold zfill. rewrite of_N_cases by done.
  destruct (n <? 10) eqn:H1; [| destruct (n <? 100) eqn:H2; [| destruct (n <? 1000) eqn:H3]];
    rewrite ?N.ltb_lt, ?N.ltb_ge in *; cbn [length Nat.sub repeat app]; digits_eq.
Qed.

Lemma zfill2_eq n : n < 100 -> zfill 2 n = [48 + n / 10; 48 + n mod 10].
Proof.
  intros Hn. unfold zfill. rewrite of_N_cases by lia.
  destruct (n <? 10) eqn:H1; [| rewrite (proj2 (N.ltb_lt n 100)) by done];
    rewrite ?N.ltb_lt, ?N.ltb_ge in *; cbn [length Nat.sub repeat app]; digits_eq.
Qed.

Lemma is_digit_plus x : x < 10 -> is_digit (48 + x) = true.
Proof. intros Hx. unfold is_digit. apply andb_true_iff. rewrite !N.leb_le. lia. Qed.

Lemma two_digits n :
  n < 100 ->
  exists a b, zfill 2 n = [a; b] /\ is_digit a = true /\ is_digit b = true
              /\ parse_digits [a; b] = Some n.
Proof.
  intros Hn. exists (48 + n / 10), (48 + n mod 10).
  split; [by apply zfill2_eq |].
  assert (H1 : n / 10 < 10) by divmod_lia. assert (H2 : n mod 10 < 10) by divmod_lia.
  split; [by apply is_digit_plus |]. split; [by apply is_digit_plus |].
  unfold parse_digits. cbn [digits_value]. rewrite !is_digit_plus by done.
  f_equal. divmod_lia.
Qed.

Lemma four_digits n :
  n < 10000 ->
  exists a b c d, zfill 4 n = [a; b; c; d]
    /\ is_digit a = true /\ is_digit b = true /\ is_digit c = true /\ is_digit d = true
    /\ parse_digits [a; b; c; d] = Some n.
Proof.
  intros Hn.
  exists (48 + n / 1000), (48 + n / 100 mod 10), (48 + n / 10 mod 10), (48 + n mod 10).
  split; [by apply zfill4_eq |].
  assert (H1 : n / 1000 < 10) by divmod_lia.
  assert (H2 : n / 100 mod 10 < 10) by divmod_lia.
  assert (H3 : n / 10 mod 10 < 10) by divmod_lia.
  assert (H4 : n mod 10 < 10) by divmod_lia.
  repeat (split; [by apply is_digit_plus |]).
  unfold parse_digits. cbn [digits_value]. rewrite !is_digit_plus by done.
  f_equal. divmod_lia.
Qed.

Lemma digit_facts a :
  is_digit a = true ->
  (a =? 45) = false /\ (a =? 43) = false /\ (a =? 84) = false /\ (a =? 90) = false
  /\ (a =? 46) = false /\ (a =? 58) = false /\ Str.isspace a = false.
Proof.
  unfold is_digit, Str.isspace. intros H. nbool.
  repeat split; repeat (apply orb_false_iff; split);
    first [apply N.eqb_neq; lia | apply andb_false_iff; rewrite !N.leb_gt; lia].
Qed.

Ltac lits := change (u "-") with [45] in *; change (u ":") with [58] in *;
             change (u "T") with [84] in *; change (u "Z") with [90] in *;
             change (u "+") with [43] in *.

Lemma parse_date_text y m d :
  y < 10000 -> m < 100 -> d < 100 ->
  parse_isoformat_date (date_text y m d) = Some (y, m, d).
Proof.
  intros (y1 & y2 & y3 & y4 & Hy & _ & _ & _ & _ & Hpy)%four_digits
         (m1 & m2 & Hm & _ & _ & Hpm)%two_digits
         (d1 & d2 & Hd & _ & _ & Hpd)%two_digits.
  unfold date_text. rewrite Hy, Hm, Hd. lits.
  cbn [app parse_isoformat_date]. change ((45 =? 45) && (45 =? 45)) with true.
  cbv iota. rewrite Hpy, Hpm, Hpd. reflexivity.
Qed.

Lemma valid_date_bounds y m d :
  valid_date y m d = true -> y < 10000 /\ m < 100 /\ d < 100.
Proof.
  unfold valid_date. intros H. nbool. repeat split; try lia.
  assert (days_in_month y m <= 31); [| lia].
  unfold days_in_month. repeat (destruct (_ =? _) || destruct (is_leap _) || simpl); lia.
Qed.

Lemma valid_time_bounds h mi s us :
  valid_time h mi s us = true -> h < 100 /\ mi < 100 /\ s < 100.
Proof. unfold valid_time. intros H. nbool. lia. Qed.

Lemma date_text_length y m d :
  y < 10000 -> m < 100 -> d < 100 -> length (date_text y m d) = 10%nat.
Proof.
  intros (y1 & y2 & y3 & y4 & Hy & _)%four_digits
         (m1 & m2 & Hm & _)%two_digits (d1 & d2 & Hd & _)%two_digits.
  unfold date_text. by rewrite Hy, Hm, Hd.
Qed.


Lemma date_text_chars y m d :
  y < 10000 -> m < 100 -> d < 100 -> Forall date_char (date_text y m d).
Proof.
  intros (y1 & y2 & y3 & y4 & Hy & ? & ? & ? & ? & _)%four_digits
         (m1 & m2 & Hm & ? & ? & _)%two_digits (d1 & d2 & Hd & ? & ? & _)%two_digits.
  unfold date_text. rewrite Hy, Hm, Hd. lits. unfold date_char. cbn [app].
  repeat (apply Forall_cons; split; [auto |]). constructor.
Qed.

Lemma clock_text_parse h mi s :
  h < 100 -> mi < 100 -> s < 100 ->
  length (clock_text h mi s) = 8%nat
  /\ Forall clock_char (clock_text h mi s)
  /\ parse_hh_mm_ss_ff (clock_text h mi s) = Some (h, mi, s, 0).
Proof.
  intros (h1 & h2 & Hh & ? & ? & Hph)%two_digits
         (m1 & m2 & Hm & ? & ? & Hpm)%two_digits
         (s1 & s2 & Hs & ? & ? & Hps)%two_digits.
  unfold clock_text. rewrite Hh, Hm, Hs. lits. split; [done |]. split.
  - unfold clock_char. cbn [app].
    repeat (apply Forall_cons; split; [auto |]). constructor.
  - cbn [app parse_hh_mm_ss_ff]. rewrite Hph. cbn [mbind option_bind].
    change (58 =? 58) with true. cbv iota. rewrite Hpm. cbn [mbind option_bind].
    cbv iota. rewrite Hps. reflexivity.
Qed.

(** *** Strings *)
Lemma contains_char_false c s :
  Forall (fun x => x <> c) s -> Str.contains_char c s = false.
Proof.
  unfold Str.contains_char. induction 1 as [| x s Hx _ IH]; [done |].
  simpl. rewrite IH. rewrite orb_false_r. apply N.eqb_neq. congruence.
Qed.

Lemma replace_from_prefix old0 old new s1 s2 :
  Forall (fun x => x <> old0) s1 ->
  Str.replace_from (old0 :: old) new O (s1 ++ s2)
  = s1 ++ Str.replace_from (old0 :: old) new O s2.
Proof.
  induction 1 as [| x s1 Hx _ IH]; [done |].
  cbn [app Str.replace_from Str.startswith].
  replace (x =? old0) with false by (symmetry; by apply N.eqb_neq).
  cbn [andb]. by rewrite IH.
Qed.

Lemma replace_absent old0 old new s :
  Forall (fun x => x <> old0) s -> Str.replace (old0 :: old) new s = s.
Proof.
  intros H. unfold Str.replace. rewrite <- (app_nil_r s) at 1.
  rewrite replace_from_prefix by done. simpl. apply app_nil_r.
Qed.

Lemma lstrip_spaces pre s :
  Forall (fun c => Str.isspace c = true) pre -> Str.lstrip (pre ++ s) = Str.lstrip s.
Proof. induction 1 as [| c pre Hc _ IH]; [done |]. simpl. by rewrite Hc. Qed.

Lemma lstrip_head c s : Str.isspace c = false -> Str.lstrip (c :: s) = c :: s.
Proof. intros H. simpl. by rewrite H. Qed.

Lemma strip_padded pre core post :
  Forall (fun c => Str.isspace c = true) pre ->
  Forall (fun c => Str.isspace c = true) post ->
  Forall (fun c => Str.isspace c = false) core ->
  Str.strip (pre ++ core ++ post) = core.
Proof.
  intros Hpre Hpost Hcore. unfold Str.strip, Str.rstrip.
  rewrite lstrip_spaces by done.
  destruct core as [| c core].
  - simpl. assert (Hl : Str.lstrip post = []).
    { rewrite <- (app_nil_r post). rewrite lstrip_spaces by done. done. }
    by rewrite Hl.
  - apply Forall_cons in Hcore as [Hc Hcore].
    change ((c :: core) ++ post) with (c :: (core ++ post)).
    rewrite lstrip_head by done.
    change (c :: core ++ post) with ((c :: core) ++ post).
    rewrite rev_app_distr, lstrip_spaces.
    2:{ rewrite Forall_forall in Hpost |- *. intros x Hx. apply Hpost.
        by rewrite list_elem_of_In, <- in_rev, <- list_elem_of_In in Hx. }
    assert (exists x r, rev (c :: core) = x :: r /\ Str.isspace x = false)
      as (x & r & Hr & Hx).
    { destruct (rev (c :: core)) as [| x r] eqn:E.
      - apply (f_equal (@length N)) in E. rewrite length_rev in E. done.
      - exists x, r. split; [done |].
        assert (Hin : x ∈ c :: core).
        { rewrite list_elem_of_In, in_rev, E. by left. }
        assert (Hall : Forall (fun c => Str.isspace c = false) (c :: core))
          by by constructor.
        rewrite Forall_forall in Hall. by apply Hall. }
    rewrite Hr, lstrip_head by done. rewrite <- Hr. apply rev_involutive.
Qed.

Lemma Forall_date_char_impl (P : N -> Prop) s :
  (forall c, is_digit c = true -> P c) -> P 45 -> Forall date_char s -> Forall P s.
Proof.
  intros Hd H45 H. eapply Forall_impl; [exact H |]. intros c [? | ->]; auto.
Qed.

Lemma Forall_clock_char_impl (P : N -> Prop) s :
  (forall c, is_digit c = true -> P c) -> P 58 -> Forall clock_char s -> Forall P s.
Proof.
  intros Hd H58 H. eapply Forall_impl; [exact H |]. intros c [? | ->]; auto.
Qed.

Lemma digit_ne c k : is_digit c = true -> (k < 48 \/ 57 < k) -> c <> k.
Proof. unfold is_digit. intros H Hk. nbool. lia. Qed.

Lemma read_isoformat_date y m d sep rest :
  valid_date y m d = true ->
  read_isoformat (date_text y m d ++ sep :: rest)
  = '(h, mi, sec, us, tz) ← parse_isoformat_time rest;
     if valid_time h mi sec us
     then Some (mk_datetime y m d h mi sec us tz)
     else None.
Proof.
  intros Hv. destruct (valid_date_bounds _ _ _ Hv) as (Hy & Hm & Hd).
  unfold read_isoformat.
  rewrite take_app_length' by (symmetry; by apply date_text_length).
  rewrite parse_date_text by done. cbn [mbind option_bind].
  rewrite drop_app_length' by (symmetry; by apply date_text_length).
  rewrite Hv.
  destruct (parse_isoformat_time rest) as [[[[[h mi] sec] us] tz] |]; reflexivity.
Qed.

Lemma find_char_none c s : Forall (fun x => x <> c) s -> find_char c s = None.
Proof.
  induction 1 as [| x s Hx _ IH]; [done |]. simpl.
  replace (x =? c) with false by (symmetry; by apply N.eqb_neq). by rewrite IH.
Qed.

Lemma find_char_app c s1 s2 :
  Forall (fun x => x <> c) s1 -> find_char c (s1 ++ c :: s2) = Some (length s1).
Proof.
  induction 1 as [| x s Hx _ IH]; simpl.
  - by rewrite N.eqb_refl.
  - replace (x =? c) with false by (symmetry; by apply N.eqb_neq). by rewrite IH.
Qed.


Lemma offset_text_parse oh om :
  oh < 100 -> om < 100 ->
  length (offset_text oh om) = 5%nat
  /\ Forall clock_char (offset_text oh om)
  /\ parse_hh_mm_ss_ff (offset_text oh om) = Some (oh, om, 0, 0)
  /\ (Str.startswith (offset_text oh om) (u "00:00") = true -> oh = 0 /\ om = 0).
Proof.
  intros (h1 & h2 & Hh & ? & ? & Hph)%two_digits
         (m1 & m2 & Hm & ? & ? & Hpm)%two_digits.
  unfold offset_text. rewrite Hh, Hm. lits. split; [done |]. split; [| split].
  - unfold clock_char. cbn [app].
    repeat (apply Forall_cons; split; [auto |]). constructor.
  - cbn [app parse_hh_mm_ss_ff]. rewrite Hph. cbn [mbind option_bind].
    change (58 =? 58) with true. cbv iota. rewrite Hpm. reflexivity.
  - change (u "00:00") with [48; 48; 58; 48; 48]. cbn [app Str.startswith].
    intros Hs. nbool. subst.
    change (parse_digits [48; 48]) with (Some 0) in Hph, Hpm.
    by injection Hph as <-; injection Hpm as <-.
Qed.

Lemma clock_no (k : N) h mi s :
  h < 100 -> mi < 100 -> s < 100 -> (k < 48 \/ 58 < k) ->
  Forall (fun x => x <> k) (clock_text h mi s).
Proof.
  intros Hh Hm Hs Hk. destruct (clock_text_parse h mi s) as (_ & Hc & _); try done.
  eapply Forall_clock_char_impl; [| | exact Hc].
  - intros c Hd. apply digit_ne; [done | lia].
  - lia.
Qed.

Lemma offset_no (k : N) oh om :
  oh < 100 -> om < 100 -> (k < 48 \/ 58 < k) ->
  Forall (fun x => x <> k) (offset_text oh om).
Proof.
  intros Hh Hm Hk. destruct (offset_text_parse oh om) as (_ & Hc & _); try done.
  eapply Forall_clock_char_impl; [| | exact Hc].
  - intros c Hd. apply digit_ne; [done | lia].
  - lia.
Qed.

Lemma date_no (k : N) y m d :
  y < 10000 -> m < 100 -> d < 100 -> (k < 45 \/ 57 < k) ->
  Forall (fun x => x <> k) (date_text y m d).
Proof.
  intros Hy Hm Hd Hk. eapply Forall_date_char_impl; [| | by apply date_text_chars].
  - intros c Hc. unfold is_digit in Hc. nbool. lia.
  - lia.
Qed.

Lemma parse_time_clock h mi s :
  h < 100 -> mi < 100 -> s < 100 ->
  parse_isoformat_time (clock_text h mi s) = Some (h, mi, s, 0, None).
Proof.
  intros Hh Hm Hs. destruct (clock_text_parse h mi s) as (Hlen & _ & Hp); try done.
  unfold parse_isoformat_time. rewrite Hlen. cbn [Nat.ltb Nat.leb].
  rewrite !find_char_none by (apply clock_no; (done || lia)).
  by rewrite Hp.
Qed.


Lemma parse_time_offset h mi s sg oh om :
  h < 100 -> mi < 100 -> s < 100 -> oh < 24 -> om < 60 ->
  sg = 43 \/ sg = 45 ->
  parse_isoformat_time (clock_text h mi s ++ sg :: offset_text oh om)
  = Some (h, mi, s, 0, Some (offset_of sg oh om)).
Proof.
  intros Hh Hm Hs Hoh Hom Hsg.
  destruct (clock_text_parse h mi s) as (Hlen & _ & Hp); try done.
  destruct (offset_text_parse oh om) as (Hlen' & _ & Hp' & _); try lia.
  unfold parse_isoformat_time.
  rewrite length_app, Hlen. cbn [Nat.ltb Nat.leb Nat.add].
  assert (Hfind :
    match find_char 45 (clock_text h mi s ++ sg :: offset_text oh om) with
    | Some i => Some (i, (-1)%Z)
    | None =>
        match find_char 43 (clock_text h mi s ++ sg :: offset_text oh om) with
        | Some i => Some (i, 1%Z)
        | None => None
        end
    end = Some (8%nat, if sg =? 45 then (-1)%Z else 1%Z)).
  { destruct Hsg as [-> | ->].
    - rewrite find_char_none.
      + rewrite find_char_app by (apply clock_no; (done || lia)). by rewrite Hlen.
      + apply Forall_app. split; [apply clock_no; (done || lia) |].
        apply Forall_cons. split; [done |]. apply offset_no; lia.
    - rewrite find_char_app by (apply clock_no; (done || lia)). by rewrite Hlen. }
  rewrite Hfind.
  rewrite take_app_length' by done. rewrite Hp. cbn [mbind option_bind].
  replace (skipn 9 (clock_text h mi s ++ sg :: offset_text oh om))
    with (offset_text oh om).
  2:{ change 9%nat with (8 + 1)%nat. rewrite <- drop_drop.
      by rewrite drop_app_length' by done. }
  rewrite Hlen'. rewrite bool_decide_eq_true_2 by (apply elem_of_cons; auto).
  rewrite Hp'. cbn [mbind option_bind].
  fold (offset_of sg oh om).
  assert (Hlt : (Z.abs (offset_of sg oh om) <? day_usec)%Z = true).
  { apply Z.ltb_lt. unfold offset_of, usec, day_usec.
    destruct (sg =? 45); lia. }
  by rewrite Hlt.
Qed.

Lemma format_offset_hm sg oh om :
  oh < 24 -> om < 60 ->
  sg = 43 \/ (sg = 45 /\ 0 < oh * 60 + om) ->
  format_offset (Some (offset_of sg oh om)) = sg :: offset_text oh om.
Proof.
  intros Hoh Hom Hsg. unfold format_offset.
  assert (Ha : Z.to_N (Z.abs (offset_of sg oh om)) = oh * 3600000000 + om * 60000000).
  { unfold offset_of, usec. destruct (sg =? 45); lia. }
  rewrite Ha.
  assert (Hq : (oh * 3600000000 + om * 60000000) / 3600000000 = oh).
  { symmetry. apply N.div_unique with (r := om * 60000000); lia. }
  assert (Hr : (oh * 3600000000 + om * 60000000) mod 3600000000 = om * 60000000).
  { symmetry. apply N.mod_unique with (q := oh); lia. }
  rewrite Hq, Hr.
  assert (Hq' : om * 60000000 / 60000000 = om).
  { symmetry. apply N.div_unique with (r := 0); lia. }
  assert (Hr' : (om * 60000000) mod 60000000 = 0).
  { symmetry. apply N.mod_unique with (q := om); lia. }
  rewrite Hq', Hr'. change (0 =? 0) with true. cbv iota. rewrite app_nil_r.
  assert (Hs : (if (offset_of sg oh om <? 0)%Z then u "-" else u "+") = [sg]).
  { unfold offset_of, usec. destruct Hsg as [-> | [-> Hpos]].
    - change (43 =? 45) with false. cbv iota.
      rewrite (proj2 (Z.ltb_ge _ _)) by lia. done.
    - change (45 =? 45) with true. cbv iota.
      rewrite (proj2 (Z.ltb_lt _ _)) by lia. done. }
  rewrite Hs. reflexivity.
Qed.

Lemma parse_time_offset_seconds h mi s sg oh om os :
  h < 100 -> mi < 100 -> s < 100 -> oh < 24 -> om < 60 -> os < 60 ->
  sg = 43 \/ sg = 45 ->
  parse_isoformat_time (clock_text h mi s ++ sg :: clock_text oh om os)
  = Some (h, mi, s, 0, Some (offset_of_seconds sg oh om os)).
Proof.
  intros Hh Hm Hs Hoh Hom Hos Hsg.
  destruct (clock_text_parse h mi s) as (Hlen & _ & Hp); try done.
  destruct (clock_text_parse oh om os) as (Hlen' & _ & Hp'); try lia.
  unfold parse_isoformat_time.
  rewrite length_app, Hlen. cbn [Nat.ltb Nat.leb Nat.add].
  assert (Hfind :
    match find_char 45 (clock_text h mi s ++ sg :: clock_text oh om os) with
    | Some i => Some (i, (-1)%Z)
    | None =>
        match find_char 43 (clock_text h mi s ++ sg :: clock_text oh om os) with
        | Some i => Some (i, 1%Z)
        | None => None
        end
    end = Some (8%nat, if sg =? 45 then (-1)%Z else 1%Z)).
  { destruct Hsg as [-> | ->].
    - rewrite find_char_none.
      + rewrite find_char_app by (apply clock_no; (done || lia)). by rewrite Hlen.
      + apply Forall_app. split; [apply clock_no; (done || lia) |].
        apply Forall_cons. split; [done |]. apply clock_no; lia.
    - rewrite find_char_app by (apply clock_no; (done || lia)). by rewrite Hlen. }
  rewrite Hfind.
  rewrite take_app_length' by done. rewrite Hp. cbn [mbind option_bind].
  replace (skipn 9 (clock_text h mi s ++ sg :: clock_text oh om os))
    with (clock_text oh om os).
  2:{ change 9%nat with (8 + 1)%nat. rewrite <- drop_drop.
      by rewrite drop_app_length' by done. }
  rewrite Hlen'.
  rewrite bool_decide_eq_true_2 by (rewrite !elem_of_cons; auto).
  rewrite Hp'. cbn [mbind option_bind].
  fold (offset_of_seconds sg oh om os).
  assert (Hlt : (Z.abs (offset_of_seconds sg oh om os) <? day_usec)%Z = true).
  { apply Z.ltb_lt. unfold offset_of_seconds, usec, day_usec.
    destruct (sg =? 45); lia. }
  by rewrite Hlt.
Qed.

Lemma format_offset_hms sg oh om os :
  oh < 24 -> om < 60 -> 0 < os -> os < 60 -> sg = 43 \/ sg = 45 ->
  format_offset (Some (offset_of_seconds sg oh om os)) = sg :: clock_text oh om os.
Proof.
  intros Hoh Hom Hpos Hos Hsg. unfold format_offset.
  assert (Ha : Z.to_N (Z.abs (offset_of_seconds sg oh om os))
               = oh * 3600000000 + (om * 60000000 + os * 1000000)).
  { unfold offset_of_seconds, usec. destruct (sg =? 45); lia. }
  rewrite Ha.
  assert (Hq : (oh * 3600000000 + (om * 60000000 + os * 1000000)) / 3600000000 = oh).
  { symmetry. apply N.div_unique with (r := om * 60000000 + os * 1000000); lia. }
  assert (Hr : (oh * 3600000000 + (om * 60000000 + os * 1000000)) mod 3600000000
               = om * 60000000 + os * 1000000).
  { symmetry. apply N.mod_unique with (q := oh); lia. }
  rewrite Hq, Hr.
  assert (Hq' : (om * 60000000 + os * 1000000) / 60000000 = om).
  { symmetry. apply N.div_unique with (r := os * 1000000); lia. }
  assert (Hr' : (om * 60000000 + os * 1000000) mod 60000000 = os * 1000000).
  { symmetry. apply N.mod_unique with (q := om); lia. }
  rewrite Hq', Hr'.
  assert (Hq2 : os * 1000000 / 1000000 = os).
  { symmetry. apply N.div_unique with (r := 0); lia. }
  assert (Hr2 : (os * 1000000) mod 1000000 = 0).
  { symmetry. apply N.mod_unique with (q := os); lia. }
  rewrite Hq2, Hr2.
  replace (os * 1000000 =? 0) with false by (symmetry; apply N.eqb_neq; lia).
  change (0 =? 0) with true. cbv iota. rewrite app_nil_r.
  assert (Hs : (if (offset_of_seconds sg oh om os <? 0)%Z then u "-" else u "+") = [sg]).
  { unfold offset_of_seconds, usec. destruct Hsg as [-> | ->].
    - change (43 =? 45) with false. cbv iota.
      rewrite (proj2 (Z.ltb_ge _ _)) by lia. done.
    - change (45 =? 45) with true. cbv iota.
      rewrite (proj2 (Z.ltb_lt _ _)) by lia. done. }
  rewrite Hs. reflexivity.
Qed.

(** The text [isoformat] writes for a time to the second. *)
Lemma isoformat_text y m d h mi s tz :
  isoformat (mk_datetime y m d h mi s 0 tz)
  = date_text y m d ++ u "T" ++ clock_text h mi s ++ format_offset tz.
Proof.
  unfold isoformat, format_time. cbn [year month day hour minute second microsecond tzinfo].
  change (0 =? 0) with true. cbv iota. rewrite app_nil_r.
  change (date_isoformat _) with (date_text y m d).
  unfold clock_text. by rewrite <- !app_assoc.
Qed.

Lemma whole_seconds_offset y m d h mi s sg oh om os :
  oh < 24 -> om < 60 -> os < 60 ->
  whole_seconds (mk_datetime y m d h mi s 0 (Some (offset_of_seconds sg oh om os))) = true.
Proof.
  intros Hoh Hom Hos. unfold whole_seconds. cbn [microsecond tzinfo].
  change (0 =? 0) with true. cbn [andb].
  apply andb_true_iff. split.
  - apply Z.eqb_eq. unfold offset_of_seconds, usec.
    replace (Z.of_N (((oh * 60 + om) * 60 + os) * 1000000 + 0))
      with (Z.of_N ((oh * 60 + om) * 60 + os) * 1000000)%Z by lia.
    destruct (sg =? 45).
    + replace (-1 * (Z.of_N ((oh * 60 + om) * 60 + os) * 1000000))%Z
        with ((- Z.of_N ((oh * 60 + om) * 60 + os)) * 1000000)%Z by lia.
      apply Z_mod_mult.
    + rewrite Z.mul_1_l. apply Z_mod_mult.
  - apply Z.ltb_lt. unfold offset_of_seconds, usec, day_usec.
    destruct (sg =? 45); lia.
Qed.

(** Every offset of whole seconds within a day is that of a sign and an
    [HH:MM:SS] text. *)
Lemma offset_cases (o : Z) :
  ((o mod 1000000 =? 0) && (Z.abs o <? day_usec))%Z = true ->
  exists sg oh om os,
    (sg = 43 \/ sg = 45) /\ oh < 24 /\ om < 60 /\ os < 60
    /\ (sg = 45 -> 0 < (oh * 60 + om) * 60 + os)
    /\ o = offset_of_seconds sg oh om os.
Proof.
  intros H. apply andb_true_iff in H as [Hm Hlt].
  apply Z.eqb_eq in Hm. apply Z.ltb_lt in Hlt. unfold day_usec in Hlt.
  set (a := Z.to_N (Z.abs o / 1000000)).
  assert (Ha : Z.abs o = (Z.of_N a * 1000000)%Z).
  { unfold a. rewrite Z2N.id by (apply Z.div_pos; lia).
    assert (Hm' : (Z.abs o mod 1000000 = 0)%Z).
    { destruct (Z.abs_spec o) as [[_ ->] | [_ ->]]; [done |].
      apply Z.mod_divide; [lia |]. apply Z.divide_opp_r. by apply Z.mod_divide. }
    pose proof (Z.div_mod (Z.abs o) 1000000). lia. }
  assert (Hbound : a < 86400) by lia.
  exists (if (o <? 0)%Z then 45 else 43), (a / 3600), (a mod 3600 / 60), (a mod 60).
  assert (Hdec : ((a / 3600) * 60 + a mod 3600 / 60) * 60 + a mod 60 = a) by divmod_lia.
  split; [destruct (o <? 0)%Z; auto |].
  split; [divmod_lia |]. split; [divmod_lia |]. split; [divmod_lia |].
  split.
  - destruct (o <? 0)%Z eqn:Ho; [| done]. intros _. apply Z.ltb_lt in Ho.
    rewrite Hdec. lia.
  - unfold offset_of_seconds, usec. rewrite Hdec.
    destruct (o <? 0)%Z eqn:Ho.
    + apply Z.ltb_lt in Ho. change (45 =? 45) with true. cbv iota. lia.
    + apply Z.ltb_ge in Ho. change (43 =? 45) with false. cbv iota. lia.
Qed.

(** *** The reader of the examples *)

Lemma read_isoformat_text y m d h mi s suffix tz :
  valid_date y m d = true -> valid_time h mi s 0 = true ->
  parse_isoformat_time (clock_text h mi s ++ suffix) = Some (h, mi, s, 0, tz) ->
  read_isoformat (date_text y m d ++ u "T" ++ clock_text h mi s ++ suffix)
  = Some (mk_datetime y m d h mi s 0 tz).
Proof.
  intros Hd Ht Hp. lits. cbn [app]. rewrite read_isoformat_date by done.
  rewrite Hp. cbn [mbind option_bind]. by rewrite Ht.
Qed.

(** It inverts [isoformat]. *)
Lemma read_isoformat_reads : reads_isoformat read_isoformat.
Proof.
  intros [y m d h mi s us tz] Hv Hw.
  unfold valid_datetime in Hv. unfold whole_seconds in Hw.
  cbn [year month day hour minute second microsecond tzinfo] in Hv, Hw.
  apply andb_true_iff in Hv as [Hd Ht]. apply andb_true_iff in Hw as [Hus Htz].
  apply N.eqb_eq in Hus. subst us.
  destruct (valid_time_bounds _ _ _ _ Ht) as (Hh & Hmi & Hs).
  rewrite isoformat_text. apply read_isoformat_text; try done.
  destruct tz as [o |].
  - destruct (offset_cases o Htz) as (sg & oh & om & os & Hsg & Hoh & Hom & Hos & Hneg & ->).
    destruct (decide (os = 0)) as [-> | Hne].
    + change (offset_of_seconds sg oh om 0) with (offset_of sg oh om).
      rewrite format_offset_hm.
      * by apply parse_time_offset.
      * done.
      * done.
      * destruct Hsg as [-> | ->]; [by left | right]. split; [done |].
        specialize (Hneg eq_refl). lia.
    + rewrite format_offset_hms by (done || lia).
      by apply parse_time_offset_seconds.
  - cbn [format_offset]. rewrite app_nil_r. by apply parse_time_clock.
Qed.

(** What it reads is a [datetime]. *)
Lemma read_isoformat_builds_dates : builds_dates read_isoformat.
Proof.
  intros s dt. unfold read_isoformat.
  destruct (parse_isoformat_date (take 10 s)) as [[[y m] d] |]; [| done]. simpl.
  destruct (match drop 10 s with [] => _ | _ :: _ => _ end) as [[[[[h mi] sec] us] tz] |];
    [| done].
  simpl. destruct (valid_date y m d && valid_time h mi sec us) eqn:Hv; [| done].
  intros [= <-]. simpl. by apply andb_true_iff in Hv as [? _].
Qed.

Section Published.
Context (repr_str : str -> str) (fromisoformat : str -> option datetime).

Lemma truthy_nonempty s : (0 < length s)%nat -> truthy (PStr s) = true.
Proof. destruct s; simpl; [lia | done]. Qed.

Lemma normalize_published_falsy v :
  truthy v = false ->
  normalize_published repr_str fromisoformat v
  = (u "1970-01-01", u "1970-01-01T00:00:00Z").
Proof. intros H. unfold normalize_published. by rewrite H. Qed.

Lemma normalize_published_fallback v :
  truthy v = true ->
  published_datetime fromisoformat (py_str repr_str v) = None ->
  normalize_published repr_str fromisoformat v
  = (firstn 10 (py_str repr_str v), py_str repr_str v).
Proof. intros H Hp. unfold normalize_published. by rewrite H, Hp. Qed.

Lemma normalize_published_parsed v dt :
  truthy v = true ->
  published_datetime fromisoformat (py_str repr_str v) = Some dt ->
  normalize_published repr_str fromisoformat v
  = (date_isoformat dt, Str.replace (u "+00:00") (u "Z") (isoformat dt)).
Proof. intros H Hp. unfold normalize_published. by rewrite H, Hp. Qed.

Lemma space_ne c k : Str.isspace c = true -> Str.isspace k = false -> c <> k.
Proof. intros H1 H2 ->. congruence. Qed.

(** A parser that inverts [isoformat] reads the text of a time to the
    second. *)
Lemma fromisoformat_text y m d h mi s tz :
  reads_isoformat fromisoformat ->
  valid_date y m d = true -> valid_time h mi s 0 = true ->
  whole_seconds (mk_datetime y m d h mi s 0 tz) = true ->
  fromisoformat (date_text y m d ++ u "T" ++ clock_text h mi s ++ format_offset tz)
  = Some (mk_datetime y m d h mi s 0 tz).
Proof.
  intros Hreads Hd Ht Hw. rewrite <- isoformat_text. apply Hreads; [| done].
  unfold valid_datetime. cbn [year month day hour minute second microsecond].
  by rewrite Hd, Ht.
Qed.

Lemma normalize_published_date_only y m d pre post :
  reads_isoformat fromisoformat ->
  valid_date y m d = true ->
  Forall (fun c => Str.isspace c = true) pre ->
  Forall (fun c => Str.isspace c = true) post ->
  normalize_published repr_str fromisoformat (PStr (pre ++ date_text y m d ++ post))
  = (date_text y m d, date_text y m d ++ u "T00:00:00").
Proof.
  intros Hreads Hv Hpre Hpost. destruct (valid_date_bounds _ _ _ Hv) as (Hy & Hm & Hd).
  set (s := pre ++ date_text y m d ++ post).
  assert (Hparse : fromisoformat (Str.strip s ++ u "T00:00:00")
                   = Some (mk_datetime y m d 0 0 0 0 None)).
  { subst s. rewrite strip_padded; try done.
    - pose proof (fromisoformat_text y m d 0 0 0 None Hreads Hv eq_refl eq_refl) as H.
      cbn [format_offset] in H. rewrite app_nil_r in H. exact H.
    - eapply Forall_date_char_impl; [| | by apply date_text_chars].
      + intros c Hc. by apply digit_facts in Hc as (_ & _ & _ & _ & _ & _ & ?).
      + done. }
  rewrite (normalize_published_parsed _ (mk_datetime y m d 0 0 0 0 None)).
  - f_equal. unfold isoformat.
    change (date_isoformat _) with (date_text y m d).
    change (u "+00:00") with (43 :: u "00:00").
    apply replace_absent. apply Forall_app. split; [apply date_no; (done || lia) |].
    vm_compute. repeat (constructor; [discriminate |]). constructor.
  - apply truthy_nonempty. subst s. rewrite !length_app, date_text_length by done. lia.
  - cbn [py_str]. unfold published_datetime.
    rewrite contains_char_false; [exact Hparse |].
    subst s. rewrite !Forall_app. repeat split.
    + eapply Forall_impl; [exact Hpre |]. intros c Hc. by apply (space_ne c 84).
    + apply date_no; (done || lia).
    + eapply Forall_impl; [exact Hpost |]. intros c Hc. by apply (space_ne c 84).
Qed.

Lemma contains_char_mid c s1 s2 : Str.contains_char c (s1 ++ c :: s2) = true.
Proof.
  unfold Str.contains_char. rewrite existsb_app. simpl.
  rewrite N.eqb_refl. by rewrite orb_true_r.
Qed.

Lemma timestamp_truthy y m d rest :
  valid_date y m d = true -> truthy (PStr (date_text y m d ++ rest)) = true.
Proof.
  intros (Hy & Hm & Hd)%valid_date_bounds. apply truthy_nonempty.
  rewrite length_app, date_text_length by done. lia.
Qed.

(** The characters before the offset: digits, [-], [:] and [T]. *)
Lemma timestamp_head_no (k : N) y m d h mi s :
  valid_date y m d = true -> valid_time h mi s 0 = true ->
  (k < 45 \/ 58 < k) -> k <> 84 ->
  Forall (fun x => x <> k) (date_text y m d ++ u "T" ++ clock_text h mi s).
Proof.
  intros Hd Ht Hk Hk'. destruct (valid_date_bounds _ _ _ Hd) as (Hy & Hm & Hdd).
  destruct (valid_time_bounds _ _ _ _ Ht) as (Hh & Hmi & Hs).
  lits. rewrite !Forall_app. repeat split.
  - apply date_no; (done || lia).
  - by repeat constructor.
  - apply clock_no; (done || lia).
Qed.

(** A timestamp to the second, with the offset [isoformat] writes for [tz]:
    when its tail holds no [Z], it is re-emitted with [+00:00] replaced in
    that tail. *)
Lemma normalize_published_timestamp y m d h mi s tz :
  reads_isoformat fromisoformat ->
  valid_date y m d = true -> valid_time h mi s 0 = true ->
  whole_seconds (mk_datetime y m d h mi s 0 tz) = true ->
  Forall (fun x => x <> 90) (format_offset tz) ->
  normalize_published repr_str fromisoformat
    (PStr (date_text y m d ++ u "T" ++ clock_text h mi s ++ format_offset tz))
  = (date_text y m d,
     date_text y m d ++ u "T" ++ clock_text h mi s
     ++ Str.replace (u "+00:00") (u "Z") (format_offset tz)).
Proof.
  intros Hreads Hd Ht Hw Hz.
  pose proof (fromisoformat_text y m d h mi s tz Hreads Hd Ht Hw) as Hparse.
  rewrite (normalize_published_parsed _ (mk_datetime y m d h mi s 0 tz)).
  - rewrite isoformat_text. f_equal.
    change (u "+00:00") with (43 :: u "00:00").
    unfold Str.replace.
    rewrite (app_assoc (date_text y m d)), (app_assoc (date_text y m d ++ u "T")).
    rewrite replace_from_prefix
      by (rewrite <- app_assoc; apply timestamp_head_no; (done || lia)).
    by rewrite <- !app_assoc.
  - by apply timestamp_truthy.
  - cbn [py_str]. unfold published_datetime.
    change (date_text y m d ++ u "T" ++ clock_text h mi s ++ format_offset tz)
      with (date_text y m d ++ 84 :: clock_text h mi s ++ format_offset tz).
    rewrite contains_char_mid.
    change (u "Z") with [90].
    rewrite replace_absent; [exact Hparse |].
    change (date_text y m d ++ 84 :: clock_text h mi s ++ format_offset tz)
      with (date_text y m d ++ u "T" ++ clock_text h mi s ++ format_offset tz).
    rewrite !app_assoc. apply Forall_app. split; [| done].
    rewrite <- app_assoc. apply timestamp_head_no; (done || lia).
Qed.

Lemma replace_no_plus s :
  Forall (fun x => x <> 43) s -> Str.replace (u "+00:00") (u "Z") s = s.
Proof. intros H. change (u "+00:00") with (43 :: u "00:00"). by apply replace_absent. Qed.

Lemma normalize_published_naive y m d h mi s :
  reads_isoformat fromisoformat ->
  valid_date y m d = true -> valid_time h mi s 0 = true ->
  normalize_published repr_str fromisoformat
    (PStr (date_text y m d ++ u "T" ++ clock_text h mi s))
  = (date_text y m d, date_text y m d ++ u "T" ++ clock_text h mi s).
Proof.
  intros Hreads Hd Ht.
  pose proof (normalize_published_timestamp y m d h mi s None Hreads Hd Ht eq_refl) as H.
  cbn [format_offset] in H. rewrite !app_nil_r in H. apply H. constructor.
Qed.

Lemma normalize_published_utc y m d h mi s z :
  reads_isoformat fromisoformat ->
  valid_date y m d = true -> valid_time h mi s 0 = true ->
  z = u "Z" \/ z = u "+00:00" ->
  normalize_published repr_str fromisoformat
    (PStr (date_text y m d ++ u "T" ++ clock_text h mi s ++ z))
  = (date_text y m d, date_text y m d ++ u "T" ++ clock_text h mi s ++ u "Z").
Proof.
  intros Hreads Hd Ht Hz.
  pose proof (fromisoformat_text y m d h mi s (Some 0%Z) Hreads Hd Ht eq_refl) as Hparse.
  change (format_offset (Some 0%Z)) with (u "+00:00") in Hparse.
  rewrite (normalize_published_parsed _ (mk_datetime y m d h mi s 0 (Some 0%Z))).
  - rewrite isoformat_text. f_equal.
    change (format_offset (Some 0%Z)) with (u "+00:00").
    change (u "+00:00") with (43 :: u "00:00") at 1.
    unfold Str.replace.
    rewrite (app_assoc (date_text y m d)), (app_assoc (date_text y m d ++ u "T")).
    rewrite replace_from_prefix
      by (rewrite <- app_assoc; apply timestamp_head_no; (done || lia)).
    rewrite <- !app_assoc. reflexivity.
  - by apply timestamp_truthy.
  - cbn [py_str]. unfold published_datetime.
    change (date_text y m d ++ u "T" ++ clock_text h mi s ++ z)
      with (date_text y m d ++ 84 :: clock_text h mi s ++ z).
    rewrite contains_char_mid.
    change (date_text y m d ++ 84 :: clock_text h mi s ++ z)
      with (date_text y m d ++ u "T" ++ clock_text h mi s ++ z).
    change (u "Z") with [90] at 1.
    unfold Str.replace.
    rewrite (app_assoc (date_text y m d)), (app_assoc (date_text y m d ++ u "T")).
    rewrite replace_from_prefix
      by (rewrite <- app_assoc; apply timestamp_head_no; (done || lia)).
    rewrite <- !app_assoc.
    destruct Hz as [-> | ->]; exact Hparse.
Qed.

Lemma normalize_published_offset y m d h mi s sg oh om :
  reads_isoformat fromisoformat ->
  valid_date y m d = true -> valid_time h mi s 0 = true ->
  oh < 24 -> om < 60 -> 0 < oh * 60 + om -> sg = 43 \/ sg = 45 ->
  normalize_published repr_str fromisoformat
    (PStr (date_text y m d ++ u "T" ++ clock_text h mi s ++ sg :: offset_text oh om))
  = (date_text y m d,
     date_text y m d ++ u "T" ++ clock_text h mi s ++ sg :: offset_text oh om).
Proof.
  intros Hreads Hd Ht Hoh Hom Hpos Hsg.
  pose proof (normalize_published_timestamp y m d h mi s
                (Some (offset_of sg oh om)) Hreads Hd Ht) as H.
  rewrite format_offset_hm in H by (done || destruct Hsg; auto).
  rewrite H.
  - do 4 f_equal.
    change (u "+00:00") with (43 :: u "00:00"). unfold Str.replace.
    destruct (offset_text_parse oh om) as (_ & _ & _ & Hzero); try lia.
    assert (Hrest : Str.replace_from (43 :: u "00:00") (u "Z") 0 (offset_text oh om)
                    = offset_text oh om).
    { rewrite <- (app_nil_r (offset_text oh om)) at 1.
      rewrite replace_from_prefix by (apply offset_no; lia).
      simpl. apply app_nil_r. }
    cbn [Str.replace_from Str.startswith].
    destruct Hsg as [-> | ->].
    + change (43 =? 43) with true. cbn [andb].
      destruct (Str.startswith (offset_text oh om) (u "00:00")) eqn:Hst.
      * destruct (Hzero eq_refl). lia.
      * by rewrite Hrest.
    + change (45 =? 43) with false. cbn [andb]. by rewrite Hrest.
  - change (offset_of sg oh om) with (offset_of_seconds sg oh om 0).
    apply whole_seconds_offset; lia.
  - apply Forall_cons. split; [destruct Hsg as [-> | ->]; done |].
    apply offset_no; lia.
Qed.

Lemma clock_text_zero_prefix oh om os :
  oh < 100 -> om < 100 -> os < 100 ->
  Str.startswith (clock_text oh om os) (u "00:00") = true -> oh = 0 /\ om = 0.
Proof.
  intros (h1 & h2 & Hh & ? & ? & Hph)%two_digits
         (m1 & m2 & Hm & ? & ? & Hpm)%two_digits
         (s1 & s2 & Hs & _)%two_digits.
  unfold clock_text. rewrite Hh, Hm, Hs. lits.
  change (u "00:00") with [48; 48; 58; 48; 48]. cbn [app Str.startswith].
  intros Hst. nbool. subst.
  change (parse_digits [48; 48]) with (Some 0) in Hph, Hpm.
  by injection Hph as <-; injection Hpm as <-.
Qed.

(** An offset with seconds: [+00:00:SS] holds the text [+00:00], which is
    replaced; every other one stays. *)
Lemma normalize_published_offset_seconds y m d h mi s sg oh om os :
  reads_isoformat fromisoformat ->
  valid_date y m d = true -> valid_time h mi s 0 = true ->
  oh < 24 -> om < 60 -> 0 < os -> os < 60 -> sg = 43 \/ sg = 45 ->
  normalize_published repr_str fromisoformat
    (PStr (date_text y m d ++ u "T" ++ clock_text h mi s ++ sg :: clock_text oh om os))
  = (date_text y m d,
     date_text y m d ++ u "T" ++ clock_text h mi s
     ++ (if bool_decide (sg = 43 /\ oh = 0 /\ om = 0)
         then u "Z:" ++ zfill 2 os
         else sg :: clock_text oh om os)).
Proof.
  intros Hreads Hd Ht Hoh Hom Hpos Hos Hsg.
  pose proof (normalize_published_timestamp y m d h mi s
                (Some (offset_of_seconds sg oh om os)) Hreads Hd Ht) as H.
  rewrite format_offset_hms in H by done.
  rewrite H.
  - do 4 f_equal.
    change (u "+00:00") with (43 :: u "00:00"). unfold Str.replace.
    assert (Hrest : Str.replace_from (43 :: u "00:00") (u "Z") 0 (clock_text oh om os)
                    = clock_text oh om os).
    { rewrite <- (app_nil_r (clock_text oh om os)) at 1.
      rewrite replace_from_prefix by (apply clock_no; lia).
      simpl. apply app_nil_r. }
    cbn [Str.replace_from Str.startswith].
    destruct Hsg as [-> | ->].
    + change (43 =? 43) with true. cbn [andb].
      destruct (Str.startswith (clock_text oh om os) (u "00:00")) eqn:Hst.
      * destruct (clock_text_zero_prefix oh om os) as [-> ->]; try (done || lia).
        rewrite bool_decide_eq_true_2 by done.
        destruct (two_digits os) as (s1 & s2 & Hs & Hd1 & Hd2 & _); [lia |].
        unfold clock_text. rewrite Hs.
        change (zfill 2 0) with [48; 48]. lits.
        cbn [app length Nat.pred Str.replace_from Str.startswith].
        apply digit_facts in Hd1 as (_ & H1 & _).
        apply digit_facts in Hd2 as (_ & H2 & _).
        change (58 =? 43) with false. rewrite H1, H2. reflexivity.
      * rewrite bool_decide_eq_false_2.
        { by rewrite Hrest. }
        intros (_ & -> & ->).
        destruct (two_digits os) as (s1 & s2 & Hs & _); [lia |].
        unfold clock_text in Hst. rewrite Hs in Hst. by vm_compute in Hst.
    + change (45 =? 43) with false. cbn [andb]. rewrite Hrest.
      by rewrite bool_decide_eq_false_2 by (by intros [? _]).
  - apply whole_seconds_offset; lia.
  - apply Forall_cons. split; [destruct Hsg as [-> | ->]; done |].
    apply clock_no; lia.
Qed.

(** C5 (as amended).  An absent or empty value gives the epoch date with
    the timestamp [1970-01-01T00:00:00Z].  Otherwise the text is handed to
    [fromisoformat] (a date alone with [T00:00:00] appended, white space
    around it dropped; a text with a [T] with every [Z] turned into
    [+00:00]): what is read gives its date and its [isoformat] text with
    every [+00:00] turned into [Z]; what is not read gives the first ten
    characters of the raw text as the date and the raw text as the
    timestamp.  With a parser that inverts [isoformat], a valid date alone
    gives that date and the timestamp of its midnight, written without a
    zone designator, and a valid timestamp to the second comes back with its
    own offset, without conversion to UTC: none when it has none, [Z] when it
    is [Z] or [+00:00], an offset of hours and minutes other than zero as it
    stands, and an offset with seconds as it stands except that [+00:00:SS]
    comes back as [Z:SS]. *)
Theorem normalize_published_cases :
  (forall v, truthy v = false ->
     normalize_published repr_str fromisoformat v
     = (u "1970-01-01", u "1970-01-01T00:00:00Z"))
  /\ (forall s, published_datetime fromisoformat s
                = if Str.contains_char 84 s
                  then fromisoformat (Str.replace (u "Z") (u "+00:00") s)
                  else fromisoformat (Str.strip s ++ u "T00:00:00"))
  /\ (forall v dt,
        truthy v = true ->
        published_datetime fromisoformat (py_str repr_str v) = Some dt ->
        normalize_published repr_str fromisoformat v
        = (date_isoformat dt, Str.replace (u "+00:00") (u "Z") (isoformat dt)))
  /\ (forall v,
        truthy v = true ->
        published_datetime fromisoformat (py_str repr_str v) = None ->
        normalize_published repr_str fromisoformat v
        = (firstn 10 (py_str repr_str v), py_str repr_str v))
  /\ (reads_isoformat fromisoformat ->
      (forall y m d pre post,
         valid_date y m d = true ->
         Forall (fun c => Str.isspace c = true) pre ->
         Forall (fun c => Str.isspace c = true) post ->
         normalize_published repr_str fromisoformat
           (PStr (pre ++ date_text y m d ++ post))
         = (date_text y m d, date_text y m d ++ u "T00:00:00"))
      /\ (forall y m d h mi s,
            valid_date y m d = true -> valid_time h mi s 0 = true ->
            normalize_published repr_str fromisoformat
              (PStr (date_text y m d ++ u "T" ++ clock_text h mi s))
            = (date_text y m d, date_text y m d ++ u "T" ++ clock_text h mi s)
            /\ (forall z, z = u "Z" \/ z = u "+00:00" ->
                  normalize_published repr_str fromisoformat
                    (PStr (date_text y m d ++ u "T" ++ clock_text h mi s ++ z))
                  = (date_text y m d,
                     date_text y m d ++ u "T" ++ clock_text h mi s ++ u "Z"))
            /\ (forall sg oh om,
                  oh < 24 -> om < 60 -> 0 < oh * 60 + om -> sg = 43 \/ sg = 45 ->
                  normalize_published repr_str fromisoformat
                    (PStr (date_text y m d ++ u "T" ++ clock_text h mi s
                           ++ sg :: offset_text oh om))
                  = (date_text y m d,
                     date_text y m d ++ u "T" ++ clock_text h mi s
                     ++ sg :: offset_text oh om))
            /\ (forall sg oh om os,
                  oh < 24 -> om < 60 -> 0 < os -> os < 60 -> sg = 43 \/ sg = 45 ->
                  normalize_published repr_str fromisoformat
                    (PStr (date_text y m d ++ u "T" ++ clock_text h mi s
                           ++ sg :: clock_text oh om os))
                  = (date_text y m d,
                     date_text y m d ++ u "T" ++ clock_text h mi s
                     ++ (if bool_decide (sg = 43 /\ oh = 0 /\ om = 0)
                         then u "Z:" ++ zfill 2 os
                         else sg :: clock_text oh om os))))).
Proof.
  split; [exact normalize_published_falsy |].
  split; [done |].
  split; [exact normalize_published_parsed |].
  split; [exact normalize_published_fallback |].
  intros Hreads. split; [intros; by apply normalize_published_date_only |].
  intros y m d h mi s Hd Ht. split; [by apply normalize_published_naive |].
  split; [| split].
  - intros z Hz. by apply normalize_published_utc.
  - intros sg oh om ? ? ? ?. by apply normalize_published_offset.
  - intros sg oh om os ? ? ? ? ?. by apply normalize_published_offset_seconds.
Qed.

End Published.

Lemma not_utc_designated s : last s <> Some 90 -> ~ utc_designated s.
Proof.
  intros Hl [body ->]. apply Hl. change (u "Z") with [90]. apply last_snoc.
Qed.

(** C5 (counterexample).  A timestamp five hours east of UTC comes back with
    its offset, not as the UTC instant ([2024-01-31T18:00:00Z]); and the
    timestamp of a date alone carries no UTC designator. *)
Lemma normalize_published_keeps_offset :
  normalize_published repr_quoted read_isoformat (PStr (u "2024-01-31T23:00:00+05:00"))
  = (u "2024-01-31", u "2024-01-31T23:00:00+05:00")
  /\ ~ utc_designated (u "2024-01-31T23:00:00+05:00")
  /\ normalize_published repr_quoted read_isoformat (PStr (u "2024-01-31"))
     = (u "2024-01-31", u "2024-01-31T00:00:00")
  /\ ~ utc_designated (u "2024-01-31T00:00:00").
Proof.
  split; [vm_compute; reflexivity |].
  split; [apply not_utc_designated; vm_compute; discriminate |].
  split; [vm_compute; reflexivity |].
  apply not_utc_designated; vm_compute; discriminate.
Qed.

(** C5 (instances of each case), with the reader of the examples: an empty
    value, a padded leap day, a naive timestamp, a [Z] timestamp, a west
    offset, an offset of thirty seconds, and two texts it does not read. *)
Lemma normalize_published_cases_witness :
  normalize_published repr_quoted read_isoformat (PStr [])
  = (u "1970-01-01", u "1970-01-01T00:00:00Z")
  /\ normalize_published repr_quoted read_isoformat (PStr (u " 2024-02-29 "))
     = (u "2024-02-29", u "2024-02-29T00:00:00")
  /\ normalize_published repr_quoted read_isoformat (PStr (u "2023-07-04T10:20:30"))
     = (u "2023-07-04", u "2023-07-04T10:20:30")
  /\ normalize_published repr_quoted read_isoformat (PStr (u "2023-07-04T10:20:30Z"))
     = (u "2023-07-04", u "2023-07-04T10:20:30Z")
  /\ normalize_published repr_quoted read_isoformat (PStr (u "2023-07-04T10:20:30-08:00"))
     = (u "2023-07-04", u "2023-07-04T10:20:30-08:00")
  /\ normalize_published repr_quoted read_isoformat
       (PStr (u "2023-07-04T10:20:30+00:00:30"))
     = (u "2023-07-04", u "2023-07-04T10:20:30Z:30")
  /\ normalize_published repr_quoted read_isoformat (PStr (u "July 4th, 2023 or so"))
     = (u "July 4th, ", u "July 4th, 2023 or so")
  /\ normalize_published repr_quoted read_isoformat (PInt 2023) = (u "2023", u "2023").
Proof.
  destruct (normalize_published_cases repr_quoted read_isoformat)
    as (H0 & _ & _ & H4 & H5).
  destruct (H5 read_isoformat_reads) as (H1 & H2).
  split; [by apply H0 |].
  split; [apply (H1 2024 2 29 (u " ") (u " ")); [done | |]; by repeat constructor |].
  destruct (H2 2023 7 4 10 20 30 eq_refl eq_refl) as (Hn & Hz & Ho & Hs).
  split; [exact Hn |].
  split; [apply (Hz (u "Z")); by left |].
  split; [apply (Ho 45 8 0); (done || by right) |].
  split; [apply (Hs 43 0 0 30); (done || by left) |].
  split; apply H4; vm_compute; reflexivity.
Defined.

(** ** Queries and the HTTP handler *)

Lemma startswith_trans s p q :
  Str.startswith s p = true -> Str.startswith p q = true -> Str.startswith s q = true.
Proof.
  revert s p. induction q as [| c q IH]; intros s p Hsp Hpq; [by destruct s |].
  destruct p as [| b p]; [done |]. destruct s as [| a s]; [done |].
  simpl in *. apply andb_true_iff in Hsp as [Hab Hsp], Hpq as [Hbc Hpq].
  apply N.eqb_eq in Hab, Hbc. subst. rewrite N.eqb_refl. simpl. eauto.
Qed.

Lemma startswith_refl s : Str.startswith s s = true.
Proof. induction s as [| c s IH]; [done |]. simpl. by rewrite N.eqb_refl. Qed.

Lemma startswith_agree s p q :
  Str.startswith s p = true -> Str.startswith s q = true ->
  length p = length q -> p = q.
Proof.
  revert s q. induction p as [| a p IH]; intros s q Hp Hq Hlen.
  - by destruct q.
  - destruct q as [| b q]; [done |]. destruct s as [| c s]; [done |].
    simpl in *. apply andb_true_iff in Hp as [Hca Hp], Hq as [Hcb Hq].
    apply N.eqb_eq in Hca, Hcb. subst. f_equal. eapply IH; eauto.
Qed.

(** Two literal prefixes that differ in their ninth character exclude each
    other. *)
Lemma prefixes_exclusive s p q p9 q9 :
  Str.startswith p p9 = true -> Str.startswith q q9 = true ->
  length p9 = length q9 -> p9 <> q9 ->
  Str.startswith s p = true -> Str.startswith s q = false.
Proof.
  intros Hp Hq Hlen Hne Hsp. destruct (Str.startswith s q) eqn:Hsq; [| done].
  exfalso. apply Hne. apply (startswith_agree s); [| | done].
  - by apply (startswith_trans s p).
  - by apply (startswith_trans s q).
Qed.



(** *** The table model *)

Lemma elem_of_table_items (t : gmap (str * str) item) (it : item) :
  it ∈ map snd (map_to_list t) <-> exists k, t !! k = Some it.
Proof.
  rewrite list_elem_of_In, in_map_iff. split.
  - intros ([k v] & <- & Hin). exists k.
    by apply elem_of_map_to_list, list_elem_of_In.
  - intros (k & Hk). exists (k, it). split; [done |].
    by apply list_elem_of_In, elem_of_map_to_list.
Qed.

Lemma validate_no_limit args : Limit args = None -> validate args = Ok ().
Proof. unfold validate. by intros ->. Qed.

Lemma validate_limit args n :
  Limit args = Some n -> (1 <= n)%Z -> validate args = Ok ().
Proof.
  unfold validate. intros -> Hn. by rewrite (proj2 (Z.ltb_ge n 1)) by lia.
Qed.

Lemma store_with_query t args : store_with t TABLE_NAME args = table_query t args.
Proof.
  unfold store_with, store_of, table_query.
  destruct (validate args) as [[] | e]; [| done].
  cbn [mbind result_bind]. by rewrite lookup_singleton_eq.
Qed.

Lemma table_query_elem (t : gmap (str * str) item) args keys :
  index_keys (IndexName args) = Some keys ->
  Limit args = None ->
  exists items,
    table_query t args = Ok items
    /\ forall it : item,
         it ∈ items <->
         (exists k, t !! k = Some it)
         /\ in_index keys it = true
         /\ holds (KeyConditionExpression args) it = true.
Proof.
  intros Hk Hl. unfold table_query. rewrite validate_no_limit by done.
  cbn [mbind result_bind]. rewrite Hk, Hl.
  eexists. split; [reflexivity |]. intros it.
  assert (Hrev : forall l : list item, it ∈ rev l <-> it ∈ l).
  { intros l. by rewrite !list_elem_of_In, <- in_rev. }
  destruct (ScanIndexForward args); rewrite ?Hrev;
    rewrite merge_sort_Permutation, list_elem_of_filter, elem_of_table_items;
    rewrite andb_True, !Is_true_true; tauto.
Qed.

Lemma leb_prefix p a : Str.leb p (p ++ a) = true.
Proof.
  induction p as [| c p IH]; [done |]. simpl.
  rewrite N.ltb_irrefl, N.eqb_refl. done.
Qed.

Lemma leb_app_same p a b : Str.leb (p ++ a) (p ++ b) = Str.leb a b.
Proof.
  induction p as [| c p IH]; [done |]. simpl.
  by rewrite N.ltb_irrefl, N.eqb_refl.
Qed.

Lemma leb_app_eqlen s e a b :
  length s = length e ->
  Str.leb (s ++ a) (e ++ b) = if decide (s = e) then Str.leb a b else Str.leb s e.
Proof.
  revert e. induction s as [| c s IH]; intros [| c' e] Hlen; try done.
  simpl. destruct (c <? c') eqn:Hlt.
  - apply N.ltb_lt in Hlt. rewrite decide_False; [done |]. intros [= -> _]. lia.
  - destruct (c =? c') eqn:Heq.
    + apply N.eqb_eq in Heq as ->. rewrite IH by (simpl in Hlen; lia).
      destruct (decide (s = e)) as [-> | Hne].
      * by rewrite decide_True.
      * rewrite decide_False; [done |]. by intros [= ->].
    + apply N.eqb_neq in Heq. rewrite decide_False; [done |]. by intros [= -> _].
Qed.

Ltac handle_cases H :=
  repeat match type of H with
    | context [if ?b then _ else _] => destruct b
    | context [mbind _ ?m] => destruct m; cbn [mbind result_bind] in H
    | context [match ?x with _ => _ end] => destruct x
    end.

Lemma send_json_status status_code data r :
  _send_json status_code data = Ok r -> status r = status_code.
Proof. unfold _send_json. destruct (dumps_ok data); [| done]. by intros [= <-]. Qed.

Lemma send_json_raise status_code data e :
  _send_json status_code data = Raise e ->
  dumps_ok data = false /\ e = not_serializable.
Proof. unfold _send_json. destruct (dumps_ok data); [done |]. by intros [= <-]. Qed.

Section Status.
Context (dynamodb : str -> query_args -> result (list item)).
Context (str_lower : str -> str).
Context (unquote : str -> str) (py_int : str -> result Z).

(** Every response the [try] block sends has status 200, 400 or 404. *)
Lemma handle_status path qs r :
  handle dynamodb str_lower unquote py_int path qs = Ok r ->
  (status r = 200 \/ status r = 400 \/ status r = 404)%Z.
Proof.
  intros Hh. unfold handle in Hh. handle_cases Hh; try discriminate;
    apply send_json_status in Hh; rewrite Hh; tauto.
Qed.

End Status.

Section Http.
Context (dynamodb : str -> query_args -> result (list item)).
Context (str_lower : str -> str).
Context (urlparse : str -> result (str * str)).
Context (parse_qs : str -> result (gmap str (list str))).
Context (unquote : str -> str) (py_int : str -> result Z).

Lemma get_paper_by_id_head table_name arxiv_id :
  get_paper_by_id dynamodb table_name arxiv_id
  = match dynamodb table_name (by_id_request arxiv_id) with
    | Ok items => Ok (head items)
    | Raise e => Raise e
    end.
Proof. reflexivity. Qed.

Lemma not_recent path p :
  Str.startswith path p = true ->
  Str.startswith (u "/papers/recent") p = false ->
  bool_decide (path = u "/papers/recent") = false.
Proof. intros H Hp. apply bool_decide_eq_false. intros ->. congruence. Qed.

Lemma not_search path p :
  Str.startswith path p = true ->
  Str.startswith (u "/papers/search") p = false ->
  bool_decide (path = u "/papers/search") = false.
Proof. intros H Hp. apply bool_decide_eq_false. intros ->. congruence. Qed.

Lemma handle_unknown path qs :
  unknown_endpoint path = true ->
  handle dynamodb str_lower unquote py_int path qs = Ok (unknown_endpoint_response path).
Proof.
  unfold unknown_endpoint. intros H. unfold handle.
  assert (H1 : bool_decide (path = u "/papers/recent") = false).
  { apply bool_decide_eq_false. intros ->. by vm_compute in H. }
  assert (H4 : bool_decide (path = u "/papers/search") = false).
  { apply bool_decide_eq_false. intros ->. by vm_compute in H. }
  rewrite H1, H4.
  destruct (Str.startswith path (u "/papers/")) eqn:E1.
  - destruct (Str.startswith path (u "/papers/search")) eqn:E2; [| done].
    rewrite (prefixes_exclusive path (u "/papers/search") (u "/papers/author/")
               (u "/papers/s") (u "/papers/a")); try done.
    rewrite (prefixes_exclusive path (u "/papers/search") (u "/papers/keyword/")
               (u "/papers/s") (u "/papers/k")); try done.
  - assert (H2 : Str.startswith path (u "/papers/author/") = false).
    { destruct (Str.startswith path (u "/papers/author/")) eqn:E; [| done].
      by rewrite (startswith_trans _ _ (u "/papers/") E) in E1. }
    assert (H5 : Str.startswith path (u "/papers/keyword/") = false).
    { destruct (Str.startswith path (u "/papers/keyword/")) eqn:E; [| done].
      by rewrite (startswith_trans _ _ (u "/papers/") E) in E1. }
    by rewrite H2, H5.
Qed.

Lemma handle_by_id path qs :
  by_id_endpoint path = true ->
  handle dynamodb str_lower unquote py_int path qs
  = found ← get_paper_by_id dynamodb TABLE_NAME (unquote (skipn 8 path));
    match found with
    | Some it =>
        if bool_decide (size it ≠ 0%nat) then _send_json 200 (JItem it)
        else Ok (not_found_response (unquote (skipn 8 path)))
    | None => Ok (not_found_response (unquote (skipn 8 path)))
    end.
Proof.
  unfold by_id_endpoint. intros H.
  apply andb_true_iff in H as [H H5]. apply andb_true_iff in H as [H H4].
  apply andb_true_iff in H as [H H3]. apply andb_true_iff in H as [H1 H2].
  apply negb_true_iff in H2, H3, H4, H5.
  unfold handle. rewrite H2, H3, H1, H4, H5. reflexivity.
Qed.

Lemma handle_keyword path qs :
  Str.startswith path (u "/papers/keyword/") = true ->
  handle dynamodb str_lower unquote py_int path qs
  = (limit_raw ← qs_first qs (u "limit") (Some (u "20"));
     limit ← py_int (default [] limit_raw);
     items ← query_papers_by_keyword dynamodb str_lower TABLE_NAME
               (unquote (skipn 16 path)) limit;
     _send_json 200 (JObject [(u "keyword", JVal (PStr (unquote (skipn 16 path))));
                              (u "count", count_of items);
                              (u "papers", JItems items)])).
Proof.
  intros H. unfold handle.
  rewrite (not_recent path _ H) by by vm_compute.
  rewrite (not_search path _ H) by by vm_compute.
  rewrite (prefixes_exclusive path (u "/papers/keyword/") (u "/papers/author/")
             (u "/papers/k") (u "/papers/a")) by done.
  rewrite H. rewrite !andb_false_r, andb_false_l. reflexivity.
Qed.

(** Once the target is parsed, [do_GET] is the [try] statement. *)
Lemma do_GET_parsed target path qs :
  parses_to urlparse parse_qs target path qs ->
  do_GET dynamodb str_lower urlparse parse_qs unquote py_int target
  = match handle dynamodb str_lower unquote py_int path qs with
    | Ok r => Ok r
    | Raise e => Ok (internal_error_response e)
    end.
Proof.
  intros (query & Hu & Hq). unfold do_GET. rewrite Hu. cbn [mbind result_bind fst snd].
  rewrite Hq. cbn [mbind result_bind]. reflexivity.
Qed.

Lemma do_GET_raise target e :
  do_GET dynamodb str_lower urlparse parse_qs unquote py_int target = Raise e
  <-> raised_before_try urlparse parse_qs target e.
Proof.
  unfold do_GET, raised_before_try.
  destruct (urlparse target) as [[path query] | e0] eqn:Hu; cbn [mbind result_bind fst snd].
  - destruct (parse_qs query) as [qs | e1] eqn:Hq; cbn [mbind result_bind].
    + split.
      * destruct (handle _ _ _ _ path qs); [done |]. by cbn.
      * intros [[=] | (p & q & [= <- <-] & Hq')]. congruence.
    + split.
      * intros [= <-]. right. by exists path, query.
      * intros [[=] | (p & q & [= <- <-] & Hq')]. congruence.
  - split.
    + intros [= <-]. by left.
    + intros [[= <-] | (p & q & [=] & _)]. done.
Qed.

(** C8.  When the store answers the by-identifier query, the query function
    returns the first item or [None], never raising: [None] exactly on an
    empty answer.  For a request on the by-identifier endpoint an empty
    answer becomes the 404 response [{"error": "Paper not found",
    "arxiv_id": id}], which is not the 500 response of an exception, and no
    exception leaves the handler. *)
Theorem by_id_not_found
  (id target path : str) (qs : gmap str (list str)) (items : list item) :
  dynamodb TABLE_NAME (by_id_request id) = Ok items ->
  get_paper_by_id dynamodb TABLE_NAME id = Ok (head items)
  /\ (items = [] <-> get_paper_by_id dynamodb TABLE_NAME id = Ok None)
  /\ (parses_to urlparse parse_qs target path qs ->
      by_id_endpoint path = true -> unquote (skipn 8 path) = id -> items = [] ->
      do_GET dynamodb str_lower urlparse parse_qs unquote py_int target
      = Ok (not_found_response id)
      /\ status (not_found_response id) = 404%Z
      /\ (forall e,
            do_GET dynamodb str_lower urlparse parse_qs unquote py_int target
            <> Ok (internal_error_response e))
      /\ (forall e,
            do_GET dynamodb str_lower urlparse parse_qs unquote py_int target
            <> Raise e)).
Proof.
  intros Hq. rewrite get_paper_by_id_head, Hq. split; [done |]. split.
  - destruct items; split; (done || by intros [= ?]).
  - intros Hparse Hp Hid ->. rewrite (do_GET_parsed _ _ _ Hparse).
    rewrite handle_by_id by done.
    rewrite Hid, get_paper_by_id_head, Hq. cbn. repeat split; by intros e [= ?].
Qed.

(** C9 (as amended).  For a request whose target is parsed: a path that no
    branch takes gets the 404 response [{"error": "Unknown endpoint",
    "path": path}], whatever the store does; an exception raised inside the
    [try] block gets the 500 response whose [error] field is the fixed text
    and whose [message] field is the text of the exception, be it raised by
    the store, by the serialisation of an item that holds a number, or by
    the conversion of the limit; otherwise the response is the one the block
    sent, with status 200, 400 or 404.  An exception leaves [do_GET], and no
    response is sent, exactly when parsing the target raised it. *)
Theorem do_GET_error_responses (target : str) :
  (forall path qs,
     parses_to urlparse parse_qs target path qs ->
     (unknown_endpoint path = true ->
        do_GET dynamodb str_lower urlparse parse_qs unquote py_int target
        = Ok (unknown_endpoint_response path))
     /\ (forall e, handle dynamodb str_lower unquote py_int path qs = Raise e ->
           do_GET dynamodb str_lower urlparse parse_qs unquote py_int target
           = Ok (internal_error_response e))
     /\ (forall r, handle dynamodb str_lower unquote py_int path qs = Ok r ->
           do_GET dynamodb str_lower urlparse parse_qs unquote py_int target = Ok r
           /\ (status r = 200 \/ status r = 400 \/ status r = 404)%Z)
     /\ (forall e, by_id_endpoint path = true ->
           dynamodb TABLE_NAME (by_id_request (unquote (skipn 8 path))) = Raise e ->
           do_GET dynamodb str_lower urlparse parse_qs unquote py_int target
           = Ok (internal_error_response e))
     /\ (forall it rest, by_id_endpoint path = true ->
           dynamodb TABLE_NAME (by_id_request (unquote (skipn 8 path)))
           = Ok (it :: rest) ->
           item_has_number it = true ->
           do_GET dynamodb str_lower urlparse parse_qs unquote py_int target
           = Ok (internal_error_response not_serializable))
     /\ (forall e limit_raw, Str.startswith path (u "/papers/keyword/") = true ->
           qs_first qs (u "limit") (Some (u "20")) = Ok limit_raw ->
           py_int (default [] limit_raw) = Raise e ->
           do_GET dynamodb str_lower urlparse parse_qs unquote py_int target
           = Ok (internal_error_response e)))
  /\ (forall e,
        do_GET dynamodb str_lower urlparse parse_qs unquote py_int target = Raise e
        <-> raised_before_try urlparse parse_qs target e).
Proof.
  split; [| apply do_GET_raise].
  intros path qs Hparse. rewrite (do_GET_parsed _ _ _ Hparse).
  split; [| split; [| split; [| split; [| split]]]].
  - intros H. by rewrite handle_unknown.
  - by intros e ->.
  - intros r Hr. rewrite Hr. split; [done |]. by apply handle_status in Hr.
  - intros e Hp He. rewrite handle_by_id by done.
    by rewrite get_paper_by_id_head, He.
  - intros it rest Hp Hq Hn. rewrite handle_by_id by done.
    rewrite get_paper_by_id_head, Hq. cbn [mbind result_bind head].
    assert (Hsize : size it ≠ 0%nat).
    { intros Hz. apply map_size_empty_iff in Hz. subst it. by vm_compute in Hn. }
    rewrite bool_decide_eq_true_2 by done.
    unfold _send_json. cbn [dumps_ok]. by rewrite Hn.
  - intros e limit_raw Hp Hl He. rewrite handle_keyword by done.
    rewrite Hl. cbn [mbind result_bind]. by rewrite He.
Qed.

End Http.

Lemma table_by_id_absent (t : gmap (str * str) item) id :
  (forall k it, t !! k = Some it -> attr_str it (u "GSI2PK") <> Some (u "PAPER#" ++ id)) ->
  store_with t TABLE_NAME (by_id_request id) = Ok [].
Proof.
  intros Habs. rewrite store_with_query.
  destruct (table_query_elem t (by_id_request id) (u "GSI2PK", u "GSI2SK"))
    as (items & -> & Hitems); [done | done |].
  f_equal. apply elem_of_nil_inv. intros it [(k & Hk) [_ Hh]]%Hitems.
  cbn in Hh. apply bool_decide_eq_true in Hh. by eapply Habs.
Qed.

(** The witness of C8: an empty table, asked for the paper [A1]. *)
Lemma by_id_not_found_witness :
  get_paper_by_id (store_with ∅) TABLE_NAME (u "A1") = Ok None
  /\ do_GET (store_with ∅) Str.lower urlparse_plain parse_qs_plain unquote_plain
       int_twenty (u "/papers/A1")
     = Ok (not_found_response (u "A1")).
Proof.
  assert (Hq : store_with ∅ TABLE_NAME (by_id_request (u "A1")) = Ok []).
  { apply table_by_id_absent. intros k it Hk. by rewrite lookup_empty in Hk. }
  destruct (by_id_not_found (store_with ∅) Str.lower urlparse_plain parse_qs_plain
              unquote_plain int_twenty
              (u "A1") (u "/papers/A1") (u "/papers/A1") ∅ [] Hq) as (_ & Hnone & Hget).
  split; [by apply Hnone |].
  apply Hget; try done. by exists [].
Defined.

(** C9 (counterexample).  With the table missing, the store's exception text
    reaches the client in the [message] field of the 500 response. *)
Lemma internal_error_carries_message :
  do_GET (store_of ∅) Str.lower urlparse_plain parse_qs_plain unquote_plain int_twenty
    (u "/papers/A1")
  = Ok (mk_response 500
          (JObject [(u "error", JVal (PStr (u "Internal server error")));
                    (u "message",
                     JVal (PStr (u "An error occurred (ResourceNotFoundException) when calling the Query operation: Requested resource not found")))]))
  /\ store_of ∅ TABLE_NAME (by_id_request (u "A1"))
     = Raise (Exception (u "ResourceNotFoundException")
                (u "An error occurred (ResourceNotFoundException) when calling the Query operation: Requested resource not found")).
Proof. split; vm_compute; reflexivity. Qed.

(** C9 (instances): two unknown paths, a failing store, a limit that is no
    number, and a target [urlparse] rejects. *)
Lemma do_GET_error_responses_witness :
  do_GET (store_of ∅) Str.lower urlparse_plain parse_qs_plain unquote_plain int_twenty
    (u "/papers/searchx")
  = Ok (unknown_endpoint_response (u "/papers/searchx"))
  /\ do_GET (store_of ∅) Str.lower urlparse_plain parse_qs_plain unquote_plain int_twenty
       (u "/index.html?x=1")
     = Ok (unknown_endpoint_response (u "/index.html"))
  /\ do_GET (store_of ∅) Str.lower urlparse_plain parse_qs_plain unquote_plain int_twenty
       (u "/papers/author/X")
     = Ok (internal_error_response
             (Exception (u "ResourceNotFoundException")
                (u "An error occurred (ResourceNotFoundException) when calling the Query operation: Requested resource not found")))
  /\ do_GET (store_of ∅) Str.lower urlparse_plain parse_qs_plain unquote_plain int_twenty
       (u "/papers/keyword/deep?limit=abc")
     = Ok (internal_error_response
             (Exception (u "ValueError")
                (u "invalid literal for int() with base 10: 'abc'")))
  /\ do_GET (store_of ∅) Str.lower urlparse_netloc parse_qs_plain unquote_plain
       int_twenty (u "http://[/x")
     = Raise (Exception (u "ValueError") (u "Invalid IPv6 URL")).
Proof.
  split; [| split; [| split; [| split]]].
  - destruct (do_GET_error_responses (store_of ∅) Str.lower urlparse_plain
                parse_qs_plain unquote_plain int_twenty (u "/papers/searchx"))
      as [H _].
    apply (H (u "/papers/searchx") ∅); [by exists [] | done].
  - destruct (do_GET_error_responses (store_of ∅) Str.lower urlparse_plain
                parse_qs_plain unquote_plain int_twenty (u "/index.html?x=1"))
      as [H _].
    apply (H (u "/index.html") {[ u "x" := [u "1"] ]}); [by exists (u "x=1") | done].
  - destruct (do_GET_error_responses (store_of ∅) Str.lower urlparse_plain
                parse_qs_plain unquote_plain int_twenty (u "/papers/author/X"))
      as [H _].
    destruct (H (u "/papers/author/X") ∅) as (_ & He & _); [by exists [] |].
    apply He. vm_compute. reflexivity.
  - destruct (do_GET_error_responses (store_of ∅) Str.lower urlparse_plain
                parse_qs_plain unquote_plain int_twenty
                (u "/papers/keyword/deep?limit=abc"))
      as [H _].
    destruct (H (u "/papers/keyword/deep") {[ u "limit" := [u "abc"] ]})
      as (_ & _ & _ & _ & _ & He); [by exists (u "limit=abc") |].
    apply (He _ (Some (u "abc"))); vm_compute; reflexivity.
  - destruct (do_GET_error_responses (store_of ∅) Str.lower urlparse_netloc
                parse_qs_plain unquote_plain int_twenty (u "http://[/x"))
      as [_ H].
    apply H. by left.
Defined.

(** *** The date-range bounds *)

Lemma date_range_lower start_date end_date id :
  length start_date = length end_date -> Str.leb start_date end_date = true ->
  Str.leb (start_date ++ u "#") (start_date ++ u "#" ++ id) = true
  /\ Str.leb (start_date ++ u "#") (end_date ++ u "#" ++ id) = true.
Proof.
  intros Hlen Hle. split.
  - rewrite leb_app_same. apply leb_prefix.
  - rewrite leb_app_eqlen by done. destruct (decide _); [apply leb_prefix | done].
Qed.

Lemma date_range_upper start_date end_date id :
  length start_date = length end_date -> Str.leb start_date end_date = true ->
  Str.leb (end_date ++ u "#" ++ id) (end_date ++ u "#zzzzzzz")
  = Str.leb id (u "zzzzzzz")
  /\ Str.leb (start_date ++ u "#" ++ id) (end_date ++ u "#zzzzzzz")
     = if decide (start_date = end_date) then Str.leb id (u "zzzzzzz") else true.
Proof.
  intros Hlen Hle. change (u "#zzzzzzz") with (u "#" ++ u "zzzzzzz"). split.
  - by rewrite !leb_app_same.
  - rewrite leb_app_eqlen by done. destruct (decide _); [| done].
    by rewrite leb_app_same.
Qed.

(** C3 (as amended).  The date-range query asks the store for the sort keys
    from [start_date + "#"] to [end_date + "#zzzzzzz"], both inclusive, in
    the partition of the category.  For dates of one format (equal length)
    with [start_date <= end_date], a stored category item published on
    [end_date] is returned exactly when its identifier is at most
    ["zzzzzzz"] in code-point order, and one published on [start_date] is
    returned when the two dates differ or its identifier is at most
    ["zzzzzzz"]. *)
Theorem date_range_inclusive
  (t : gmap (str * str) item) (category start_date end_date : str) :
  length start_date = length end_date ->
  Str.leb start_date end_date = true ->
  exists items,
    query_papers_in_date_range (store_with t) TABLE_NAME category start_date end_date
    = Ok items
    /\ forall (it : item) (sk : str),
         (exists k, t !! k = Some it) ->
         attr_str it (u "PK") = Some (u "CATEGORY#" ++ category) ->
         attr_str it (u "SK") = Some sk ->
         (it ∈ items <->
            Str.leb (start_date ++ u "#") sk = true
            /\ Str.leb sk (end_date ++ u "#zzzzzzz") = true)
         /\ (forall id, sk = end_date ++ u "#" ++ id ->
               (it ∈ items <-> Str.leb id (u "zzzzzzz") = true))
         /\ (forall id, sk = start_date ++ u "#" ++ id ->
               (it ∈ items <->
                  start_date <> end_date \/ Str.leb id (u "zzzzzzz") = true)).
Proof.
  intros Hlen Hle. unfold query_papers_in_date_range. rewrite store_with_query.
  edestruct (table_query_elem t) as (items & -> & Hitems); [done | done |].
  exists items. split; [done |]. intros it sk Hst Hpk Hsk.
  assert (Hin : it ∈ items <->
            Str.leb (start_date ++ u "#") sk = true
            /\ Str.leb sk (end_date ++ u "#zzzzzzz") = true).
  { rewrite Hitems. unfold in_index. cbn [KeyConditionExpression holds fst snd].
    rewrite Hpk, Hsk. rewrite !bool_decide_eq_true_2 by eauto.
    rewrite !andb_true_l, andb_true_iff. tauto. }
  split; [exact Hin |]. split.
  - intros id ->. rewrite Hin.
    destruct (date_range_lower start_date end_date id Hlen Hle) as [_ ->].
    destruct (date_range_upper start_date end_date id Hlen Hle) as [-> _]. tauto.
  - intros id ->. rewrite Hin.
    destruct (date_range_lower start_date end_date id Hlen Hle) as [-> _].
    destruct (date_range_upper start_date end_date id Hlen Hle) as [_ ->].
    destruct (decide (start_date = end_date)); [tauto |]. split; auto.
Qed.

(** The witness of C3: the month of January 2024, over the table two
    papers were loaded into. *)
Lemma date_range_inclusive_witness :
  exists items,
    query_papers_in_date_range
      (store_with (loaded (january_records "2301.00001" "2401.17000")))
      TABLE_NAME (u "cs.AI") (u "2024-01-01") (u "2024-01-31") = Ok items
    /\ forall (it : item) (sk : str),
         (exists k, loaded (january_records "2301.00001" "2401.17000") !! k = Some it) ->
         attr_str it (u "PK") = Some (u "CATEGORY#" ++ u "cs.AI") ->
         attr_str it (u "SK") = Some sk ->
         (it ∈ items <->
            Str.leb (u "2024-01-01" ++ u "#") sk = true
            /\ Str.leb sk (u "2024-01-31" ++ u "#zzzzzzz") = true)
         /\ (forall id, sk = u "2024-01-31" ++ u "#" ++ id ->
               (it ∈ items <-> Str.leb id (u "zzzzzzz") = true))
         /\ (forall id, sk = u "2024-01-01" ++ u "#" ++ id ->
               (it ∈ items <->
                  u "2024-01-01" <> u "2024-01-31" \/ Str.leb id (u "zzzzzzz") = true)).
Proof.
  apply (date_range_inclusive (loaded (january_records "2301.00001" "2401.17000"))
           (u "cs.AI") (u "2024-01-01") (u "2024-01-31"));
    [reflexivity | vm_compute; reflexivity].
Defined.

(** With arXiv identifiers both ends of the range are returned. *)
Lemma date_range_returns_both_ends :
  match query_papers_in_date_range
          (store_with (loaded (january_records "2301.00001" "2401.17000")))
          TABLE_NAME (u "cs.AI") (u "2024-01-01") (u "2024-01-31") with
  | Ok items => Some (map (fun it => attr_str it (u "SK")) items)
  | Raise _ => None
  end
  = Some [Some (u "2024-01-01#2301.00001"); Some (u "2024-01-31#2401.17000")].
Proof. vm_compute. reflexivity. Qed.

(** C3 (counterexample).  A paper published on the end date under the
    identifier [zzzzzzzz] is stored in the category, and the query over
    January returns the paper of the first day only. *)
Lemma date_range_misses_end_date :
  let t := loaded (january_records "2301.00001" "zzzzzzzz") in
  match t !! (u "CATEGORY#cs.AI", u "2024-01-31#zzzzzzzz") with
  | Some it => attr_str it (u "item_type")
  | None => None
  end = Some (u "CATEGORY")
  /\ match query_papers_in_date_range (store_with t) TABLE_NAME
             (u "cs.AI") (u "2024-01-01") (u "2024-01-31") with
     | Ok items => Some (map (fun it => attr_str it (u "SK")) items)
     | Raise _ => None
     end
     = Some [Some (u "2024-01-01#2301.00001")]
  /\ Str.leb (u "2024-01-31#zzzzzzzz") (u "2024-01-31#zzzzzzz") = false.
Proof. vm_compute. repeat split. Qed.

(** * Further properties of the code *)

(** ** The load as a whole *)

Section LoadFacts.
Context (repr_str : str -> str) (fromisoformat : str -> option datetime).

Lemma main_loop_app pre post st :
  main_loop repr_str fromisoformat (pre ++ post) st
  = match main_loop repr_str fromisoformat pre st with
    | (st', None) => main_loop repr_str fromisoformat post st'
    | (st', Some e) => (st', Some e)
    end.
Proof.
  revert st. induction pre as [| paper pre IH]; intros st; simpl; [done |].
  destruct (normalize repr_str fromisoformat paper) as [[p |] | e]; [apply IH | apply IH | done].
Qed.

Lemma main_loop_accepted papers st :
  (main_loop repr_str fromisoformat papers st).1
  = fold_left (fun st p => fan_out repr_str p st) (accepted repr_str fromisoformat papers) st.
Proof.
  revert st. induction papers as [| paper papers IH]; intros st; simpl; [done |].
  destruct (normalize repr_str fromisoformat paper) as [[p |] | e]; simpl; [apply IH | apply IH | done].
Qed.

Lemma accepted_normalized papers :
  Forall (fun p => exists paper, paper ∈ papers /\ normalize repr_str fromisoformat paper = Ok (Some p))
         (accepted repr_str fromisoformat papers).
Proof.
  induction papers as [| paper papers IH]; simpl; [constructor |].
  assert (Hrest : Forall (fun p => exists x, x ∈ paper :: papers
                                    /\ normalize repr_str fromisoformat x = Ok (Some p))
                         (accepted repr_str fromisoformat papers)).
  { eapply Forall_impl; [exact IH |]. intros p (x & Hx & Hn).
    exists x. split; [by right | done]. }
  destruct (normalize repr_str fromisoformat paper) as [[p |] | e] eqn:Hn; [| done | constructor].
  constructor; [| done]. exists paper. split; [by left | done].
Qed.

Lemma main_loop_batch papers st :
  batch (main_loop repr_str fromisoformat papers st).1
  = batch st ++ concat (denormalize repr_str <$> accepted repr_str fromisoformat papers).
Proof.
  rewrite main_loop_accepted.
  pose proof (accepted_normalized papers) as Hacc.
  revert st. induction Hacc as [| p ps (paper & _ & Hn) _ IH]; intros st; simpl.
  - by rewrite app_nil_r.
  - rewrite IH. unfold denormalize.
    rewrite !(fan_out_eq repr_str fromisoformat paper p _ Hn). unfold add_counts. cbn [batch].
    cbn [batch init_state app]. by rewrite <- !app_assoc.
Qed.

Lemma fan_out_counters paper p st :
  normalize repr_str fromisoformat paper = Ok (Some p) ->
  counters_agree st -> counters_agree (fan_out repr_str p st).
Proof.
  intros Hn (Ht & Hs & Hi & Hc & Ha & Hk & Hp).
  rewrite (fan_out_eq repr_str fromisoformat paper p st Hn). unfold counters_agree, add_counts.
  cbn [batch total_items category_items author_items keyword_items id_items num_papers].
  rewrite !kind_count_app, !length_app, !length_fmap.
  change [id_item p] with (id_item <$> [p]).
  repeat kind_tac. simpl. repeat split; lia.
Qed.

Lemma main_loop_counters papers st :
  counters_agree st -> counters_agree (main_loop repr_str fromisoformat papers st).1.
Proof.
  revert st. induction papers as [| paper papers IH]; intros st Hst; simpl; [done |].
  destruct (normalize repr_str fromisoformat paper) as [[p |] | e] eqn:Hn; simpl; [| by apply IH | done].
  apply IH. by eapply fan_out_counters.
Qed.

(** X1.  Whatever the input, and also when the load ends in an exception,
    the counters [main] reports agree with what it handed to the batch
    writer: [total_items] is the number of write requests and the sum of the
    four kind counters, each kind counter is the number of requests of that
    [item_type], and there is one identifier item per counted paper. *)
Theorem main_counters_agree (papers : list pydict) :
  let st := (main repr_str fromisoformat papers).1 in
  total_items st = length (batch st)
  /\ total_items st
     = (category_items st + author_items st + keyword_items st + id_items st)%nat
  /\ id_items st = num_papers st
  /\ num_papers st = length (accepted repr_str fromisoformat papers)
  /\ kind_count (u "CATEGORY") (batch st) = category_items st
  /\ kind_count (u "AUTHOR") (batch st) = author_items st
  /\ kind_count (u "KEYWORD") (batch st) = keyword_items st
  /\ kind_count (u "PAPER") (batch st) = id_items st.
Proof.
  intros st.
  assert (H : counters_agree st).
  { apply main_loop_counters. by repeat split. }
  destruct H as (Ht & Hs & Hi & Hc & Ha & Hk & Hp).
  assert (Hn : forall ps st0,
             num_papers (fold_left (fun st p => fan_out repr_str p st) ps st0)
             = (num_papers st0 + length ps)%nat).
  { induction ps as [| p ps IH]; intros st0; simpl; [lia |].
    rewrite IH. unfold fan_out, put_id. cbn [num_papers].
    assert (Hc' : forall l s, num_papers (fold_left (put_category repr_str p) l s)
                              = num_papers s).
    { induction l as [| x l IHl]; intros s; simpl; [done |]. by rewrite IHl. }
    assert (Ha' : forall l s, num_papers (fold_left (put_author repr_str p) l s)
                              = num_papers s).
    { induction l as [| x l IHl]; intros s; simpl; [done |]. rewrite IHl.
      unfold put_author. by destruct (Str.strip _). }
    assert (Hk' : forall l s, num_papers (fold_left (put_keyword p) l s)
                              = num_papers s).
    { induction l as [| x l IHl]; intros s; simpl; [done |]. rewrite IHl.
      unfold put_keyword. by destruct (Str.strip _). }
    rewrite Hk', Ha', Hc'. simpl. lia. }
  repeat split; try done.
  unfold st, main. rewrite main_loop_accepted, Hn. done.
Qed.

(** X2.  The requests of a load are the fan-outs of the accepted records, in
    input order, and loads compose: loading [pre ++ post] is loading [pre]
    and then, unless [pre] raised, loading [post] from the state reached. *)
Theorem main_loop_composes (pre post : list pydict) (st : load_state) :
  main_loop repr_str fromisoformat (pre ++ post) st
  = match main_loop repr_str fromisoformat pre st with
    | (st', None) => main_loop repr_str fromisoformat post st'
    | (st', Some e) => (st', Some e)
    end
  /\ batch (main_loop repr_str fromisoformat pre st).1
     = batch st ++ concat (denormalize repr_str <$> accepted repr_str fromisoformat pre).
Proof. split; [apply main_loop_app | apply main_loop_batch]. Qed.

Lemma normalize_blank paper :
  record_id repr_str paper = [] -> normalize repr_str fromisoformat paper = Ok None.
Proof. unfold record_id, normalize. by intros ->. Qed.

Lemma normalize_not_blank paper :
  record_id repr_str paper <> [] ->
  normalize repr_str fromisoformat paper
  = (title ← call_strip (get_or paper (u "title") (PStr []));
     abstract ← call_strip (get_or paper (u "abstract") (PStr []));
     let authors := as_list repr_str (get paper (u "authors")) in
     let categories := as_list repr_str (get paper (u "categories")) in
     let '(date_str, published_iso) :=
       normalize_published repr_str fromisoformat (get paper (u "published")) in
     Ok (Some (mk_Paper (record_id repr_str paper) title abstract authors categories
                 date_str published_iso (extract_keywords abstract 10)))).
Proof.
  unfold record_id, normalize. intros Hne.
  destruct (Str.strip _) as [| c s] eqn:Hid; [done |]. done.
Qed.

Lemma record_id_absent paper :
  truthy (get paper (u "arxiv_id")) = false ->
  truthy (get paper (u "id")) = false -> record_id repr_str paper = [].
Proof. unfold record_id, por. by intros -> ->. Qed.

(** X3.  A record without identifier ([arxiv_id] and [id] both absent, null
    or empty, or the selected one blank after trimming) is skipped before any
    other field is read: it writes nothing, raises nothing whatever its other
    fields hold, and the load is the same as without it. *)
Theorem blank_identifier_skipped
  (paper : pydict) (pre post : list pydict) (st : load_state) :
  (truthy (get paper (u "arxiv_id")) = false /\ truthy (get paper (u "id")) = false)
  \/ record_id repr_str paper = [] ->
  normalize repr_str fromisoformat paper = Ok None
  /\ main_loop repr_str fromisoformat (pre ++ paper :: post) st = main_loop repr_str fromisoformat (pre ++ post) st.
Proof.
  intros Hid.
  assert (Hn : normalize repr_str fromisoformat paper = Ok None).
  { apply normalize_blank. destruct Hid as [[Ha Hi] | Hid]; [| done].
    by apply record_id_absent. }
  split; [done |].
  rewrite !main_loop_app. destruct (main_loop repr_str fromisoformat pre st) as [st' [e |]]; [done |].
  simpl. by rewrite Hn.
Qed.

(** X4.  A record with an identifier whose [title] is present and not a
    string (a JSON null, number, list, ...), or whose [title] is fine and
    whose [abstract] is present and not a string, ends the load with an
    [AttributeError]: the requests of the records before it stay, nothing of
    this record or of the records after it is written. *)
Theorem non_string_title_stops_load
  (paper : pydict) (v : pyval) (pre post : list pydict) (st : load_state) :
  record_id repr_str paper <> [] ->
  is_str v = false ->
  paper !! u "title" = Some v
  \/ (is_str (get_or paper (u "title") (PStr [])) = true
      /\ paper !! u "abstract" = Some v) ->
  (main_loop repr_str fromisoformat pre st).2 = None ->
  normalize repr_str fromisoformat paper = Raise (no_strip v)
  /\ main_loop repr_str fromisoformat (pre ++ paper :: post) st
     = ((main_loop repr_str fromisoformat pre st).1, Some (no_strip v)).
Proof.
  intros Hid Hv Hf Hpre.
  assert (Hn : normalize repr_str fromisoformat paper = Raise (no_strip v)).
  { rewrite normalize_not_blank by done.
    destruct Hf as [Ht | [Ht Ha]].
    - unfold get_or. rewrite Ht. simpl. by destruct v.
    - destruct (get_or paper (u "title") (PStr [])) as [| | | s | |]; try done.
      unfold get_or at 1. rewrite Ha. simpl. by destruct v. }
  split; [done |].
  rewrite main_loop_app. destruct (main_loop repr_str fromisoformat pre st) as [st' [e |]]; [done |].
  simpl. by rewrite Hn.
Qed.

End LoadFacts.

Lemma blank_identifier_skipped_witness :
  normalize repr_quoted read_isoformat anonymous_record = Ok None
  /\ main_loop repr_quoted read_isoformat ([sample_record] ++ anonymous_record :: [sample_record]) init_state
     = main_loop repr_quoted read_isoformat ([sample_record] ++ [sample_record]) init_state.
Proof.
  apply (blank_identifier_skipped repr_quoted read_isoformat anonymous_record
           [sample_record] [sample_record] init_state).
  left. split; vm_compute; reflexivity.
Defined.

Lemma non_string_title_stops_load_witness :
  normalize repr_quoted read_isoformat null_title_record = Raise (no_strip PNone)
  /\ main_loop repr_quoted read_isoformat ([sample_record] ++ null_title_record :: [sample_record])
       init_state
     = ((main_loop repr_quoted read_isoformat [sample_record] init_state).1, Some (no_strip PNone)).
Proof.
  apply (non_string_title_stops_load repr_quoted read_isoformat null_title_record PNone
           [sample_record] [sample_record] init_state).
  - vm_compute. discriminate.
  - reflexivity.
  - left. vm_compute. reflexivity.
  - vm_compute. reflexivity.
Defined.

(** ** The order of strings *)

Lemma leb_total a b : Str.leb a b = true \/ Str.leb b a = true.
Proof.
  revert b. induction a as [| x a IH]; intros [| y b]; simpl; auto.
  destruct (N.ltb_spec x y), (N.ltb_spec y x), (N.eqb_spec x y), (N.eqb_spec y x);
    auto; lia.
Qed.

Lemma leb_trans a b c :
  Str.leb a b = true -> Str.leb b c = true -> Str.leb a c = true.
Proof.
  revert b c. induction a as [| x a IH]; intros [| y b] [| z c]; simpl; try done.
  destruct (N.ltb_spec x y), (N.ltb_spec y z), (N.ltb_spec x z),
    (N.eqb_spec x y), (N.eqb_spec y z), (N.eqb_spec x z); try done; try lia.
  apply IH.
Qed.

Lemma leb_antisym a b : Str.leb a b = true -> Str.leb b a = true -> a = b.
Proof.
  revert b. induction a as [| x a IH]; intros [| y b]; simpl; try done.
  destruct (N.ltb_spec x y), (N.ltb_spec y x), (N.eqb_spec x y), (N.eqb_spec y x);
    try done; try lia.
  intros H1 H2. subst. f_equal. by apply IH.
Qed.

Lemma leb_refl a : Str.leb a a = true.
Proof. by destruct (leb_total a a). Qed.

(** ** What a query answers *)

Lemma StronglySorted_rev {A} (R : relation A) l :
  StronglySorted R l -> StronglySorted (flip R) (rev l).
Proof.
  induction 1 as [| x l Hl IH Hx]; simpl; [constructor |].
  apply StronglySorted_app_2; [| done | by repeat constructor].
  intros x1 x2 Hx1 ->%list_elem_of_singleton. unfold flip.
  rewrite Forall_forall in Hx. apply Hx.
  by rewrite list_elem_of_In, in_rev, <- list_elem_of_In.
Qed.

Lemma sort_key_order_total sk : Total (fun a b : item => Is_true (sort_key_leb sk a b)).
Proof.
  intros a b. unfold sort_key_leb. rewrite !Is_true_true. apply leb_total.
Qed.

Lemma sort_key_order_trans sk :
  Transitive (fun a b : item => Is_true (sort_key_leb sk a b)).
Proof.
  intros a b c. unfold sort_key_leb. rewrite !Is_true_true. apply leb_trans.
Qed.

(** The answer of a query is a prefix ([Limit]) of the items of the index
    that satisfy the key condition, walked in the order asked for. *)
Lemma table_query_shape (t : gmap (str * str) item) args keys :
  index_keys (IndexName args) = Some keys ->
  validate args = Ok () ->
  exists all : list item,
    table_query t args
    = Ok (match Limit args with
          | Some n => take (Z.to_nat n) all
          | None => all
          end)
    /\ (forall it : item,
          it ∈ all <->
          (exists k, t !! k = Some it)
          /\ in_index keys it = true
          /\ holds (KeyConditionExpression args) it = true)
    /\ StronglySorted (scan_order (ScanIndexForward args) keys.2) all.
Proof.
  intros Hk Hv. unfold table_query. rewrite Hv. cbn [mbind result_bind]. rewrite Hk.
  eexists. split; [reflexivity |].
  assert (Hrev : forall (l : list item) it, it ∈ rev l <-> it ∈ l).
  { intros l it. by rewrite !list_elem_of_In, <- in_rev. }
  set (hits := filter _ _).
  assert (Hs : StronglySorted (fun a b : item => Is_true (sort_key_leb keys.2 a b))
                 (merge_sort (fun a b : item => sort_key_leb keys.2 a b) hits)).
  { apply (@StronglySorted_merge_sort _ _ _ (sort_key_order_trans keys.2)
             (sort_key_order_total keys.2)). }
  split.
  - intros it.
    assert (Hin : it ∈ merge_sort (fun a b : item => sort_key_leb keys.2 a b) hits <->
                  (exists k, t !! k = Some it)
                  /\ in_index keys it = true
                  /\ holds (KeyConditionExpression args) it = true).
    { rewrite merge_sort_Permutation. unfold hits.
      rewrite list_elem_of_filter, elem_of_table_items.
      rewrite andb_True, !Is_true_true. tauto. }
    destruct (ScanIndexForward args); rewrite ?Hrev; exact Hin.
  - destruct (ScanIndexForward args); simpl.
    + eapply StronglySorted_impl_elem; [| exact Hs].
      intros x y _ _ H. by apply Is_true_true.
    + apply StronglySorted_rev in Hs.
      eapply StronglySorted_impl_elem; [| exact Hs].
      intros x y _ _ H. unfold flip in H. by apply Is_true_true.
Qed.

(** A [Limit] below 1 is refused before the table is looked at. *)
Lemma table_query_refused (t : gmap (str * str) item) args n :
  Limit args = Some n -> (n < 1)%Z ->
  exists e, table_query t args = Raise e /\ exn_class e = u "ParamValidationError".
Proof.
  intros Hl Hn. unfold table_query, validate. rewrite Hl.
  rewrite (proj2 (Z.ltb_lt n 1)) by lia. by eexists.
Qed.

(** ** Tables the loader builds *)

Lemma last_put_Some k rs it : last_put k rs = Some it -> it ∈ rs /\ item_key it = k.
Proof.
  induction rs as [| x rs IH]; simpl; [done |].
  destruct (last_put k rs) as [y |].
  - intros [= <-]. destruct IH as [Hin Hk]; [done |]. split; [by right | done].
  - destruct (decide (item_key x = k)); [| done].
    intros [= <-]. split; [by left | done].
Qed.

Lemma last_put_app k r1 r2 :
  last_put k (r1 ++ r2)
  = match last_put k r2 with Some x => Some x | None => last_put k r1 end.
Proof.
  induction r1 as [| x r1 IH]; simpl.
  - by destruct (last_put k r2).
  - rewrite IH. by destruct (last_put k r2).
Qed.

Lemma last_put_None k rs :
  Forall (fun it => item_key it <> k) rs -> last_put k rs = None.
Proof.
  induction 1 as [| x rs Hx _ IH]; simpl; [done |].
  rewrite IH. by rewrite decide_False.
Qed.

Lemma last_put_unique k rs it :
  it ∈ rs -> item_key it = k ->
  (forall x, x ∈ rs -> item_key x = k -> x = it) ->
  last_put k rs = Some it.
Proof.
  intros Hin Hk Hu.
  destruct (last_put k rs) as [y |] eqn:Hl.
  - apply last_put_Some in Hl as [Hy Hky]. f_equal. by apply Hu.
  - exfalso. clear Hu. induction rs as [| x rs IH]; [by apply elem_of_nil in Hin |].
    simpl in Hl. destruct (last_put k rs); [done |].
    destruct (decide (item_key x = k)); [done |].
    apply elem_of_cons in Hin as [-> | Hin]; [done | by apply IH].
Qed.

Lemma well_keyed_empty Q : well_keyed Q ∅.
Proof. intros k it H. by rewrite lookup_empty in H. Qed.

Lemma upsert_well_keyed Q rs t :
  Forall Q rs -> well_keyed Q t -> well_keyed Q (upsert rs t).
Proof.
  intros Hrs Ht k it. rewrite lookup_upsert.
  destruct (last_put k rs) as [x |] eqn:Hl.
  - intros [= <-]. apply last_put_Some in Hl as [Hin Hk]. split; [done |].
    rewrite Forall_forall in Hrs. by apply Hrs.
  - apply Ht.
Qed.

Section TableFacts.
Context (repr_str : str -> str) (fromisoformat : str -> option datetime).

Lemma denormalize_Forall (Q : item -> Prop) p :
  (forall cat, Q (category_item repr_str p cat)) ->
  (forall s, Q (author_item p s)) ->
  (forall s, Q (keyword_item p s)) ->
  Q (id_item p) ->
  Forall Q (denormalize repr_str p).
Proof.
  intros. unfold denormalize. apply fan_out_batch_Forall; try done.
Qed.

Lemma denormalize_written p : Forall (written repr_str) (denormalize repr_str p).
Proof.
  apply denormalize_Forall;
    [intros cat; apply written_category | intros s; apply written_author
    | intros s; apply written_keyword | apply written_id].
Qed.

Lemma main_loop_Forall (Q : item -> Prop) papers st :
  (forall p, Forall Q (denormalize repr_str p)) ->
  Forall Q (batch st) -> Forall Q (batch (main_loop repr_str fromisoformat papers st).1).
Proof.
  intros HQ Hst. rewrite main_loop_batch. apply Forall_app. split; [done |].
  apply Forall_concat, Forall_fmap, Forall_forall. intros p _. apply HQ.
Qed.

Lemma table_of_well_keyed papers : well_keyed (written repr_str) (table_of repr_str fromisoformat papers).
Proof.
  apply upsert_well_keyed; [| apply well_keyed_empty].
  apply main_loop_Forall; [apply denormalize_written | constructor].
Qed.

Lemma denormalize_last p :
  exists front, denormalize repr_str p = front ++ [id_item p].
Proof. unfold denormalize, fan_out, put_id. cbn [batch]. by eexists. Qed.

End TableFacts.

Ltac holds_eq :=
  unfold by_id_request; cbn [holds KeyConditionExpression];
  apply bool_decide_eq_true; vm_compute; reflexivity.

Section RoundTrips.
Context (repr_str : str -> str) (fromisoformat : str -> option datetime).

Lemma written_by_id it g :
  written repr_str it -> attr_str it (u "GSI2PK") = Some g ->
  exists q, it = id_item q /\ g = u "PAPER#" ++ arxiv_id q.
Proof.
  intros [p cat | p s | p kw | p] H; vm_compute in H; try discriminate.
  injection H as <-. by exists p.
Qed.

Lemma written_by_author it g :
  written repr_str it -> attr_str it (u "GSI1PK") = Some g ->
  exists q s, it = author_item q s /\ g = u "AUTHOR#" ++ s.
Proof.
  intros [p cat | p s | p kw | p] H; vm_compute in H; try discriminate.
  injection H as <-. by exists p, s.
Qed.

Lemma written_by_keyword it g :
  written repr_str it -> attr_str it (u "GSI3PK") = Some g ->
  exists q s, it = keyword_item q s /\ g = u "KEYWORD#" ++ s.
Proof.
  intros [p cat | p s | p kw | p] H; vm_compute in H; try discriminate.
  injection H as <-. by exists p, kw.
Qed.

Lemma written_at_author it name sk :
  written repr_str it -> item_key it = (u "AUTHOR#" ++ name, sk) ->
  exists q, it = author_item q name /\ sk = sort_key q.
Proof.
  intros [p cat | p s | p kw | p].
  - rewrite category_item_key. intros H. vm_compute in H. discriminate.
  - rewrite author_item_key. intros [= H1 H2]. subst. by exists p.
  - rewrite keyword_item_key. intros H. vm_compute in H. discriminate.
  - rewrite id_item_key. intros H. vm_compute in H. discriminate.
Qed.

Lemma written_at_keyword it kw sk :
  written repr_str it -> item_key it = (u "KEYWORD#" ++ kw, sk) ->
  exists q, it = keyword_item q kw /\ sk = sort_key q.
Proof.
  intros [p cat | p s | p s | p].
  - rewrite category_item_key. intros H. vm_compute in H. discriminate.
  - rewrite author_item_key. intros H. vm_compute in H. discriminate.
  - rewrite keyword_item_key. intros [= H1 H2]. subst. by exists p.
  - rewrite id_item_key. intros H. vm_compute in H. discriminate.
Qed.

Lemma written_at_category it category sk :
  written repr_str it -> item_key it = (u "CATEGORY#" ++ category, sk) ->
  exists q cat, it = category_item repr_str q cat
                /\ py_str repr_str cat = category /\ sk = sort_key q.
Proof.
  intros [p cat | p s | p s | p].
  - rewrite category_item_key. intros [= H1 H2]. by exists p, cat.
  - rewrite author_item_key. intros H. vm_compute in H. discriminate.
  - rewrite keyword_item_key. intros H. vm_compute in H. discriminate.
  - rewrite id_item_key. intros H. vm_compute in H. discriminate.
Qed.

Lemma head_unique {A} (l : list A) a :
  a ∈ l -> (forall x, x ∈ l -> x = a) -> head l = Some a.
Proof.
  destruct l as [| x l]; [by intros ?%elem_of_nil |].
  intros _ H. simpl. f_equal. apply H. by left.
Qed.

Lemma by_id_answer (p : Paper) (t : gmap (str * str) item) :
  well_keyed (written repr_str) t ->
  t !! (u "PAPER#" ++ arxiv_id p, u "PAPER") = Some (id_item p) ->
  get_paper_by_id (store_with t) TABLE_NAME (arxiv_id p) = Ok (Some (id_item p)).
Proof.
  intros Hwk Hp. rewrite get_paper_by_id_head, store_with_query.
  destruct (table_query_elem t (by_id_request (arxiv_id p)) (u "GSI2PK", u "GSI2SK"))
    as (items & -> & Hitems); [done | done |].
  f_equal. apply head_unique.
  - apply Hitems. split; [by eexists |]. split; [vm_compute; reflexivity | holds_eq].
  - intros it [(k & Hk) [_ Hh]]%Hitems.
    cbn in Hh. apply bool_decide_eq_true in Hh.
    destruct (Hwk k it Hk) as [Hkey Hw].
    destruct (written_by_id it _ Hw Hh) as (q & -> & Hq).
    apply app_inv_head in Hq. rewrite id_item_key, <- Hq in Hkey. subst k.
    rewrite Hp in Hk. congruence.
Qed.

Lemma denormalize_other_id p q :
  arxiv_id q <> arxiv_id p ->
  Forall (fun it => item_key it <> (u "PAPER#" ++ arxiv_id p, u "PAPER"))
         (denormalize repr_str q).
Proof.
  intros Hne. apply denormalize_Forall.
  - intros cat. rewrite category_item_key. intros H. vm_compute in H. discriminate.
  - intros s. rewrite author_item_key. intros H. vm_compute in H. discriminate.
  - intros s. rewrite keyword_item_key. intros H. vm_compute in H. discriminate.
  - rewrite id_item_key. intros [= H]. done.
Qed.

Lemma lookup_id_after (p : Paper) (later : list pydict) (t : gmap (str * str) item) :
  Forall (fun q => arxiv_id q <> arxiv_id p) (accepted repr_str fromisoformat later) ->
  upsert (batch (main repr_str fromisoformat later).1) (upsert (denormalize repr_str p) t)
    !! (u "PAPER#" ++ arxiv_id p, u "PAPER")
  = Some (id_item p).
Proof.
  intros Hlater. rewrite lookup_upsert.
  rewrite last_put_None.
  - rewrite lookup_upsert.
    destruct (denormalize_last repr_str p) as (front & ->).
    rewrite last_put_app. simpl.
    by rewrite decide_True by apply id_item_key.
  - unfold main. rewrite main_loop_batch. simpl.
    apply Forall_concat, Forall_fmap.
    eapply Forall_impl; [exact Hlater |].
    intros q Hq. by apply denormalize_other_id.
Qed.

Lemma later_well_keyed papers p later :
  well_keyed (written repr_str)
    (upsert (batch (main repr_str fromisoformat later).1)
       (upsert (denormalize repr_str p) (table_of repr_str fromisoformat papers))).
Proof.
  apply upsert_well_keyed.
  { apply main_loop_Forall; [apply denormalize_written | constructor]. }
  apply upsert_well_keyed; [apply denormalize_written |].
  apply table_of_well_keyed.
Qed.

(** X5.  Look-up by identifier finds what the loader wrote: after a Paper
    has been written to a table the loader built, and whatever is loaded
    afterwards under other identifiers, [get_paper_by_id] with the Paper's
    identifier returns its identifier item, and only a later record with the
    same identifier replaces it. *)
Theorem get_paper_by_id_after_load (papers later : list pydict) (p : Paper) :
  Forall (fun q => arxiv_id q <> arxiv_id p) (accepted repr_str fromisoformat later) ->
  get_paper_by_id
    (store_with (upsert (batch (main repr_str fromisoformat later).1)
                   (upsert (denormalize repr_str p) (table_of repr_str fromisoformat papers))))
    TABLE_NAME (arxiv_id p)
  = Ok (Some (id_item p)).
Proof.
  intros Hlater. apply by_id_answer.
  - apply later_well_keyed.
  - by apply lookup_id_after.
Qed.

Lemma id_item_size p : size (id_item p) <> 0%nat.
Proof.
  intros H. apply map_size_empty_iff in H.
  assert (Hpk : id_item p !! u "SK" = Some (PStr (u "PAPER"))) by (vm_compute; reflexivity).
  rewrite H in Hpk. by rewrite lookup_empty in Hpk.
Qed.

Lemma has_number_strs l : existsb has_number (map PStr l) = false.
Proof. induction l as [| s l IH]; [done |]. simpl. exact IH. Qed.

(** The identifier item of a Paper holds a number exactly when the Paper's
    authors or categories do: its other attributes are strings. *)
Lemma id_item_has_number p :
  item_has_number (id_item p)
  = existsb has_number (authors p) || existsb has_number (categories p).
Proof.
  destruct p as [id ti ab au ca ds pi kw].
  unfold item_has_number.
  let L := eval vm_compute in (map_to_list (id_item (mk_Paper id ti ab au ca ds pi kw))) in
  assert (Hl : map_to_list (id_item (mk_Paper id ti ab au ca ds pi kw)) = L)
    by (vm_compute; reflexivity).
  rewrite Hl. cbn [existsb snd has_number authors categories orb].
  match goal with
  | |- context [existsb has_number ?l || false] =>
      replace (existsb has_number l) with false
        by (symmetry; exact (has_number_strs kw))
  end.
  by rewrite !orb_false_r.
Qed.

Section Served.
Context (str_lower : str -> str).
Context (urlparse : str -> result (str * str)).
Context (parse_qs : str -> result (gmap str (list str))).
Context (unquote : str -> str) (py_int : str -> result Z).

(** X6.  The loader and the server on the identifier route: after a Paper
    has been loaded, a GET whose path the by-identifier branch takes and
    whose remainder unquotes to the Paper's identifier finds the Paper's
    identifier item.  It is answered 200 with that item when the Paper's
    authors and categories hold no number; when they hold one, the item is
    not serialised and the answer is the 500 response with the serialiser's
    message. *)
Theorem served_by_id_after_load
  (papers later : list pydict) (p : Paper) (target path : str)
  (qs : gmap str (list str)) :
  Forall (fun q => arxiv_id q <> arxiv_id p) (accepted repr_str fromisoformat later) ->
  parses_to urlparse parse_qs target path qs ->
  by_id_endpoint path = true ->
  unquote (skipn 8 path) = arxiv_id p ->
  do_GET
    (store_with (upsert (batch (main repr_str fromisoformat later).1)
                   (upsert (denormalize repr_str p)
                      (table_of repr_str fromisoformat papers))))
    str_lower urlparse parse_qs unquote py_int target
  = Ok (if existsb has_number (authors p) || existsb has_number (categories p)
        then internal_error_response not_serializable
        else mk_response 200 (JItem (id_item p))).
Proof.
  intros Hlater Hparse Hpath Hid. rewrite (do_GET_parsed _ _ _ _ _ _ _ _ _ Hparse).
  rewrite handle_by_id by done. rewrite Hid.
  rewrite by_id_answer; [| apply later_well_keyed | by apply lookup_id_after].
  cbn [mbind result_bind]. rewrite bool_decide_eq_true_2 by apply id_item_size.
  unfold _send_json. cbn [dumps_ok]. rewrite id_item_has_number.
  by destruct (existsb has_number (authors p) || existsb has_number (categories p)).
Qed.

End Served.

Lemma in_take_or_full {A} (l : list A) n x :
  x ∈ l -> x ∈ take n l \/ length (take n l) = n.
Proof.
  intros Hin. destruct (decide (length l <= n)%nat) as [Hle | Hgt].
  - left. by rewrite take_ge.
  - right. rewrite length_take. lia.
Qed.

Lemma author_partition (t : gmap (str * str) item) (name : str) :
  well_keyed (written repr_str) t ->
  exists items,
    query_papers_by_author (store_with t) TABLE_NAME name = Ok items
    /\ (forall it : item,
          it ∈ items <-> exists sk, t !! (u "AUTHOR#" ++ name, sk) = Some it)
    /\ StronglySorted (fun a b => sort_key_leb (u "SK") a b = true) items.
Proof.
  intros Hwk. unfold query_papers_by_author. rewrite store_with_query.
  destruct (table_query_shape t
              (mk_query (Some (u "AuthorIndex"))
                 (KeyEq (u "GSI1PK") (u "AUTHOR#" ++ name)) true None)
              (u "GSI1PK", u "GSI1SK")) as (items & -> & Hin & Hs); [done | done |].
  cbn in Hs. cbn [Limit].
  assert (Hmem : forall it : item,
             it ∈ items <-> exists sk, t !! (u "AUTHOR#" ++ name, sk) = Some it).
  { intros it. rewrite Hin. split.
    - intros [(k & Hk) [_ Hh]]. cbn in Hh. apply bool_decide_eq_true in Hh.
      destruct (Hwk k it Hk) as [Hkey Hw].
      destruct (written_by_author it _ Hw Hh) as (q & s & -> & Hq).
      apply app_inv_head in Hq as <-.
      rewrite author_item_key in Hkey. subst k. by eexists.
    - intros (sk & Hk). split; [by eexists |].
      destruct (Hwk _ it Hk) as [Hkey Hw].
      destruct (written_at_author it name sk Hw Hkey) as (q & -> & _).
      split; [vm_compute; reflexivity | holds_eq]. }
  eexists. split; [reflexivity |]. split; [exact Hmem |].
  eapply StronglySorted_impl_elem; [| exact Hs].
  intros x y [skx Hx]%Hmem [sky Hy]%Hmem.
  destruct (Hwk _ x Hx) as [Hkx Hwx]. destruct (Hwk _ y Hy) as [Hky Hwy].
  destruct (written_at_author x name skx Hwx Hkx) as (qx & -> & _).
  destruct (written_at_author y name sky Hwy Hky) as (qy & -> & _).
  unfold scan_order, sort_key_leb.
  assert (Ha : forall q, attr_str (author_item q name) (u "GSI1SK")
                         = attr_str (author_item q name) (u "SK"))
    by (intros q; vm_compute; reflexivity).
  by rewrite !Ha.
Qed.

(** X7.  The author query returns exactly the items stored in the author's
    partition of a table the loader built, oldest sort key first; after a
    record has been loaded, the AUTHOR item of each of its non-blank,
    trimmed author names is among them. *)
Theorem author_query_after_load
  (papers : list pydict) (paper : pydict) (p : Paper) (name : str) :
  normalize repr_str fromisoformat paper = Ok (Some p) ->
  name ∈ names_of repr_str (authors p) ->
  let t := upsert (denormalize repr_str p) (table_of repr_str fromisoformat papers) in
  exists items,
    query_papers_by_author (store_with t) TABLE_NAME name = Ok items
    /\ author_item p name ∈ items
    /\ (forall it : item,
          it ∈ items <-> exists sk, t !! (u "AUTHOR#" ++ name, sk) = Some it)
    /\ StronglySorted (fun a b => sort_key_leb (u "SK") a b = true) items.
Proof.
  intros Hn Hname t.
  assert (Hwk : well_keyed (written repr_str) t).
  { apply upsert_well_keyed; [apply denormalize_written | apply table_of_well_keyed]. }
  destruct (author_partition t name Hwk) as (items & Hq & Hmem & Hs).
  exists items. split; [done |]. split; [| done].
  apply Hmem. exists (sort_key p). unfold t. rewrite lookup_upsert.
  rewrite (last_put_unique _ _ (author_item p name)); [done | | apply author_item_key |].
  - unfold denormalize. rewrite (fan_out_eq repr_str fromisoformat paper p _ Hn).
    unfold add_counts. cbn [batch init_state app].
    rewrite !elem_of_app. right. left. by apply list_elem_of_fmap_2.
  - intros x Hx Hk.
    assert (Hw : written repr_str x).
    { pose proof (denormalize_written repr_str p) as Hall.
      rewrite Forall_forall in Hall. by apply Hall. }
    destruct (written_at_author x name _ Hw Hk) as (q & Heq & _).
    clear Hk Hw.
    revert x Hx q Heq.
    enough (Hall : Forall (fun x : item => forall q, x = author_item q name ->
                                    x = author_item p name)
                          (denormalize repr_str p)).
    { rewrite Forall_forall in Hall. intros x Hx q Heq. by eapply Hall. }
    apply denormalize_Forall.
    + intros cat q H.
      assert (Hf : item_key (category_item repr_str p cat) = item_key (author_item q name))
        by by rewrite H.
      rewrite category_item_key, author_item_key in Hf. vm_compute in Hf. discriminate.
    + intros s q H.
      assert (Hf : item_key (author_item p s) = item_key (author_item q name))
        by by rewrite H.
      rewrite !author_item_key in Hf. injection Hf as Hf _. by subst.
    + intros s q H.
      assert (Hf : item_key (keyword_item p s) = item_key (author_item q name))
        by by rewrite H.
      rewrite keyword_item_key, author_item_key in Hf. vm_compute in Hf. discriminate.
    + intros q H.
      assert (Hf : item_key (id_item p) = item_key (author_item q name))
        by by rewrite H.
      rewrite id_item_key, author_item_key in Hf. vm_compute in Hf. discriminate.
Qed.

(** X8.  The recent-in-category query on a table the loader built, with a
    limit of at least 1, returns the first [limit] items of the category's
    partition walked from the greatest sort key down: at most [limit] items,
    every one stored under [CATEGORY#category], in descending order of sort
    key, and no item of the partition that is left out has a greater sort
    key than a returned one.  With a limit below 1 the call raises: the
    store's client refuses the request. *)
Theorem recent_in_category_newest_first
  (papers : list pydict) (category : str) (limit : Z) :
  let t := table_of repr_str fromisoformat papers in
  ((1 <= limit)%Z ->
   exists items rest,
     query_recent_in_category (store_with t) TABLE_NAME category limit = Ok items
     /\ length items = Nat.min (Z.to_nat limit) (length (items ++ rest))
     /\ (forall it : item,
           it ∈ items ++ rest
           <-> exists sk, t !! (u "CATEGORY#" ++ category, sk) = Some it)
     /\ StronglySorted (fun a b => sort_key_leb (u "SK") b a = true) (items ++ rest))
  /\ ((limit < 1)%Z ->
      exists e,
        query_recent_in_category (store_with t) TABLE_NAME category limit = Raise e
        /\ exn_class e = u "ParamValidationError").
Proof.
  intros t. unfold query_recent_in_category. rewrite store_with_query. split.
  2:{ intros Hlt. by apply (table_query_refused _ _ limit). }
  intros Hlimit.
  destruct (table_query_shape t
              (mk_query None (KeyEq (u "PK") (u "CATEGORY#" ++ category)) false
                 (Some limit))
              (u "PK", u "SK")) as (all & -> & Hin & Hs);
    [done | by apply (validate_limit _ limit) |].
  cbn in Hs. cbn [Limit].
  exists (take (Z.to_nat limit) all), (drop (Z.to_nat limit) all).
  rewrite take_drop. split; [done |]. split; [apply length_take |]. split; [| done].
  intros it. rewrite Hin. split.
  - intros [([pk sk] & Hk) [_ Hh]].
    cbn [holds KeyConditionExpression] in Hh. apply bool_decide_eq_true in Hh.
    destruct (table_of_well_keyed repr_str fromisoformat papers _ it Hk) as [Hkey _].
    unfold item_key in Hkey. rewrite Hh in Hkey.
    assert (Hpk : u "CATEGORY#" ++ category = pk) by exact (f_equal fst Hkey).
    exists sk. by rewrite Hpk.
  - intros (sk & Hk). split; [by eexists |].
    destruct (table_of_well_keyed repr_str fromisoformat papers _ it Hk) as [Hkey Hw].
    destruct (written_at_category it category sk Hw Hkey) as (q & cat & -> & <- & _).
    split; [vm_compute; reflexivity | holds_eq].
Qed.


(** ** Keyword look-up *)

Section Keyword.
Context (str_lower : str -> str).

Lemma keyword_partition (t : gmap (str * str) item) (keyword : str) (limit : Z) :
  well_keyed (written repr_str) t ->
  (1 <= limit)%Z ->
  exists all,
    query_papers_by_keyword (store_with t) str_lower TABLE_NAME keyword limit
    = Ok (take (Z.to_nat limit) all)
    /\ (forall it : item,
          it ∈ all <->
          exists sk, t !! (u "KEYWORD#" ++ str_lower keyword, sk) = Some it)
    /\ StronglySorted (fun a b => sort_key_leb (u "SK") b a = true) all.
Proof.
  intros Hwk Hlimit. unfold query_papers_by_keyword. rewrite store_with_query.
  destruct (table_query_shape t
              (mk_query (Some (u "KeywordIndex"))
                 (KeyEq (u "GSI3PK") (u "KEYWORD#" ++ str_lower keyword)) false
                 (Some limit))
              (u "GSI3PK", u "GSI3SK")) as (all & -> & Hin & Hs);
    [done | by apply (validate_limit _ limit) |].
  cbn in Hs. cbn [Limit].
  assert (Hmem : forall it : item,
             it ∈ all <->
             exists sk, t !! (u "KEYWORD#" ++ str_lower keyword, sk) = Some it).
  { intros it. rewrite Hin. split.
    - intros [(k & Hk) [_ Hh]].
      cbn [holds KeyConditionExpression] in Hh. apply bool_decide_eq_true in Hh.
      destruct (Hwk k it Hk) as [Hkey Hw].
      destruct (written_by_keyword it _ Hw Hh) as (q & s & -> & Hq).
      apply app_inv_head in Hq as <-.
      rewrite keyword_item_key in Hkey. subst k. by eexists.
    - intros (sk & Hk). split; [by eexists |].
      destruct (Hwk _ it Hk) as [Hkey Hw].
      destruct (written_at_keyword it _ sk Hw Hkey) as (q & -> & _).
      split; [vm_compute; reflexivity | holds_eq]. }
  eexists. split; [reflexivity |]. split; [exact Hmem |].
  eapply StronglySorted_impl_elem; [| exact Hs].
  intros x y [skx Hx]%Hmem [sky Hy]%Hmem.
  destruct (Hwk _ x Hx) as [Hkx Hwx]. destruct (Hwk _ y Hy) as [Hky Hwy].
  destruct (written_at_keyword x _ skx Hwx Hkx) as (qx & -> & _).
  destruct (written_at_keyword y _ sky Hwy Hky) as (qy & -> & _).
  unfold scan_order, sort_key_leb.
  assert (Ha : forall q s, attr_str (keyword_item q s) (u "GSI3SK")
                           = attr_str (keyword_item q s) (u "SK"))
    by (intros q s; vm_compute; reflexivity).
  by rewrite !Ha.
Qed.

Lemma keyword_stored (paper : pydict) (p : Paper) (kw : str)
  (t : gmap (str * str) item) :
  normalize repr_str fromisoformat paper = Ok (Some p) ->
  kw ∈ keywords p ->
  upsert (denormalize repr_str p) t !! (u "KEYWORD#" ++ kw, sort_key p)
  = Some (keyword_item p kw).
Proof.
  intros Hn Hkw. rewrite lookup_upsert.
  rewrite (last_put_unique _ _ (keyword_item p kw)); [done | | apply keyword_item_key |].
  - unfold denormalize. rewrite (fan_out_eq repr_str fromisoformat paper p _ Hn).
    unfold add_counts. cbn [batch init_state app].
    rewrite !elem_of_app. right. right. left. by apply list_elem_of_fmap_2.
  - intros x Hx Hk.
    assert (Hw : written repr_str x).
    { pose proof (denormalize_written repr_str p) as Hall.
      rewrite Forall_forall in Hall. by apply Hall. }
    destruct (written_at_keyword x kw _ Hw Hk) as (q & Heq & _).
    clear Hk Hw. revert x Hx q Heq.
    enough (Hall : Forall (fun x : item => forall q, x = keyword_item q kw ->
                                    x = keyword_item p kw)
                          (denormalize repr_str p)).
    { rewrite Forall_forall in Hall. intros x Hx q Heq. by eapply Hall. }
    apply denormalize_Forall.
    + intros cat q H.
      assert (Hf : item_key (category_item repr_str p cat) = item_key (keyword_item q kw))
        by by rewrite H.
      rewrite category_item_key, keyword_item_key in Hf. vm_compute in Hf. discriminate.
    + intros s q H.
      assert (Hf : item_key (author_item p s) = item_key (keyword_item q kw))
        by by rewrite H.
      rewrite author_item_key, keyword_item_key in Hf. vm_compute in Hf. discriminate.
    + intros s q H.
      assert (Hf : item_key (keyword_item p s) = item_key (keyword_item q kw))
        by by rewrite H.
      rewrite !keyword_item_key in Hf. injection Hf as Hf _. by subst.
    + intros q H.
      assert (Hf : item_key (id_item p) = item_key (keyword_item q kw))
        by by rewrite H.
      rewrite id_item_key, keyword_item_key in Hf. vm_compute in Hf. discriminate.
Qed.

(** X9.  The keyword query looks under the lower-case form of the keyword
    asked for, which is the form the loader stores: after a record has been
    loaded, asking, with a limit of at least 1, for a spelling whose
    lower-case form is one of the record's keywords returns at most [limit]
    items, all of that keyword's partition, greatest sort key first, and
    the record's KEYWORD item is among them unless the answer is cut at
    [limit]. *)
Theorem keyword_query_case_insensitive
  (papers : list pydict) (paper : pydict) (p : Paper) (kw spelling : str) (limit : Z) :
  normalize repr_str fromisoformat paper = Ok (Some p) ->
  kw ∈ keywords p ->
  str_lower spelling = kw ->
  (1 <= limit)%Z ->
  let t := upsert (denormalize repr_str p) (table_of repr_str fromisoformat papers) in
  exists items,
    query_papers_by_keyword (store_with t) str_lower TABLE_NAME spelling limit = Ok items
    /\ (length items <= Z.to_nat limit)%nat
    /\ (forall it : item,
          it ∈ items -> exists sk, t !! (u "KEYWORD#" ++ kw, sk) = Some it)
    /\ StronglySorted (fun a b => sort_key_leb (u "SK") b a = true) items
    /\ (keyword_item p kw ∈ items \/ length items = Z.to_nat limit).
Proof.
  intros Hn Hkw Hsp Hlimit t.
  assert (Hwk : well_keyed (written repr_str) t).
  { apply upsert_well_keyed; [apply denormalize_written | apply table_of_well_keyed]. }
  destruct (keyword_partition t spelling limit Hwk Hlimit) as (all & Hq & Hmem & Hs).
  rewrite Hsp in Hmem.
  exists (take (Z.to_nat limit) all). split; [done |].
  split; [rewrite length_take; lia |]. split.
  { intros it Hit. apply Hmem.
    rewrite <- (take_drop (Z.to_nat limit) all). apply elem_of_app. by left. }
  split.
  { rewrite <- (take_drop (Z.to_nat limit) all) in Hs.
    by apply StronglySorted_app_1_l in Hs. }
  apply in_take_or_full, Hmem. exists (sort_key p).
  by apply (keyword_stored paper).
Qed.

End Keyword.

End RoundTrips.

(** The witnesses: the scenario of the design document, followed by a second
    record. *)
Lemma get_paper_by_id_after_load_witness :
  get_paper_by_id
    (store_with (upsert (batch (main repr_quoted read_isoformat [other_record]).1)
                   (upsert (denormalize repr_quoted sample_paper)
                      (table_of repr_quoted read_isoformat [sample_record]))))
    TABLE_NAME (arxiv_id sample_paper)
  = Ok (Some (id_item sample_paper)).
Proof.
  apply (get_paper_by_id_after_load repr_quoted read_isoformat [sample_record] [other_record]
           sample_paper).
  vm_compute. constructor; [discriminate | constructor].
Defined.

Lemma served_by_id_after_load_witness :
  do_GET
    (store_with (upsert (batch (main repr_quoted read_isoformat [other_record]).1)
                   (upsert (denormalize repr_quoted sample_paper)
                      (table_of repr_quoted read_isoformat [sample_record]))))
    Str.lower urlparse_plain parse_qs_plain unquote_plain int_twenty (u "/papers/A1")
  = Ok (mk_response 200 (JItem (id_item sample_paper)))
  /\ do_GET
       (store_with (upsert (batch (main repr_quoted read_isoformat [other_record]).1)
                      (upsert (denormalize repr_quoted numbered_paper)
                         (table_of repr_quoted read_isoformat [sample_record]))))
       Str.lower urlparse_plain parse_qs_plain unquote_plain int_twenty (u "/papers/A1")
     = Ok (internal_error_response not_serializable).
Proof.
  split.
  - apply (served_by_id_after_load repr_quoted read_isoformat Str.lower urlparse_plain
             parse_qs_plain unquote_plain int_twenty
             [sample_record] [other_record] sample_paper
             (u "/papers/A1") (u "/papers/A1") ∅).
    + vm_compute. constructor; [discriminate | constructor].
    + by exists [].
    + vm_compute. reflexivity.
    + vm_compute. reflexivity.
  - apply (served_by_id_after_load repr_quoted read_isoformat Str.lower urlparse_plain
             parse_qs_plain unquote_plain int_twenty
             [sample_record] [other_record] numbered_paper
             (u "/papers/A1") (u "/papers/A1") ∅).
    + vm_compute. constructor; [discriminate | constructor].
    + by exists [].
    + vm_compute. reflexivity.
    + vm_compute. reflexivity.
Defined.

Lemma author_query_after_load_witness :
  exists items,
    query_papers_by_author
      (store_with (upsert (denormalize repr_quoted sample_paper)
                     (table_of repr_quoted read_isoformat [other_record])))
      TABLE_NAME (u "X Y") = Ok items
    /\ author_item sample_paper (u "X Y") ∈ items
    /\ (forall it : item,
          it ∈ items <->
          exists sk,
            upsert (denormalize repr_quoted sample_paper)
              (table_of repr_quoted read_isoformat [other_record])
            !! (u "AUTHOR#" ++ u "X Y", sk) = Some it)
    /\ StronglySorted (fun a b => sort_key_leb (u "SK") a b = true) items.
Proof.
  apply (author_query_after_load repr_quoted read_isoformat [other_record] sample_record
           sample_paper (u "X Y")).
  - vm_compute. reflexivity.
  - vm_compute. left.
Defined.

Lemma keyword_query_case_insensitive_witness :
  exists items,
    query_papers_by_keyword
      (store_with (upsert (denormalize repr_quoted sample_paper)
                     (table_of repr_quoted read_isoformat [other_record])))
      Str.lower TABLE_NAME (u "Deep") 20 = Ok items
    /\ (length items <= Z.to_nat 20)%nat
    /\ (forall it : item,
          it ∈ items ->
          exists sk,
            upsert (denormalize repr_quoted sample_paper)
              (table_of repr_quoted read_isoformat [other_record])
            !! (u "KEYWORD#" ++ u "deep", sk) = Some it)
    /\ StronglySorted (fun a b => sort_key_leb (u "SK") b a = true) items
    /\ (keyword_item sample_paper (u "deep") ∈ items \/ length items = Z.to_nat 20).
Proof.
  apply (keyword_query_case_insensitive repr_quoted read_isoformat Str.lower
           [other_record] sample_record sample_paper (u "deep") (u "Deep") 20%Z).
  - vm_compute. reflexivity.
  - vm_compute. left.
  - vm_compute. reflexivity.
  - lia.
Defined.

(** ** Sort keys and the calendar *)

Lemma leb_zfill2 a b :
  a < 100 -> b < 100 -> Str.leb (zfill 2 a) (zfill 2 b) = (a <=? b).
Proof.
  intros Ha Hb. rewrite !zfill2_eq by done. simpl.
  destruct (N.ltb_spec (48 + a / 10) (48 + b / 10)),
    (N.eqb_spec (48 + a / 10) (48 + b / 10)),
    (N.ltb_spec (48 + a mod 10) (48 + b mod 10)),
    (N.eqb_spec (48 + a mod 10) (48 + b mod 10)),
    (N.leb_spec a b); try done; exfalso; divmod_lia.
Qed.

Lemma zfill2_inj a b : a < 100 -> b < 100 -> zfill 2 a = zfill 2 b -> a = b.
Proof.
  intros Ha Hb H.
  destruct (two_digits a Ha) as (a1 & a2 & Ea & _ & _ & Pa).
  destruct (two_digits b Hb) as (b1 & b2 & Eb & _ & _ & Pb).
  rewrite Ea, Eb in H. rewrite H in Pa. congruence.
Qed.

Lemma zfill4_split y :
  y < 10000 -> zfill 4 y = zfill 2 (y / 100) ++ zfill 2 (y mod 100).
Proof.
  intros Hy. rewrite zfill4_eq by done.
  rewrite !zfill2_eq by divmod_lia. simpl. digits_eq.
Qed.

Lemma zfill2_length a : a < 100 -> length (zfill 2 a) = 2%nat.
Proof. intros Ha. by rewrite zfill2_eq. Qed.

Lemma leb_zfill4 a b :
  a < 10000 -> b < 10000 -> Str.leb (zfill 4 a) (zfill 4 b) = (a <=? b).
Proof.
  intros Ha Hb. rewrite !zfill4_split by done.
  rewrite leb_app_eqlen by (rewrite !zfill2_length; [done | divmod_lia | divmod_lia]).
  destruct (decide (zfill 2 (a / 100) = zfill 2 (b / 100))) as [He | Hne].
  - apply zfill2_inj in He; [| divmod_lia | divmod_lia].
    rewrite leb_zfill2 by divmod_lia.
    destruct (N.leb_spec (a mod 100) (b mod 100)), (N.leb_spec a b);
      try done; exfalso; divmod_lia.
  - rewrite leb_zfill2 by divmod_lia.
    assert (a / 100 <> b / 100) by (intros E; apply Hne; by rewrite E).
    destruct (N.leb_spec (a / 100) (b / 100)), (N.leb_spec a b);
      try done; exfalso; divmod_lia.
Qed.

Lemma zfill4_inj a b : a < 10000 -> b < 10000 -> zfill 4 a = zfill 4 b -> a = b.
Proof.
  intros Ha Hb H.
  destruct (four_digits a Ha) as (a1 & a2 & a3 & a4 & Ea & _ & _ & _ & _ & Pa).
  destruct (four_digits b Hb) as (b1 & b2 & b3 & b4 & Eb & _ & _ & _ & _ & Pb).
  rewrite Ea, Eb in H. rewrite H in Pa. congruence.
Qed.

Lemma zfill4_length a : a < 10000 -> length (zfill 4 a) = 4%nat.
Proof. intros Ha. by rewrite zfill4_eq. Qed.

Lemma date_text_inj y1 m1 d1 y2 m2 d2 :
  y1 < 10000 -> m1 < 100 -> d1 < 100 -> y2 < 10000 -> m2 < 100 -> d2 < 100 ->
  date_text y1 m1 d1 = date_text y2 m2 d2 -> (y1, m1, d1) = (y2, m2, d2).
Proof.
  intros ? ? ? ? ? ? H.
  assert (Hp : parse_isoformat_date (date_text y1 m1 d1)
               = parse_isoformat_date (date_text y2 m2 d2)) by by rewrite H.
  rewrite !parse_date_text in Hp by done. congruence.
Qed.

(** Dates of the form [YYYY-MM-DD] compare as texts the way the days compare
    in the calendar. *)
Lemma leb_date_text y1 m1 d1 y2 m2 d2 :
  y1 < 10000 -> m1 < 100 -> d1 < 100 -> y2 < 10000 -> m2 < 100 -> d2 < 100 ->
  Str.leb (date_text y1 m1 d1) (date_text y2 m2 d2) = true
  <-> date_before y1 m1 d1 y2 m2 d2 \/ (y1, m1, d1) = (y2, m2, d2).
Proof.
  intros Hy1 Hm1 Hd1 Hy2 Hm2 Hd2. unfold date_text, date_before.
  rewrite leb_app_eqlen by by rewrite !zfill4_length.
  destruct (decide (zfill 4 y1 = zfill 4 y2)) as [Ey | Ny].
  - apply zfill4_inj in Ey; [| done | done]. subst y2.
    rewrite leb_app_same.
    rewrite leb_app_eqlen by by rewrite !zfill2_length.
    destruct (decide (zfill 2 m1 = zfill 2 m2)) as [Em | Nm].
    + apply zfill2_inj in Em; [| done | done]. subst m2.
      rewrite leb_app_same, leb_zfill2 by done.
      rewrite N.leb_le. split.
      * intros Hle. destruct (decide (d1 = d2)) as [-> | Hne]; [by right |].
        left. right. split; [done |]. right. split; [done | lia].
      * intros [[? | [_ [? | [_ ?]]]] | [= ->]]; lia.
    + rewrite leb_zfill2 by done. rewrite N.leb_le.
      assert (m1 <> m2) by (intros E; apply Nm; by rewrite E).
      split.
      * intros Hle. left. right. split; [done |]. left. lia.
      * intros [[? | [_ [? | [? ?]]]] | [= ? ?]]; lia.
  - rewrite leb_zfill4 by done. rewrite N.leb_le.
    assert (y1 <> y2) by (intros E; apply Ny; by rewrite E).
    split.
    + intros Hle. left. left. lia.
    + intros [[? | [? _]] | [= ? ? ?]]; lia.
Qed.

(** X10.  With publication dates that are valid calendar dates, the sort key
    [date#identifier] orders items by day and, within a day, by identifier:
    one sort key is at most another exactly when its day is earlier, or the
    days are equal and its identifier is at most the other's. *)
Theorem sort_key_chronological (p1 p2 : Paper) (y1 m1 d1 y2 m2 d2 : N) :
  valid_date y1 m1 d1 = true -> valid_date y2 m2 d2 = true ->
  date_str p1 = date_text y1 m1 d1 -> date_str p2 = date_text y2 m2 d2 ->
  Str.leb (sort_key p1) (sort_key p2) = true
  <-> date_before y1 m1 d1 y2 m2 d2
      \/ ((y1, m1, d1) = (y2, m2, d2)
          /\ Str.leb (arxiv_id p1) (arxiv_id p2) = true).
Proof.
  intros (Hy1 & Hm1 & Hd1)%valid_date_bounds (Hy2 & Hm2 & Hd2)%valid_date_bounds E1 E2.
  unfold sort_key. rewrite E1, E2.
  rewrite leb_app_eqlen by by rewrite !date_text_length.
  destruct (decide (date_text y1 m1 d1 = date_text y2 m2 d2)) as [Ed | Nd].
  - apply date_text_inj in Ed; try done. rewrite leb_app_same.
    split; [by right |].
    intros [Hb | [_ ?]]; [| done]. exfalso.
    injection Ed as -> -> ->. unfold date_before in Hb. lia.
  - rewrite leb_date_text by done. split.
    + intros [? | Heq]; [by left |]. exfalso. apply Nd. by injection Heq as -> -> ->.
    + intros [? | [Heq _]]; [by left | by right].
Qed.

Lemma sort_key_chronological_witness :
  Str.leb (sort_key (paper_of_day "2401.17000" "2023-12-31"))
          (sort_key (paper_of_day "2301.00001" "2024-01-01")) = true
  <-> date_before 2023 12 31 2024 1 1
      \/ ((2023, 12, 31) = (2024, 1, 1)
          /\ Str.leb (arxiv_id (paper_of_day "2401.17000" "2023-12-31"))
                     (arxiv_id (paper_of_day "2301.00001" "2024-01-01")) = true).
Proof.
  apply (sort_key_chronological (paper_of_day "2401.17000" "2023-12-31")
           (paper_of_day "2301.00001" "2024-01-01") 2023 12 31 2024 1 1);
    vm_compute; reflexivity.
Defined.

(** ** More on keyword extraction *)

Lemma keyword_tokens_lower a b :
  Str.lower a = Str.lower b -> keyword_tokens a = keyword_tokens b.
Proof. unfold keyword_tokens. by intros ->. Qed.

(** Two code points that differ in ASCII case only have one lower-case
    form. *)
Lemma lower_char_fold x y :
  ascii_lower x = ascii_lower y -> Str.lower_char x = Str.lower_char y.
Proof.
  unfold ascii_lower, Str.lower_char. intros H.
  destruct ((65 <=? x) && (x <=? 90)) eqn:Hx, ((65 <=? y) && (y <=? 90)) eqn:Hy;
    [by rewrite H | | | by subst].
  - subst y. clear Hy. nbool.
    replace ((192 <=? x + 32) && (x + 32 <=? 222)) with false
      by (symmetry; apply andb_false_iff; left; apply N.leb_gt; lia).
    cbn [andb].
    replace (x + 32 =? 304) with false by (symmetry; apply N.eqb_neq; lia).
    by replace (x + 32 =? 8490) with false by (symmetry; apply N.eqb_neq; lia).
  - subst x. clear Hx. nbool.
    replace ((192 <=? y + 32) && (y + 32 <=? 222)) with false
      by (symmetry; apply andb_false_iff; left; apply N.leb_gt; lia).
    cbn [andb].
    replace (y + 32 =? 304) with false by (symmetry; apply N.eqb_neq; lia).
    by replace (y + 32 =? 8490) with false by (symmetry; apply N.eqb_neq; lia).
Qed.

Lemma lower_fold a b :
  map ascii_lower a = map ascii_lower b -> Str.lower a = Str.lower b.
Proof.
  revert b. induction a as [| x a IH]; intros [| y b] H; try done.
  injection H as Hxy Hab. unfold Str.lower. cbn [flat_map].
  rewrite (lower_char_fold x y Hxy). f_equal. by apply IH.
Qed.

Lemma ascii_lower_idem c : ascii_lower (ascii_lower c) = ascii_lower c.
Proof.
  unfold ascii_lower. destruct ((65 <=? c) && (c <=? 90)) eqn:H; [| by rewrite H].
  nbool.
  by replace ((65 <=? c + 32) && (c + 32 <=? 90)) with false
    by (symmetry; apply andb_false_iff; right; apply N.leb_gt; lia).
Qed.

(** X11.  Keyword extraction does not depend on the case of the ASCII
    letters of the abstract: two abstracts that become equal when their
    capitals [A]-[Z] are made small give the same keywords in the same
    order, and so do an abstract and the text with its capitals made
    small. *)
Theorem extract_keywords_case_insensitive (abstract other : str) (max_keywords : Z) :
  (map ascii_lower abstract = map ascii_lower other ->
   extract_keywords abstract max_keywords = extract_keywords other max_keywords)
  /\ extract_keywords (map ascii_lower abstract) max_keywords
     = extract_keywords abstract max_keywords.
Proof.
  split.
  - intros H. rewrite !extract_keywords_eq.
    by rewrite (keyword_tokens_lower _ _ (lower_fold _ _ H)).
  - rewrite !extract_keywords_eq.
    rewrite (keyword_tokens_lower (map ascii_lower abstract) abstract); [done |].
    apply lower_fold. rewrite map_map. apply map_ext. intros c. apply ascii_lower_idem.
Qed.

(** X12.  The number of keywords is the number of distinct tokens that are
    not stop words, cut at [max_keywords]: never more, and fewer only when
    the abstract has no more distinct tokens to offer. *)
Theorem extract_keywords_length (abstract : str) (max_keywords : Z) :
  length (extract_keywords abstract max_keywords)
  = Nat.min (Z.to_nat max_keywords) (length (remove_dups (keyword_tokens abstract))).
Proof.
  rewrite extract_keywords_eq, length_fmap, length_take. f_equal.
  rewrite sorted_desc_perm.
  destruct (Counter_inv (keyword_tokens abstract)) as (_ & Hnd & Hel & _).
  rewrite <- (length_fmap fst).
  apply Permutation_length, NoDup_Permutation; [done | apply NoDup_remove_dups |].
  intros k. by rewrite Hel, elem_of_remove_dups.
Qed.

(** ** Edge cases of the normalisation *)

Section Normalisation.
Context (repr_str : str -> str) (fromisoformat : str -> option datetime).

Lemma published_datetime_valid s dt :
  builds_dates fromisoformat ->
  published_datetime fromisoformat s = Some dt ->
  valid_date (year dt) (month dt) (day dt) = true.
Proof.
  intros Hb. unfold published_datetime.
  destruct (Str.contains_char 84 s); intros H; by apply Hb in H.
Qed.

(** X13.  The date part of a sort key is never longer than ten characters,
    whatever the record holds as [published]; when [fromisoformat] reads the
    value it is the ten-character text of the calendar date read, otherwise
    the first ten characters of the raw text (or the epoch date when there
    is none). *)
Theorem date_str_shape (published_raw : pyval) :
  builds_dates fromisoformat ->
  let d := (normalize_published repr_str fromisoformat published_raw).1 in
  (length d <= 10)%nat
  /\ (truthy published_raw = false -> d = u "1970-01-01")
  /\ (forall dt,
        truthy published_raw = true ->
        published_datetime fromisoformat (py_str repr_str published_raw) = Some dt ->
        d = date_text (year dt) (month dt) (day dt)
        /\ valid_date (year dt) (month dt) (day dt) = true
        /\ length d = 10%nat)
  /\ (truthy published_raw = true ->
      published_datetime fromisoformat (py_str repr_str published_raw) = None ->
      d = take 10 (py_str repr_str published_raw)).
Proof.
  intros Hb d. subst d.
  destruct (truthy published_raw) eqn:Ht.
  - destruct (published_datetime fromisoformat (py_str repr_str published_raw))
      as [dt |] eqn:Hp.
    + rewrite (normalize_published_parsed repr_str fromisoformat _ dt Ht Hp). simpl.
      pose proof (published_datetime_valid _ _ Hb Hp) as Hv.
      pose proof (valid_date_bounds _ _ _ Hv) as (Hy & Hm & Hd).
      assert (Hl : length (date_isoformat dt) = 10%nat)
        by by apply date_text_length.
      split; [lia |]. split; [done |]. split; [| done].
      intros dt' _ [= <-]. done.
    + rewrite (normalize_published_fallback repr_str fromisoformat _ Ht Hp). simpl.
      split; [rewrite length_take; lia |]. done.
  - rewrite (normalize_published_falsy repr_str fromisoformat _ Ht). simpl.
    split; [vm_compute; lia |]. done.
Qed.

Lemma get_insert_ne (paper : pydict) k k' v :
  k <> k' -> get (<[k := v]> paper) k' = get paper k'.
Proof. intros Hne. unfold get. by rewrite lookup_insert_ne. Qed.

Lemma get_or_insert_ne (paper : pydict) k k' v dflt :
  k <> k' -> get_or (<[k := v]> paper) k' dflt = get_or paper k' dflt.
Proof. intros Hne. unfold get_or. by rewrite lookup_insert_ne. Qed.

Lemma get_insert (paper : pydict) k v : get (<[k := v]> paper) k = v.
Proof. unfold get. by rewrite lookup_insert_eq. Qed.

Lemma as_list_scalar s : s <> [] -> as_list repr_str (PStr s) = [PStr s].
Proof. destruct s; [done |]. done. Qed.

(** X14.  Categories or authors given as one non-empty string instead of a
    list are read as the one-element list of that string: the record is
    normalised, and the load goes on, exactly as if the list had been
    given. *)
Theorem scalar_field_is_singleton
  (paper : pydict) (field s : str) (pre post : list pydict) (st : load_state) :
  field = u "categories" \/ field = u "authors" ->
  s <> [] ->
  normalize repr_str fromisoformat (<[field := PStr s]> paper)
  = normalize repr_str fromisoformat (<[field := PList [PStr s]]> paper)
  /\ main_loop repr_str fromisoformat (pre ++ <[field := PStr s]> paper :: post) st
     = main_loop repr_str fromisoformat (pre ++ <[field := PList [PStr s]]> paper :: post) st.
Proof.
  intros Hf Hs.
  assert (Hn : normalize repr_str fromisoformat (<[field := PStr s]> paper)
               = normalize repr_str fromisoformat (<[field := PList [PStr s]]> paper)).
  { unfold normalize.
    destruct Hf as [-> | ->];
      rewrite ?get_insert, ?as_list_scalar by done;
      rewrite !get_insert_ne, !get_or_insert_ne by (by vm_compute);
      done. }
  split; [done |].
  rewrite !main_loop_app. destruct (main_loop repr_str fromisoformat pre st) as [st' [e |]]; [done |].
  simpl. by rewrite Hn.
Qed.

(** X15.  A record that holds nothing but an identifier is loaded as one
    item: with no title, abstract, authors, categories and publication date
    it becomes a Paper with empty texts and the epoch date, and the only
    request written for it is its identifier item. *)
Theorem identifier_only_record (paper : pydict) :
  record_id repr_str paper <> [] ->
  paper !! u "title" = None -> paper !! u "abstract" = None ->
  paper !! u "authors" = None -> paper !! u "categories" = None ->
  paper !! u "published" = None ->
  let p := mk_Paper (record_id repr_str paper) [] [] [] []
             (u "1970-01-01") (u "1970-01-01T00:00:00Z") [] in
  normalize repr_str fromisoformat paper = Ok (Some p)
  /\ denormalize repr_str p = [id_item p]
  /\ main repr_str fromisoformat [paper] = (mk_state [id_item p] 1 1 0 0 0 1, None).
Proof.
  intros Hid Ht Ha Hau Hc Hp p.
  assert (Hn : normalize repr_str fromisoformat paper = Ok (Some p)).
  { rewrite normalize_not_blank by done.
    unfold get_or, get. rewrite Ht, Ha, Hau, Hc, Hp. done. }
  assert (Hd : fan_out repr_str p init_state = mk_state [id_item p] 1 1 0 0 0 1)
    by done.
  split; [done |]. split.
  - unfold denormalize. by rewrite Hd.
  - unfold main. simpl. by rewrite Hn, Hd.
Qed.

End Normalisation.

Lemma date_str_shape_witness :
  let d := (normalize_published repr_quoted read_isoformat
              (PStr (u "2024-02-29T10:20:30Z"))).1 in
  (length d <= 10)%nat
  /\ (truthy (PStr (u "2024-02-29T10:20:30Z")) = false -> d = u "1970-01-01")
  /\ (forall dt,
        truthy (PStr (u "2024-02-29T10:20:30Z")) = true ->
        published_datetime read_isoformat
          (py_str repr_quoted (PStr (u "2024-02-29T10:20:30Z"))) = Some dt ->
        d = date_text (year dt) (month dt) (day dt)
        /\ valid_date (year dt) (month dt) (day dt) = true
        /\ length d = 10%nat)
  /\ (truthy (PStr (u "2024-02-29T10:20:30Z")) = true ->
      published_datetime read_isoformat
        (py_str repr_quoted (PStr (u "2024-02-29T10:20:30Z"))) = None ->
      d = take 10 (py_str repr_quoted (PStr (u "2024-02-29T10:20:30Z")))).
Proof.
  exact (date_str_shape repr_quoted read_isoformat (PStr (u "2024-02-29T10:20:30Z"))
           read_isoformat_builds_dates).
Defined.

Lemma scalar_field_is_singleton_witness :
  normalize repr_quoted read_isoformat (<[u "categories" := PStr (u "cs.AI")]> sample_record)
  = normalize repr_quoted read_isoformat (<[u "categories" := PList [PStr (u "cs.AI")]]> sample_record)
  /\ main_loop repr_quoted read_isoformat
       ([] ++ <[u "categories" := PStr (u "cs.AI")]> sample_record :: []) init_state
     = main_loop repr_quoted read_isoformat
         ([] ++ <[u "categories" := PList [PStr (u "cs.AI")]]> sample_record :: [])
         init_state.
Proof.
  apply (scalar_field_is_singleton repr_quoted read_isoformat sample_record (u "categories")
           (u "cs.AI") [] [] init_state).
  - by left.
  - vm_compute. discriminate.
Defined.

Lemma identifier_only_record_witness :
  normalize repr_quoted read_isoformat {[ u "id" := PStr (u " A1 ") ]}
  = Ok (Some (mk_Paper (record_id repr_quoted {[ u "id" := PStr (u " A1 ") ]})
                [] [] [] [] (u "1970-01-01") (u "1970-01-01T00:00:00Z") []))
  /\ denormalize repr_quoted
       (mk_Paper (record_id repr_quoted {[ u "id" := PStr (u " A1 ") ]})
          [] [] [] [] (u "1970-01-01") (u "1970-01-01T00:00:00Z") [])
     = [id_item
          (mk_Paper (record_id repr_quoted {[ u "id" := PStr (u " A1 ") ]})
             [] [] [] [] (u "1970-01-01") (u "1970-01-01T00:00:00Z") [])]
  /\ main repr_quoted read_isoformat [{[ u "id" := PStr (u " A1 ") ]}]
     = (mk_state
          [id_item
             (mk_Paper (record_id repr_quoted {[ u "id" := PStr (u " A1 ") ]})
                [] [] [] [] (u "1970-01-01") (u "1970-01-01T00:00:00Z") [])]
          1 1 0 0 0 1, None).
Proof.
  apply (identifier_only_record repr_quoted read_isoformat {[ u "id" := PStr (u " A1 ") ]});
    vm_compute; first [reflexivity | discriminate].
Defined.

(** ** The table definition and its users *)

Ltac on_schema ks := split; [exists ks; split; [by vm_compute | by cbn] | done].

(** X16.  The queries address the schema the loader creates: every index a
    query names is one of the three the table is created with, its key
    condition is an equality on that schema's partition key (and, for the
    date range, a range on its sort key), every key attribute is declared as
    a string, and no attribute is declared that no schema uses. *)
Theorem queries_address_created_schema :
  (forall ix, index_keys ix = (fun ks => (HASH ks, RANGE ks)) <$> schema_of ix)
  /\ (forall ks, ks ∈ KeySchema :: GlobalSecondaryIndexes.*2 ->
        (HASH ks, u "S") ∈ AttributeDefinitions
        /\ (RANGE ks, u "S") ∈ AttributeDefinitions)
  /\ (forall a ty, (a, ty) ∈ AttributeDefinitions ->
        exists ks, ks ∈ KeySchema :: GlobalSecondaryIndexes.*2
                   /\ (a = HASH ks \/ a = RANGE ks))
  /\ (forall table_name category limit,
        exists args, addresses_schema args
          /\ forall dynamodb,
               query_recent_in_category dynamodb table_name category limit
               = dynamodb table_name args)
  /\ (forall table_name author_name,
        exists args, addresses_schema args
          /\ forall dynamodb,
               query_papers_by_author dynamodb table_name author_name
               = dynamodb table_name args)
  /\ (forall table_name id,
        exists args, addresses_schema args
          /\ forall dynamodb,
               get_paper_by_id dynamodb table_name id
               = (items ← dynamodb table_name args; Ok (head items)))
  /\ (forall table_name category start_date end_date,
        exists args, addresses_schema args
          /\ forall dynamodb,
               query_papers_in_date_range dynamodb table_name category start_date end_date
               = dynamodb table_name args)
  /\ (forall str_lower table_name keyword limit,
        exists args, addresses_schema args
          /\ forall dynamodb,
               query_papers_by_keyword dynamodb str_lower table_name keyword limit
               = dynamodb table_name args).
Proof.
  split.
  { intros [n |]; [| done]. unfold index_keys, schema_of, GlobalSecondaryIndexes.
    cbn [find fst snd].
    destruct (decide (n = u "AuthorIndex")) as [-> | N1]; [by vm_compute |].
    rewrite (bool_decide_false (n = _)), (bool_decide_false (_ = n)) by done.
    destruct (decide (n = u "PaperIdIndex")) as [-> | N2]; [by vm_compute |].
    rewrite (bool_decide_false (n = _)), (bool_decide_false (_ = n)) by done.
    destruct (decide (n = u "KeywordIndex")) as [-> | N3]; [by vm_compute |].
    by rewrite (bool_decide_false (n = _)), (bool_decide_false (_ = n)) by done. }
  split.
  { intros ks Hks. unfold GlobalSecondaryIndexes in Hks. cbn [fmap list_fmap snd] in Hks.
    unfold AttributeDefinitions.
    rewrite !elem_of_cons, elem_of_nil in Hks.
    destruct Hks as [-> | [-> | [-> | [-> | []]]]]; cbn [HASH RANGE KeySchema];
      split; rewrite !elem_of_cons; tauto. }
  split.
  { intros a ty Ha. unfold AttributeDefinitions in Ha.
    unfold GlobalSecondaryIndexes. cbn [fmap list_fmap snd].
    rewrite !elem_of_cons, elem_of_nil in Ha.
    destruct Ha as [[= -> _] | [[= -> _] | [[= -> _] | [[= -> _] | [[= -> _] |
                   [[= -> _] | [[= -> _] | [[= -> _] | []]]]]]]]].
    1, 2: exists KeySchema; split; [by left | cbn; tauto].
    1, 2: exists (mk_key_schema (u "GSI1PK") (u "GSI1SK"));
      split; [rewrite !elem_of_cons; tauto | cbn; tauto].
    1, 2: exists (mk_key_schema (u "GSI2PK") (u "GSI2SK"));
      split; [rewrite !elem_of_cons; tauto | cbn; tauto].
    1, 2: exists (mk_key_schema (u "GSI3PK") (u "GSI3SK"));
      split; [rewrite !elem_of_cons; tauto | cbn; tauto]. }
  split.
  { intros tn category limit.
    exists (mk_query None (KeyEq (u "PK") (u "CATEGORY#" ++ category)) false (Some limit)).
    on_schema KeySchema. }
  split.
  { intros tn author_name.
    exists (mk_query (Some (u "AuthorIndex"))
              (KeyEq (u "GSI1PK") (u "AUTHOR#" ++ author_name)) true None).
    on_schema (mk_key_schema (u "GSI1PK") (u "GSI1SK")). }
  split.
  { intros tn id.
    exists (mk_query (Some (u "PaperIdIndex"))
              (KeyEq (u "GSI2PK") (u "PAPER#" ++ id)) true None).
    on_schema (mk_key_schema (u "GSI2PK") (u "GSI2SK")). }
  split.
  { intros tn category start_date end_date.
    exists (mk_query None
              (KeyAnd (KeyEq (u "PK") (u "CATEGORY#" ++ category))
                      (KeyBetween (u "SK") (start_date ++ u "#")
                                  (end_date ++ u "#zzzzzzz")))
              true None).
    on_schema KeySchema. }
  intros str_lower tn keyword limit.
  exists (mk_query (Some (u "KeywordIndex"))
            (KeyEq (u "GSI3PK") (u "KEYWORD#" ++ str_lower keyword)) false (Some limit)).
  on_schema (mk_key_schema (u "GSI3PK") (u "GSI3SK")).
Qed.

Section Shape.
Context (repr_str : str -> str) (fromisoformat : str -> option datetime).

Lemma sort_key_nonempty p : sort_key p <> [].
Proof.
  unfold sort_key. intros H. apply (f_equal length) in H.
  rewrite !length_app in H. simpl in H. lia.
Qed.

Lemma startswith_app p x : Str.startswith (p ++ x) p = true.
Proof.
  induction p as [| c p IH]; simpl; [by destruct x |].
  by rewrite N.eqb_refl.
Qed.

Ltac index_cases :=
  let ix := fresh "ix" in
  let ks := fresh "ks" in
  let H := fresh "H" in
  intros ix ks H; unfold GlobalSecondaryIndexes in H;
  rewrite !elem_of_cons, elem_of_nil in H;
  destruct H as [[= -> ->] | [[= -> ->] | [[= -> ->] | []]]];
  vm_compute; split; reflexivity.

(** X17.  Every request of a load is an item with string keys: its kind is
    one of the four, its partition key starts with the kind and [#], its sort
    key is not empty, and it repeats its key pair under the key attributes of
    the index of its kind and carries no key attribute of any other index
    (a CATEGORY item carries none).  So each index holds the items of one
    kind only. *)
Theorem written_items_keyed (papers : list pydict) :
  Forall (fun it : item =>
            exists kind pk sk,
              attr_str it (u "item_type") = Some kind
              /\ kind ∈ kinds
              /\ attr_str it (u "PK") = Some pk
              /\ attr_str it (u "SK") = Some sk
              /\ Str.startswith pk (kind ++ u "#") = true
              /\ sk <> []
              /\ forall ix ks, (ix, ks) ∈ GlobalSecondaryIndexes ->
                   if decide (index_of_kind kind = Some ix)
                   then attr_str it (HASH ks) = Some pk
                        /\ attr_str it (RANGE ks) = Some sk
                   else attr_str it (HASH ks) = None
                        /\ attr_str it (RANGE ks) = None)
         (batch (main repr_str fromisoformat papers).1).
Proof.
  apply main_loop_Forall; [| constructor].
  intros p. apply denormalize_Forall.
  - intros cat. exists (u "CATEGORY"), (u "CATEGORY#" ++ py_str repr_str cat), (sort_key p).
    split; [by vm_compute |]. split; [unfold kinds; rewrite !elem_of_cons; tauto |].
    split; [by vm_compute |]. split; [by vm_compute |].
    split; [apply (startswith_app (u "CATEGORY#")) |].
    split; [apply sort_key_nonempty |]. index_cases.
  - intros s. exists (u "AUTHOR"), (u "AUTHOR#" ++ s), (sort_key p).
    split; [by vm_compute |]. split; [unfold kinds; rewrite !elem_of_cons; tauto |].
    split; [by vm_compute |]. split; [by vm_compute |].
    split; [apply (startswith_app (u "AUTHOR#")) |].
    split; [apply sort_key_nonempty |]. index_cases.
  - intros s. exists (u "KEYWORD"), (u "KEYWORD#" ++ s), (sort_key p).
    split; [by vm_compute |]. split; [unfold kinds; rewrite !elem_of_cons; tauto |].
    split; [by vm_compute |]. split; [by vm_compute |].
    split; [apply (startswith_app (u "KEYWORD#")) |].
    split; [apply sort_key_nonempty |]. index_cases.
  - exists (u "PAPER"), (u "PAPER#" ++ arxiv_id p), (u "PAPER").
    split; [by vm_compute |]. split; [unfold kinds; rewrite !elem_of_cons; tauto |].
    split; [by vm_compute |]. split; [by vm_compute |].
    split; [apply (startswith_app (u "PAPER#")) |].
    split; [by vm_compute |]. index_cases.
Qed.

End Shape.

(** ** Requests with missing parameters *)

Section Requests.
Context (dynamodb : str -> query_args -> result (list item)).
Context (str_lower : str -> str).
Context (urlparse : str -> result (str * str)).
Context (parse_qs : str -> result (gmap str (list str))).
Context (unquote : str -> str) (py_int : str -> result Z).

Lemma handle_search qs :
  handle dynamodb str_lower unquote py_int (u "/papers/search") qs
  = (category ← qs_first qs (u "category") None;
     start_date ← qs_first qs (u "start") None;
     end_date ← qs_first qs (u "end") None;
     if blank category || blank start_date || blank end_date then
       Ok (missing_parameter_response "Missing category/start/end parameters")
     else
       items ← query_papers_in_date_range dynamodb TABLE_NAME
                 (default [] category) (default [] start_date) (default [] end_date);
       _send_json 200
         (JObject [(u "category", JVal (PStr (default [] category)));
                   (u "start", JVal (PStr (default [] start_date)));
                   (u "end", JVal (PStr (default [] end_date)));
                   (u "count", count_of items);
                   (u "papers", JItems items)])).
Proof.
  unfold handle.
  assert (H1 : bool_decide (u "/papers/search" = u "/papers/recent") = false)
    by by vm_compute.
  assert (H2 : Str.startswith (u "/papers/search") (u "/papers/author/") = false)
    by by vm_compute.
  assert (H3 : Str.startswith (u "/papers/search") (u "/papers/search") = true)
    by by vm_compute.
  assert (H4 : bool_decide (u "/papers/search" = u "/papers/search") = true)
    by by vm_compute.
  rewrite H1, H2, H3, H4. rewrite !andb_false_r. reflexivity.
Qed.

Lemma handle_recent qs :
  handle dynamodb str_lower unquote py_int (u "/papers/recent") qs
  = (category ← qs_first qs (u "category") None;
     limit_raw ← qs_first qs (u "limit") (Some (u "20"));
     limit ← py_int (default [] limit_raw);
     if blank category then Ok (missing_parameter_response "Missing category parameter")
     else
       items ← query_recent_in_category dynamodb TABLE_NAME (default [] category) limit;
       _send_json 200 (JObject [(u "category", JVal (PStr (default [] category)));
                                (u "count", count_of items);
                                (u "papers", JItems items)])).
Proof.
  unfold handle.
  assert (H1 : bool_decide (u "/papers/recent" = u "/papers/recent") = true)
    by by vm_compute.
  by rewrite H1.
Qed.

(** X18.  A date-range search that lacks one of [category], [start] and
    [end] (absent or empty) is answered 400 with the fixed error text,
    whatever the store would do: the store is not asked. *)
Theorem search_requires_parameters
  (target : str) (qs : gmap str (list str)) (category start_date end_date : option str) :
  parses_to urlparse parse_qs target (u "/papers/search") qs ->
  qs_first qs (u "category") None = Ok category ->
  qs_first qs (u "start") None = Ok start_date ->
  qs_first qs (u "end") None = Ok end_date ->
  blank category || blank start_date || blank end_date = true ->
  do_GET dynamodb str_lower urlparse parse_qs unquote py_int target
  = Ok (missing_parameter_response "Missing category/start/end parameters").
Proof.
  intros Hparse Hc Hs He Hb. rewrite (do_GET_parsed _ _ _ _ _ _ _ _ _ Hparse).
  rewrite handle_search, Hc, Hs, He.
  cbn [mbind result_bind]. by rewrite Hb.
Qed.

(** X19.  On the recent-papers route the limit is converted before the
    category is looked at: without a category the answer is 400 with the
    fixed error text when the limit (given, or the default 20) converts, and
    500 with the text of the conversion error when it does not; the store is
    not asked in either case. *)
Theorem recent_requires_category
  (target : str) (qs : gmap str (list str)) (category limit_raw : option str) :
  parses_to urlparse parse_qs target (u "/papers/recent") qs ->
  qs_first qs (u "category") None = Ok category ->
  qs_first qs (u "limit") (Some (u "20")) = Ok limit_raw ->
  blank category = true ->
  (forall limit, py_int (default [] limit_raw) = Ok limit ->
     do_GET dynamodb str_lower urlparse parse_qs unquote py_int target
     = Ok (missing_parameter_response "Missing category parameter"))
  /\ (forall e, py_int (default [] limit_raw) = Raise e ->
        do_GET dynamodb str_lower urlparse parse_qs unquote py_int target
        = Ok (internal_error_response e))
  /\ (qs !! u "limit" = None -> limit_raw = Some (u "20")).
Proof.
  intros Hparse Hc Hl Hb. rewrite (do_GET_parsed _ _ _ _ _ _ _ _ _ Hparse).
  split; [| split].
  - intros limit Hi. rewrite handle_recent, Hc, Hl.
    cbn [mbind result_bind]. rewrite Hi. cbn [mbind result_bind]. by rewrite Hb.
  - intros e Hi. rewrite handle_recent, Hc, Hl.
    cbn [mbind result_bind]. by rewrite Hi.
  - intros Hq. unfold qs_first in Hl. rewrite Hq in Hl. by injection Hl.
Qed.


End Requests.

Lemma search_requires_parameters_witness :
  do_GET store_down Str.lower urlparse_plain parse_qs_plain unquote_plain int_twenty
    (u "/papers/search?category=cs.AI&start=2024-01-01")
  = Ok (missing_parameter_response "Missing category/start/end parameters").
Proof.
  apply (search_requires_parameters store_down Str.lower urlparse_plain parse_qs_plain
           unquote_plain int_twenty
           (u "/papers/search?category=cs.AI&start=2024-01-01")
           {[ u "category" := [u "cs.AI"]; u "start" := [u "2024-01-01"] ]}
           (Some (u "cs.AI")) (Some (u "2024-01-01")) None);
    try (vm_compute; reflexivity).
  exists (u "category=cs.AI&start=2024-01-01"). split; vm_compute; reflexivity.
Defined.

Lemma recent_requires_category_witness :
  (forall limit, int_twenty (default [] (Some (u "abc"))) = Ok limit ->
     do_GET store_down Str.lower urlparse_plain parse_qs_plain unquote_plain int_twenty
       (u "/papers/recent?limit=abc")
     = Ok (missing_parameter_response "Missing category parameter"))
  /\ (forall e, int_twenty (default [] (Some (u "abc"))) = Raise e ->
        do_GET store_down Str.lower urlparse_plain parse_qs_plain unquote_plain
          int_twenty (u "/papers/recent?limit=abc")
        = Ok (internal_error_response e))
  /\ (({[ u "limit" := [u "abc"] ]} : gmap str (list str)) !! u "limit" = None ->
      Some (u "abc") = Some (u "20")).
Proof.
  apply (recent_requires_category store_down Str.lower urlparse_plain parse_qs_plain
           unquote_plain int_twenty (u "/papers/recent?limit=abc")
           {[ u "limit" := [u "abc"] ]} None (Some (u "abc")));
    try (vm_compute; reflexivity).
  exists (u "limit=abc"). split; vm_compute; reflexivity.
Defined.

Section Stable.
Context (repr_str : str -> str) (fromisoformat : str -> option datetime).

(** X21.  Normalising a publication date is stable: for a valid date alone,
    or a valid timestamp to the second without offset, with [Z], with
    [+00:00] or with another offset of hours and minutes, normalising the
    timestamp the loader emitted gives the same date and the same timestamp
    again. *)
Theorem normalize_published_stable (y m d h mi s : N) (raw : str) :
  reads_isoformat fromisoformat ->
  valid_date y m d = true -> valid_time h mi s 0 = true ->
  raw = date_text y m d
  \/ raw = date_text y m d ++ u "T" ++ clock_text h mi s
  \/ raw = date_text y m d ++ u "T" ++ clock_text h mi s ++ u "Z"
  \/ raw = date_text y m d ++ u "T" ++ clock_text h mi s ++ u "+00:00"
  \/ (exists sg oh om,
        oh < 24 /\ om < 60 /\ 0 < oh * 60 + om /\ (sg = 43 \/ sg = 45)
        /\ raw = date_text y m d ++ u "T" ++ clock_text h mi s ++ sg :: offset_text oh om) ->
  normalize_published repr_str fromisoformat (PStr (normalize_published repr_str fromisoformat (PStr raw)).2)
  = normalize_published repr_str fromisoformat (PStr raw).
Proof.
  intros Hr Hd Ht [-> | [-> | [-> | [-> | (sg & oh & om & Hoh & Hom & Hpos & Hsg & ->)]]]].
  - pose proof (normalize_published_date_only repr_str fromisoformat y m d [] [] Hr Hd) as H.
    rewrite app_nil_r, app_nil_l in H. rewrite H by constructor. cbn [snd].
    change (u "T00:00:00") with (u "T" ++ clock_text 0 0 0).
    by rewrite normalize_published_naive.
  - rewrite (normalize_published_naive repr_str fromisoformat y m d h mi s Hr Hd Ht). cbn [snd].
    by rewrite normalize_published_naive.
  - rewrite (normalize_published_utc repr_str fromisoformat y m d h mi s (u "Z") Hr Hd Ht
               (or_introl eq_refl)).
    cbn [snd].
    by rewrite (normalize_published_utc repr_str fromisoformat y m d h mi s (u "Z") Hr Hd Ht
                  (or_introl eq_refl)).
  - rewrite (normalize_published_utc repr_str fromisoformat y m d h mi s (u "+00:00") Hr Hd Ht
               (or_intror eq_refl)).
    cbn [snd].
    by rewrite (normalize_published_utc repr_str fromisoformat y m d h mi s (u "Z") Hr Hd Ht
                  (or_introl eq_refl)).
  - rewrite (normalize_published_offset repr_str fromisoformat y m d h mi s sg oh om) by done.
    cbn [snd]. by rewrite normalize_published_offset.
Qed.

End Stable.

Lemma normalize_published_stable_witness :
  normalize_published repr_quoted read_isoformat
    (PStr (normalize_published repr_quoted read_isoformat
             (PStr (date_text 2024 2 29 ++ u "T" ++ clock_text 10 20 30 ++ u "+00:00"))).2)
  = normalize_published repr_quoted read_isoformat
      (PStr (date_text 2024 2 29 ++ u "T" ++ clock_text 10 20 30 ++ u "+00:00")).
Proof.
  apply (normalize_published_stable repr_quoted read_isoformat 2024 2 29 10 20 30).
  - exact read_isoformat_reads.
  - vm_compute. reflexivity.
  - vm_compute. reflexivity.
  - right. right. right. left. reflexivity.
Defined.
